(* ===== verification/_CoqProject ===== *)
-Q . S2P
Prelude.v
Types.v
Service.v
Form.v
Sequencer.v
View.v
Async.v
Liveness.v
Export.v
Listing.v
Dashboard.v
Layout.v
JsValue.v
InitiativeForm.v
