(* ===== verification/Prelude.v ===== *)
(** * A verification development of SKKN Master (vanha70/sangkienkinhnghiempro)

    The program is a single-page React application.  A teacher fills in
    five fields ([src/components/SKKNForm.tsx]); [src/App.tsx] then drives
    a multi-turn conversation with a hosted chat model through
    [src/services/geminiService.ts], appends every streamed text chunk to
    one document buffer, and exports the buffer as a Word-compatible HTML
    file.  The stateful engine is the step sequencer of [App.tsx]:
    [startGeneration] opens a chat session and asks for an outline;
    [generateNextSection] looks the current step up in [nextStepMap],
    advances the step before the answer arrives and sends the next prompt.
    Beside it, an initiative form ([InitiativeForm.tsx]) asks the model
    for suggestions and for a JSON outline, and a list and a dashboard
    ([InitiativeList.tsx], [Dashboard.tsx]) filter and count initiatives.

    ** Files and what they model

    - [Prelude.v] (this file): the scope [js_scope] with the JavaScript
      string operators the code uses ([||] on strings, concatenation of a
      chunk sequence), the hint database [skkn], the tactics shared by the
      development and the generic lemmas on strings and lists.
    - [Types.v]: [src/types.ts] and [src/constants.ts]: the numeric enum
      [GenerationStep] (values 0..8, with the reverse mapping TypeScript
      generates), [UserInfo], [ChatMessage], [GenerationState], [Status],
      [Initiative], [STEPS_INFO], [SYSTEM_INSTRUCTION].
    - [Service.v]: [geminiService.ts]: the module-level [chatSession],
      [initializeGeminiChat], [sendMessageStream] split at its [await]s
      (the missing-session error, the chunk loop that skips empty texts),
      [getAISuggestions]' fallback.  The hosted model is the environment:
      its answer to a message is an input ([Stream]).
    - [Form.v]: [SKKNForm.tsx]: [isFormValid] with [String.prototype.trim]
      on code points (strings are read as UTF-8, decoded by [utf8_decode])
      and the submit button's [disabled] rule.
    - [Sequencer.v]: [App.tsx]'s handlers: the world (environment key,
      session, form values, [GenerationState]), every [setState] updater,
      the synchronous prefix of each handler, its continuations (chunk,
      completion, failure), [nextStepMap] as a [gmap Z], and the
      sequential runs of one handler with one stream ([run_start],
      [run_next]).
    - [View.v]: the decisions of [App.tsx]'s render, [Button.tsx] and
      [DocumentPreview.tsx]: sidebar marks, which buttons exist and are
      enabled, the error banner, form or preview; a [Button]'s variant,
      dimmed look, spinner and icon.
    - [Async.v]: the page as a labelled transition system ([tstep]) over a
      pool of handlers waiting in [await] ([Thread]), with clicks, typing,
      renders and stream events; [ui_step] restricts clicks to enabled
      controls of an up-to-date render.  [exec] is its executable form.
    - [Liveness.v]: the schedule that takes the guarded page from any
      reachable state to [COMPLETED].
    - [Export.v]: [exportToWord] ([App.tsx] 86-100): the HTML envelope,
      [encodeURIComponent] on UTF-8 bytes, the [data:] URL and the
      download name; and, modelled from the WHATWG URL and Fetch
      standards because the browser and not the repository does it, how
      the browser reads a [data:] URL ([data_url_read]: the fragment cut
      at the first [#], the media type up to the first comma, the body
      percent-decoded).
    - [Listing.v]: [InitiativeList.tsx]: the search and status filter,
      the table's rows and their actions, the empty state.
    - [Dashboard.v]: [Dashboard.tsx]: the counters, cards, chart data and
      recent activity.
    - [Layout.v]: [Layout.tsx]: the menu, the tab a click selects, the
      highlighted item and the header's title.
    - [JsValue.v]: the JavaScript values [JSON.parse] returns ([Val]),
      [String(v)], truthiness, property access, the response schemas of
      [@google/genai] with conformance of a value, and the interface to
      the JavaScript engine: the class [JsEngine] (number printing,
      [JSON.parse]) and its law class [JsEngineLaws].
    - [InitiativeForm.v]: [InitiativeForm.tsx] and [generateSKKNStructure]:
      the form's [Partial<Initiative>] as values of [Val], its controls
      (title input, three selects with their options, four AI sections),
      [handleAIHelp] and [handleMagicFill] split at their [await], the
      buttons' [disabled] rules, each AI section as rendered (spinner,
      button, textarea), the outline's response schema.

    ** Theorems

    - Sequencer: the functional behaviour of every branch of both handlers
      (missing key, completed stream, failed stream, missing session, no
      table entry); the buffer is the old buffer followed by the
      non-empty chunk texts in arrival order; a whole session of six
      streams ends on [COMPLETED] with the six prompts sent in order; each
      table entry moves one step forward.
    - Async: under the page's guards at most one stream is in flight and
      [isStreaming] is up exactly while one is (invariant [inv], by rule
      induction over [ui_step]); the step never moves backward; without
      a re-render between two clicks the race of [double_click_race]
      happens.  Two linking lemmas ([run_next_schedule],
      [run_start_schedule]) show that the sequential runs of [Sequencer.v]
      are schedules of the guarded page, so the Sequencer theorems
      describe what the page does when no other event comes between;
      [exec] decides [tstep], so concrete traces are checked by
      computation.
      Liveness ([ui_can_complete]): with an API key, from every state the
      page can reach, allowed events lead to [COMPLETED] (drain the
      stream, fill and submit the form, five "next section" clicks; by
      induction on the variant [steps_left]).
    - Sequencer, termination ([run_nexts_terminates]): five completed
      answers to "next section" clicks reach [COMPLETED] from any step of
      a session; each lowers [steps_left].
    - View, Form: exactly when each button accepts a click; validity is
      "each field has a non-whitespace code point"; each field of the
      form has one input, which updates it.
    - Export: a browser opening the link reads the Word media type and
      exactly the document's HTML, whatever the document holds (no [#]
      or comma of it cuts the URL); the download name is [SKKN_VANHA_],
      the year as [String(year)] prints it (a minus sign before year 0)
      and [.doc], and the year reads back from it.
    - Listing, Dashboard: the status filter keeps exactly the entries
      with the selected status, a longer search term only narrows the
      list, the empty state
      shows exactly when nothing matches and clearing shows one row per
      initiative; the dashboard's cards and pie slices add up to the total
      and each slice counts the list's rows with its label.
    - InitiativeForm: suggestions are appended to the field asked for;
      Magic Write alerts without a title, always succeeds on an answer
      that conforms to the response schema it sends (a refinement of the
      schema's promise), and crashes on an answer without text; its
      button is re-enabled while its request is pending; the form keeps
      its TypeScript type (strings in every property but [id]) under every
      handler, Magic Write only when the answer's fields are strings;
      each section's AI button fills the textarea under it and no other,
      with its spinner on that section alone.
    - Layout: a menu click highlights exactly the clicked item and titles
      the header with its label.

    ** Findings

    The double-click race ([App.tsx] line 72); the [PART_V_VI] entry of
    [nextStepMap] and a failed last stream resting on [PART_V_VI]
    (lines 69, 80); [startGeneration] does not validate the fields
    (line 33); a start stream without text keeps the old buffer (line 52);
    [APPENDIX] is unreachable; Magic Write crashes on an empty answer
    ([InitiativeForm.tsx] line 50) and its button is not disabled while
    a suggestion is pending (line 143); an answer missing a property
    writes [undefined] into the typed form (line 48); a select whose
    value is no option shows another value than the state holds
    (line 124); the dashboard's badges show the raw enum while the list
    shows labels ([Dashboard.tsx] line 131).

    ** Modelling choices, bounds and fuel

    JavaScript strings are UTF-16; the models use Rocq's [string], a byte
    sequence, read as the UTF-8 encoding of the JavaScript string: UTF-8
    is injective and maps concatenation and the empty string to
    themselves, so statements about concatenation, equality and emptiness
    transfer, and code-point operations ([trim], [toLowerCase],
    [includes]) work on the decoded code points.  React's
    [setState(prev => ...)] updaters are functions on the state applied in
    the order they are queued; an [await] splits a handler into atomic
    segments; a closure's captured state is the render's snapshot
    ([view_user], [view_state], [snap]).  The only fuel is the digit
    printer of [Export.v] (twenty digits, beyond any year a [Date] holds,
    which is at most six digits; [download_name_year] assumes fewer
    than twenty).  Library and engine functions the code only calls are
    parameters, and every theorem holds for all of them: [marked.parse]
    and [toLowerCase]'s Unicode table are section variables; number
    printing and [JSON.parse] are the operations of the class [JsEngine],
    and the one fact of ECMA-262 the form's theorems use
    ([JSON.parse("{}")] is an empty object) is the law class
    [JsEngineLaws]; the witnesses discharge it with a sample engine.

    ** Not modelled

    What is left of the sources carries no state and no decision: the
    imports, CSS classes, icons, static text and layout of the JSX (the
    labels of [SKKNForm.tsx], the decoration of [DocumentPreview.tsx],
    the header and avatar of [Layout.tsx], the chart components of
    [Dashboard.tsx]); every decision the JSX makes (enabled and disabled
    controls, what a panel, row, card, badge or select shows) is
    modelled.  Also left out: the markdown renderers ([marked],
    [react-markdown]), the DOM calls of the export (creating and clicking
    the link), [console.error], and the hosted model itself, whose
    answers are inputs (whether it honours the response schema is the
    hypothesis of [magicFill_conforming], not a fact of the code).
    [Layout], [Dashboard], [InitiativeList] and [InitiativeForm] are not
    mounted by [App.tsx]; they are modelled as components on their own.
*)

From stdpp Require Export base list strings gmap.
From Stdlib Require Export ZArith.

Declare Scope js_scope.
Delimit Scope js_scope with js.
Open Scope js_scope.

(** ** JavaScript string operators *)

(** [o || d] on a string that may be [undefined]: the empty string and
    [undefined] are falsy and give [d]. *)
Definition js_or (o : option string) (d : string) : string :=
  match o with
  | Some s => if String.eqb s "" then d else s
  | None => d
  end.

Notation "o ||| d" := (js_or o d) (at level 50, left associativity) : js_scope.

(** Truthiness of a string, as in [if (chunk.text)]. *)
Definition js_truthy (o : option string) : bool :=
  match o with
  | Some s => negb (String.eqb s "")
  | None => false
  end.

(** The concatenation of a sequence of fragments, in order. *)
Fixpoint str_concat (l : list string) : string :=
  match l with
  | [] => ""
  | s :: l' => s +:+ str_concat l'
  end.

Notation "'⟪' l '⟫'" := (str_concat l) (at level 0, l at level 200) : js_scope.

(** ** Generic lemmas on strings *)

Lemma str_app_nil_l (s : string) : "" +:+ s = s.
Proof. reflexivity. Qed.

(** stdpp declares [String.append] [simpl never]; this is its second
    equation, used to step through a concatenation. *)
Lemma str_app_cons (x : Ascii.ascii) (s t : string) :
  String x s +:+ t = String x (s +:+ t).
Proof. reflexivity. Qed.

Lemma str_app_nil_r (s : string) : s +:+ "" = s.
Proof. induction s as [|a s IH]; [done | by rewrite str_app_cons, IH]. Qed.

Lemma str_app_assoc (a b c : string) : a +:+ (b +:+ c) = (a +:+ b) +:+ c.
Proof. induction a as [|x a IH]; [done | by rewrite !str_app_cons, IH]. Qed.

Lemma str_length_app (a b : string) :
  String.length (a +:+ b) = String.length a + String.length b.
Proof. induction a as [|x a IH]; [done | rewrite str_app_cons; simpl; by rewrite IH]. Qed.

Lemma str_app_inj_l (s a b : string) : s +:+ a = s +:+ b -> a = b.
Proof.
  induction s as [|x s IH]; [done|].
  rewrite !str_app_cons. intros H. injection H as H. by apply IH.
Qed.

Lemma str_app_eq_nil (a b : string) : a +:+ b = "" -> a = "" /\ b = "".
Proof. destruct a; [done | discriminate]. Qed.

Lemma str_concat_app (l1 l2 : list string) :
  ⟪ l1 ++ l2 ⟫ = ⟪ l1 ⟫ +:+ ⟪ l2 ⟫.
Proof.
  induction l1 as [|s l1 IH]; simpl; [done|].
  by rewrite IH, str_app_assoc.
Qed.

(** A left fold that appends, as in [generatedText += chunk]. *)
Lemma fold_left_str_app (l : list string) (acc : string) :
  fold_left String.append l acc = acc +:+ ⟪ l ⟫.
Proof.
  revert acc. induction l as [|s l IH]; intros acc; simpl.
  - by rewrite str_app_nil_r.
  - by rewrite IH, str_app_assoc.
Qed.

Lemma js_truthy_spec (o : option string) :
  js_truthy o = true <-> exists s, o = Some s /\ s <> "".
Proof.
  destruct o as [s|]; simpl; split.
  - intros H. exists s. split; [done|]. intros ->. done.
  - intros (s' & [= <-] & Hs). destruct (String.eqb_spec s ""); done.
  - done.
  - by intros (? & ? & _).
Qed.

Lemma js_or_nonempty (s d : string) : s <> "" -> Some s ||| d = s.
Proof. intros Hs. simpl. destruct (String.eqb_spec s ""); done. Qed.

Lemma js_or_undefined (d : string) : None ||| d = d.
Proof. reflexivity. Qed.

Lemma js_or_falsy (t : option string) (d : string) : js_truthy t = false -> t ||| d = d.
Proof. destruct t as [s|]; simpl; [|done]. by destruct (String.eqb s ""). Qed.

(** ** Automation shared by the development *)

Create HintDb skkn.
Create Rewrite HintDb skkn.
#[export] Hint Rewrite str_app_cons str_app_nil_r str_app_nil_l str_concat_app
  fold_left_str_app str_length_app : skkn.
#[export] Hint Resolve str_app_inj_l : skkn.

(** Invert a hypothesis and clean up. *)
Ltac invc H := inversion H; subst; clear H.

(** Normalise string expressions with the rewrite base. *)
Ltac str_simpl := autorewrite with skkn in *.

(** Close a goal about concrete data with a hypothesis [H], an
    instance of a theorem at the same data: both are evaluated. *)
Ltac close_with H := vm_compute in H |- *; exact H.

(** Evaluate the boolean comparisons on [Z] in the goal, each decided by
    [lia] from the hypotheses. *)
Ltac zbool_eval :=
  repeat match goal with
  | |- context [(?a <? ?b)%Z] =>
      first [rewrite (proj2 (Z.ltb_lt a b)) by lia | rewrite (proj2 (Z.ltb_ge a b)) by lia]
  | |- context [(?a <=? ?b)%Z] =>
      first [rewrite (proj2 (Z.leb_le a b)) by lia | rewrite (proj2 (Z.leb_gt a b)) by lia]
  end.

(** [lia] after turning [/] and [mod] by constants into equations. *)
Ltac zlia := Z.div_mod_to_equations; lia.
