(* ===== verification/Types.v ===== *)
(** * Types.v: the data of [src/types.ts] and [src/constants.ts]

    [GenerationStep] is a TypeScript numeric enum: each constructor has a
    number ([step_value]) and the enum object maps numbers back to names
    ([step_of_value]); the JSX compares steps as numbers, so the order on
    steps is the order of their values.  [Status] is a string enum.  The
    records keep the field names of the interfaces; [Initiative] lives in
    its own module because it shares field names with [UserInfo]. *)

From S2P Require Import Prelude.

(** ** [enum GenerationStep] (types.ts) *)

Inductive GenerationStep :=
| INPUT_FORM
| OUTLINE
| PART_I_II
| PART_III
| PART_IV_SOL1
| PART_IV_SOL2
| PART_V_VI
| APPENDIX
| COMPLETED.

#[export] Instance GenerationStep_eq_dec : EqDecision GenerationStep.
Proof. solve_decision. Defined.

Definition step_value (s : GenerationStep) : Z :=
  match s with
  | INPUT_FORM => 0
  | OUTLINE => 1
  | PART_I_II => 2
  | PART_III => 3
  | PART_IV_SOL1 => 4
  | PART_IV_SOL2 => 5
  | PART_V_VI => 6
  | APPENDIX => 7
  | COMPLETED => 8
  end.

(** The reverse mapping [GenerationStep[n]] of a numeric enum. *)
Definition step_of_value (z : Z) : option GenerationStep :=
  match z with
  | 0%Z => Some INPUT_FORM
  | 1%Z => Some OUTLINE
  | 2%Z => Some PART_I_II
  | 3%Z => Some PART_III
  | 4%Z => Some PART_IV_SOL1
  | 5%Z => Some PART_IV_SOL2
  | 6%Z => Some PART_V_VI
  | 7%Z => Some APPENDIX
  | 8%Z => Some COMPLETED
  | _ => None
  end.

Definition all_steps : list GenerationStep :=
  [INPUT_FORM; OUTLINE; PART_I_II; PART_III; PART_IV_SOL1; PART_IV_SOL2;
   PART_V_VI; APPENDIX; COMPLETED].

(** ** [interface UserInfo], [ChatMessage], [GenerationState] (types.ts) *)

Record UserInfo := mkUserInfo {
  topic : string;
  subject : string;
  grade : string;
  school : string;
  textbook : string
}.

(** [keyof UserInfo]. *)
Inductive UserField := Ftopic | Fsubject | Fgrade | Fschool | Ftextbook.

#[export] Instance UserField_eq_dec : EqDecision UserField.
Proof. solve_decision. Defined.

Definition user_field (f : UserField) (u : UserInfo) : string :=
  match f with
  | Ftopic => topic u
  | Fsubject => subject u
  | Fgrade => grade u
  | Fschool => school u
  | Ftextbook => textbook u
  end.

(** [Object.values(userInfo)], in declaration order. *)
Definition user_values (u : UserInfo) : list string :=
  [topic u; subject u; grade u; school u; textbook u].

Inductive Role := user | model.

Record ChatMessage := mkChatMessage { role : Role; text : string }.

Record GenerationState := mkState {
  step : GenerationStep;
  messages : list ChatMessage;
  fullDocument : string;
  isStreaming : bool;
  error : option string
}.

(** ** [enum Status] and [interface Initiative] (types.ts) *)

Inductive Status := DRAFT | PENDING | APPROVED.

#[export] Instance Status_eq_dec : EqDecision Status.
Proof. solve_decision. Defined.

Definition status_value (s : Status) : string :=
  match s with
  | DRAFT => "DRAFT"
  | PENDING => "PENDING"
  | APPROVED => "APPROVED"
  end.

Module Initiatives.
Record Initiative := mkInitiative {
id : string;
title : string;
subject : string;
grade : string;
year : string;
abstract : string;
situation : string;
solutions : string;
results : string;
status : Status
}.
End Initiatives.

(** ** [STEPS_INFO] and [SYSTEM_INSTRUCTION] (constants.ts) *)

Record StepInfo := mkStepInfo { label : string; description : string }.

(** [Object.entries(STEPS_INFO)]: integer keys in ascending order. *)
Definition STEPS_INFO : list (Z * StepInfo) :=
  [(0%Z, mkStepInfo "Thông tin" "Thiết lập thông tin cơ bản");
   (1%Z, mkStepInfo "Lập Dàn Ý" "Xây dựng khung sườn cho SKKN");
   (2%Z, mkStepInfo "Phần I & II" "Đặt vấn đề & Cơ sở lý luận");
   (3%Z, mkStepInfo "Phần III" "Thực trạng vấn đề");
   (4%Z, mkStepInfo "Giải pháp 1" "Chi tiết giải pháp trọng tâm 1");
   (5%Z, mkStepInfo "Giải pháp 2-3" "Chi tiết các giải pháp tiếp theo");
   (6%Z, mkStepInfo "Phần V, VI & Phụ lục" "Hiệu quả & Kết luận");
   (7%Z, mkStepInfo "Hoàn tất" "Xuất bản tài liệu");
   (8%Z, mkStepInfo "Hoàn tất" "Đã xong")].

(** The double quote, written once because the instruction quotes the
    commands the model will receive. *)
Definition dq : string := String (Ascii.ascii_of_nat 34) EmptyString.

Definition SYSTEM_INSTRUCTION : string :=
  "
# 🔮 KÍCH HOẠT CHẾ ĐỘ: CHUYÊN GIA GIÁO DỤC CẤP QUỐC GIA (ULTRA-DETAILED MODE)

## 👑 PHẦN 1: THIẾT LẬP VAI TRÒ & TƯ DUY CỐT LÕI
Bạn là **Chuyên gia Giáo dục & Thẩm định Sáng kiến kinh nghiệm (SKKN)** hàng đầu Việt Nam.
Nhiệm vụ: Viết SKKN chất lượng cao, độ dài và chi tiết như văn bản thật.
Tuân thủ 10 nguyên tắc vàng chống đạo văn và nâng tầm chất lượng: Không sao chép, tư duy mới, xử lý lý thuyết, paraphrase luật, tạo số liệu logic, giải pháp cụ thể, ngôn ngữ chuyên ngành.

## 🏗️ PHẦN 3: CẤU TRÚC SKKN CHI TIẾT
Bạn sẽ viết lần lượt theo quy trình.
- PHẦN I: ĐẶT VẤN ĐỀ (Bối cảnh, Lý do, Mục đích, Đối tượng, Phương pháp, Tính mới).
- PHẦN II: CƠ SỞ LÝ LUẬN (Pháp lý, Lý luận giáo dục - Piaget/Vygotsky/Gardner, Đặc điểm tâm sinh lý).
- PHẦN III: THỰC TRẠNG (Đặc điểm trường, Thực trạng dạy/học, Số liệu khảo sát logic, Nguyên nhân).
- PHẦN IV: CÁC GIẢI PHÁP (Trọng tâm, chi tiết từng bước, ví dụ minh họa, giáo án, công cụ).
- PHẦN V: HIỆU QUẢ (Số liệu đối chứng, Định tính, Minh chứng).
- PHẦN VI: KẾT LUẬN & KHUYẾN NGHỊ.
- PHỤ LỤC.

## 🚀 QUY TRÌNH THỰC THI (QUAN TRỌNG)
Bạn sẽ không viết tất cả cùng lúc. Bạn sẽ viết từng phần dựa trên yêu cầu của người dùng.
1. Nhận thông tin đầu vào -> Lập Dàn Ý.
2. Nhận lệnh " +:+ dq +:+
  "Viết Phần I & II" +:+ dq +:+
  " -> Viết chi tiết Phần I và II.
3. Nhận lệnh " +:+ dq +:+
  "Viết Phần III" +:+ dq +:+
  " -> Viết chi tiết Phần III.
4. Nhận lệnh " +:+ dq +:+
  "Viết Giải Pháp 1" +:+ dq +:+
  " -> Viết chi tiết Giải pháp 1.
5. Nhận lệnh " +:+ dq +:+
  "Viết Giải Pháp 2 & 3" +:+ dq +:+
  " -> Viết chi tiết Giải pháp 2 và 3.
6. Nhận lệnh " +:+ dq +:+
  "Viết Phần V & VI & Phụ lục" +:+ dq +:+
  " -> Hoàn thiện.

Lưu ý: Sử dụng định dạng Markdown chuyên nghiệp. Tiêu đề rõ ràng. Bảng biểu dùng Markdown Table.
".

(** ** Decidable equality *)

#[export] Instance Role_eq_dec : EqDecision Role.
Proof. solve_decision. Defined.
#[export] Instance ChatMessage_eq_dec : EqDecision ChatMessage.
Proof. solve_decision. Defined.
#[export] Instance UserInfo_eq_dec : EqDecision UserInfo.
Proof. solve_decision. Defined.
#[export] Instance GenerationState_eq_dec : EqDecision GenerationState.
Proof. solve_decision. Defined.

(** ** Lemmas *)

(** the reverse mapping of the numeric enum inverts its values: a
    number names a step exactly when it is that step's value. *)
Theorem step_of_value_iff (z : Z) (s : GenerationStep) :
  step_of_value z = Some s <-> step_value s = z.
Proof.
  split.
  - intros H. destruct z as [|p|p]; [by injection H as <-| |done].
    do 4 (try destruct p as [p|p|]); try done; by injection H as <-.
  - intros <-. by destruct s.
Qed.

Lemma step_of_value_iff_witness :
  step_of_value 5%Z = Some PART_IV_SOL2 <-> step_value PART_IV_SOL2 = 5%Z.
Proof. apply step_of_value_iff. Defined.

Lemma step_value_inj : Inj eq eq step_value.
Proof.
  intros s1 s2 H. apply (inj Some).
  by rewrite <- (proj2 (step_of_value_iff _ s1) eq_refl), H, (proj2 (step_of_value_iff _ s2) eq_refl).
Qed.

Lemma step_value_range (s : GenerationStep) : (0 <= step_value s <= 8)%Z.
Proof. destruct s; simpl; lia. Qed.

#[export] Instance GenerationStep_countable : Countable GenerationStep.
Proof.
  refine (inj_countable step_value step_of_value _).
  intros s. by apply step_of_value_iff.
Defined.

(** The order in which the JSX compares steps ([state.step > stepNum]). *)
Definition step_le (a b : GenerationStep) : Prop := (step_value a <= step_value b)%Z.

#[export] Instance step_le_dec : RelDecision step_le.
Proof. intros a b. unfold step_le. apply _. Defined.

#[export] Instance step_le_preorder : PreOrder step_le.
Proof. split; [intros a; red; lia | intros a b c; unfold step_le; lia]. Qed.

#[export] Hint Resolve step_value_range : skkn.
