(* ===== verification/Service.v ===== *)
(** * Service.v: [src/services/geminiService.ts]

    The module keeps one global, [let chatSession: Chat | null], set by
    [initializeGeminiChat] and read by [sendMessageStream].  The hosted
    model is the environment: the chunks it streams back and whether the
    stream ends normally or fails are an input, a [Stream].  A [Chat]
    records what the program gives the SDK: the key, the model name, the
    configuration and the messages sent through it, in order.

    [sendMessageStream] is split at its [await]s: [send_begin] is the
    synchronous part (the null check, then the call that sends the
    message), [forward_chunk] is one turn of the [for await] loop, and
    [sendMessageStream] composes them with the end of the stream. *)

From S2P Require Import Prelude Types.
From Stdlib Require Import QArith.

(** ** Configuration passed to [ai.chats.create] (lines 11-22) *)

Record ChatConfig := mkChatConfig {
  systemInstruction : string;
  temperature : Q;
  topK : Z;
  topP : Q;
  maxOutputTokens : Z;
  thinkingBudget : Z
}.

Record Chat := mkChat {
  chat_apiKey : option string;
  chat_model : string;
  chat_config : ChatConfig;
  chat_sent : list string
}.

Definition gemini_config : ChatConfig :=
  mkChatConfig SYSTEM_INSTRUCTION (7 # 10) 64 (95 # 100) 4096 1024.

(** [initializeGeminiChat] (lines 8-24): a fresh session built with the
    environment's key; it replaces the module-level [chatSession]. *)
Definition initializeGeminiChat (apiKey : option string) : Chat :=
  mkChat apiKey "gemini-3-pro-preview" gemini_config [].

(** ** Streaming (lines 27-42) *)

(** One element of [responseStream]; its [.text] may be [undefined]. *)
Record Chunk := mkChunk { chunk_text : option string }.

Inductive StreamEnd :=
| StreamDone
| StreamFailed (message : string).

(** What the model answers to one message: the chunks, then normal
    completion or a transport error (a failure before the first chunk is
    a [Stream] with no chunks). *)
Record Stream := mkStream { chunks : list Chunk; stream_end : StreamEnd }.

Definition not_initialized_msg : string := "Chat session not initialized".

(** The session after the SDK's [chatSession.sendMessageStream] sent
    [message] on it. *)
Definition chat_after_send (c : Chat) (message : string) : Chat :=
  {| chat_apiKey := chat_apiKey c; chat_model := chat_model c;
     chat_config := chat_config c; chat_sent := chat_sent c ++ [message] |}.

(** The synchronous part of [sendMessageStream] (lines 28-31): with no
    session the promise is rejected with [not_initialized_msg]; otherwise
    the message goes out on the session. *)
Definition send_begin (cs : option Chat) (message : string)
    : option Chat + string :=
  match cs with
  | None => inr not_initialized_msg
  | Some c => inl (Some (chat_after_send c message))
  end.

(** How the awaited stream settles: [None] when it resolves,
    [Some error.message] when it rejects (the [catch] of lines 38-41
    rethrows). *)
Definition end_result (e : StreamEnd) : option string :=
  match e with
  | StreamDone => None
  | StreamFailed m => Some m
  end.

Section Forward.
(** The caller's state and its [onChunk] callback. *)
Context {S : Type} (onChunk : string -> S -> S).

(** One turn of [for await (const chunk of responseStream)]:
  [if (chunk.text) onChunk(chunk.text)]. *)
Definition forward_chunk (s : S) (c : Chunk) : S :=
match chunk_text c with
| Some t => if String.eqb t "" then s else onChunk t s
| None => s
end.

(** The whole loop over the chunks received. *)
Definition forward_chunks (cs : list Chunk) (s : S) : S :=
fold_left forward_chunk cs s.

(** [sendMessageStream] run to the end: the session after sending, the
  caller's state after every callback, and [None] when the promise
  resolves or [Some message] when it rejects. *)
Definition sendMessageStream (cs : option Chat) (message : string)
  (resp : Stream) (s : S) : option Chat * S * option string :=
match send_begin cs message with
| inr err => (cs, s, Some err)
| inl cs' =>
    (cs', forward_chunks (chunks resp) s, end_result (stream_end resp))
end.
End Forward.

(** The texts the callback receives: the truthy [.text] fields, in order. *)
Definition stream_texts (cs : list Chunk) : list string :=
  omap (fun c => match chunk_text c with
                 | Some t => if String.eqb t "" then None else Some t
                 | None => None
                 end) cs.

(** ** [getAISuggestions] (lines 45-53): [return response.text || ""]. *)
Definition getAISuggestions_result (response_text : option string) : string :=
  response_text ||| "".

(** ** Properties of the streaming loop *)

Section ForwardLemmas.
Context {S : Type} (onChunk : string -> S -> S).

(** C30: the callback receives exactly the truthy chunk texts, in
  arrival order: no text is dropped, reordered or repeated, and the
  empty or missing ones are skipped. *)
Lemma forward_chunks_texts (cs : list Chunk) (s : S) :
forward_chunks onChunk cs s =
fold_left (fun s t => onChunk t s) (stream_texts cs) s.
Proof.
unfold forward_chunks. revert s.
induction cs as [|[[t|]] cs IH]; intros s; simpl; [done| |by apply IH].
unfold forward_chunk at 2; simpl.
destruct (String.eqb t ""); simpl; apply IH.
Qed.

(** The whole call: a missing session rejects without calling back;
  otherwise the message is recorded on the session, every truthy
  text is forwarded, and the promise settles as the stream ends. *)
Lemma sendMessageStream_spec (cs : option Chat) (message : string)
  (resp : Stream) (s : S) :
sendMessageStream onChunk cs message resp s =
match cs with
| None => (None, s, Some not_initialized_msg)
| Some c =>
    (Some (chat_after_send c message),
     fold_left (fun s t => onChunk t s) (stream_texts (chunks resp)) s,
     end_result (stream_end resp))
end.
Proof.
unfold sendMessageStream. destruct cs as [c|]; simpl; [|done].
by rewrite forward_chunks_texts.
Qed.
End ForwardLemmas.

Lemma stream_texts_app (l1 l2 : list Chunk) :
  stream_texts (l1 ++ l2) = stream_texts l1 ++ stream_texts l2.
Proof. apply omap_app. Qed.

Lemma stream_texts_nonempty (cs : list Chunk) : Forall (fun t => t <> "") (stream_texts cs).
Proof.
  induction cs as [|[[t|]] cs IH]; simpl; [constructor| |done].
  destruct (String.eqb_spec t ""); [done|]. by constructor.
Qed.
