(* ===== verification/Form.v ===== *)
(** * Form.v: [src/components/SKKNForm.tsx]

    The form's submit button is enabled by [isFormValid]:
    [Object.values(userInfo).every(val => val.trim() !== '')] (line 27).
    [String.prototype.trim] removes the ECMAScript WhiteSpace and
    LineTerminator code points at both ends, so it is modelled on code
    points: the string (the UTF-8 bytes of the JavaScript string) is
    decoded, trimmed, and encoded back.  The decoder maps a malformed
    byte to U+FFFD; the strings of the program come from JavaScript and
    are always well formed, so that branch is never taken on them.
    [handleChange] (lines 23-25) turns an input's [name] into a key of
    [UserInfo]; [inputs] lists the five inputs with the field each one
    shows. *)

From S2P Require Import Prelude Types.

Local Open Scope Z_scope.

(** ** UTF-8 *)

Definition bytes_of_string (s : string) : list Z :=
  map (fun a => Z.of_nat (Ascii.nat_of_ascii a)) (String.list_ascii_of_string s).

Definition string_of_bytes (l : list Z) : string :=
  String.string_of_list_ascii (map (fun b => Ascii.ascii_of_nat (Z.to_nat b)) l).

Definition utf8_cont (b : Z) : bool := (0x80 <=? b) && (b <? 0xC0).

Fixpoint utf8_decode (l : list Z) : list Z :=
  match l with
  | [] => []
  | b0 :: r0 =>
      if b0 <? 0x80 then b0 :: utf8_decode r0
      else if (0xC0 <=? b0) && (b0 <? 0xE0) then
        match r0 with
        | b1 :: r1 =>
            if utf8_cont b1 then ((b0 - 0xC0) * 64 + (b1 - 0x80)) :: utf8_decode r1
            else 0xFFFD :: utf8_decode r0
        | [] => [0xFFFD]
        end
      else if (0xE0 <=? b0) && (b0 <? 0xF0) then
        match r0 with
        | b1 :: b2 :: r2 =>
            if utf8_cont b1 && utf8_cont b2
            then ((b0 - 0xE0) * 4096 + (b1 - 0x80) * 64 + (b2 - 0x80)) :: utf8_decode r2
            else 0xFFFD :: utf8_decode r0
        | _ => 0xFFFD :: utf8_decode r0
        end
      else if (0xF0 <=? b0) && (b0 <? 0xF8) then
        match r0 with
        | b1 :: b2 :: b3 :: r3 =>
            if utf8_cont b1 && utf8_cont b2 && utf8_cont b3
            then ((b0 - 0xF0) * 262144 + (b1 - 0x80) * 4096 + (b2 - 0x80) * 64
                  + (b3 - 0x80)) :: utf8_decode r3
            else 0xFFFD :: utf8_decode r0
        | _ => 0xFFFD :: utf8_decode r0
        end
      else 0xFFFD :: utf8_decode r0
  end.

Definition utf8_encode_cp (c : Z) : list Z :=
  if c <? 0x80 then [c]
  else if c <? 0x800 then [0xC0 + c / 64; 0x80 + c mod 64]
  else if c <? 0x10000 then [0xE0 + c / 4096; 0x80 + (c / 64) mod 64; 0x80 + c mod 64]
  else [0xF0 + c / 262144; 0x80 + (c / 4096) mod 64; 0x80 + (c / 64) mod 64;
        0x80 + c mod 64].

Definition utf8_encode (cps : list Z) : list Z := concat (map utf8_encode_cp cps).

(** ** [String.prototype.trim] *)

(** ECMAScript WhiteSpace (TAB, VT, FF, SP, NBSP, ZWNBSP and the
    category Zs) and LineTerminator (LF, CR, LS, PS). *)
Definition is_js_ws (c : Z) : bool :=
  bool_decide (c ∈ [0x09; 0x0A; 0x0B; 0x0C; 0x0D; 0x20; 0xA0; 0x1680; 0x2028;
                    0x2029; 0x202F; 0x205F; 0x3000; 0xFEFF]%Z)
  || ((0x2000 <=? c) && (c <=? 0x200A)).

Fixpoint drop_ws (l : list Z) : list Z :=
  match l with
  | [] => []
  | c :: r => if is_js_ws c then drop_ws r else l
  end.

Definition trim_cps (l : list Z) : list Z := rev (drop_ws (rev (drop_ws l))).

Definition js_trim (s : string) : string :=
  string_of_bytes (utf8_encode (trim_cps (utf8_decode (bytes_of_string s)))).

(** ** [isFormValid] (line 27) and the submit button (lines 117-125) *)

Definition isFormValid (u : UserInfo) : bool :=
  forallb (fun v => negb (String.eqb (js_trim v) "")) (user_values u).

(** [disabled={!isFormValid || isSubmitting}]. *)
Definition submit_disabled (u : UserInfo) (isSubmitting : bool) : bool :=
  negb (isFormValid u) || isSubmitting.

(** ** Lemmas *)

Lemma drop_ws_nil_iff (l : list Z) : drop_ws l = [] <-> Forall (fun c => is_js_ws c = true) l.
Proof.
  induction l as [|c l IH]; simpl; [split; [constructor|done]|].
  rewrite Forall_cons, <- IH.
  destruct (is_js_ws c) eqn:Hc; [tauto|].
  split; [done|]. intros [? _]; congruence.
Qed.

Lemma drop_ws_head (l r : list Z) (c : Z) : drop_ws l = c :: r -> is_js_ws c = false.
Proof.
  induction l as [|c' l IH]; simpl; [done|].
  destruct (is_js_ws c') eqn:Hc; [exact IH|]. by intros [= <- _].
Qed.

Lemma trim_cps_nil_iff (l : list Z) :
  trim_cps l = [] <-> Forall (fun c => is_js_ws c = true) l.
Proof.
  unfold trim_cps. rewrite <- (drop_ws_nil_iff l).
  split; [|by intros ->].
  intros H. apply (f_equal (@rev Z)) in H. rewrite rev_involutive in H.
  apply drop_ws_nil_iff, Forall_rev in H. rewrite rev_involutive in H.
  destruct (drop_ws l) as [|c r] eqn:Hd; [done|].
  apply drop_ws_head in Hd. apply Forall_cons in H as [H _]. congruence.
Qed.

Lemma utf8_encode_cp_nonempty (c : Z) : utf8_encode_cp c <> [].
Proof. unfold utf8_encode_cp. by repeat case_match. Qed.

Lemma utf8_encode_nil_iff (l : list Z) : utf8_encode l = [] <-> l = [].
Proof.
  destruct l as [|c l]; [done|]. unfold utf8_encode; simpl.
  split; [|done]. intros H. apply app_eq_nil in H as [H _].
  by apply utf8_encode_cp_nonempty in H.
Qed.

Lemma string_of_bytes_nil_iff (l : list Z) : string_of_bytes l = "" <-> l = [].
Proof. destruct l; done. Qed.

Lemma js_trim_empty_iff (s : string) :
  js_trim s = "" <-> Forall (fun c => is_js_ws c = true) (utf8_decode (bytes_of_string s)).
Proof.
  unfold js_trim. by rewrite string_of_bytes_nil_iff, utf8_encode_nil_iff, trim_cps_nil_iff.
Qed.

Lemma field_not_blank_iff (v : string) :
  negb (String.eqb (js_trim v) "") = true <->
  Exists (fun c => is_js_ws c = false) (utf8_decode (bytes_of_string v)).
Proof.
  rewrite negb_true_iff.
  destruct (String.eqb_spec (js_trim v) "") as [E|E];
    rewrite js_trim_empty_iff, Forall_forall in E.
  - split; [done|]. rewrite Exists_exists. intros (c & Hc & Hw). apply E in Hc. congruence.
  - split; [intros _|done].
    destruct (decide (Exists (fun c => is_js_ws c = false) (utf8_decode (bytes_of_string v))))
      as [Hx|Hx]; [done|].
    exfalso. apply E. intros c Hc. destruct (is_js_ws c) eqn:W; [done|].
    exfalso. apply Hx, Exists_exists. eauto.
Qed.

(** C26: the submit button's validity test accepts exactly the forms in
    which every one of the five fields has a code point that is not
    JavaScript whitespace: a field of spaces, tabs, newlines or
    non-breaking spaces counts as empty. *)
Theorem isFormValid_iff (u : UserInfo) :
  isFormValid u = true <->
  Forall (fun v => Exists (fun c => is_js_ws c = false) (utf8_decode (bytes_of_string v)))
    (user_values u).
Proof.
  unfold isFormValid, user_values. simpl.
  rewrite ?andb_true_r, !andb_true_iff, !Forall_cons, !field_not_blank_iff.
  split; [intros (? & ? & ? & ? & ?) | intros (? & ? & ? & ? & ? & _)]; repeat split; done.
Qed.


(** ** The UTF-8 round trip *)

Lemma utf8_cont_iff (b : Z) : utf8_cont b = true <-> 0x80 <= b < 0xC0.
Proof. unfold utf8_cont. rewrite andb_true_iff, Z.leb_le, Z.ltb_lt. lia. Qed.

Lemma utf8_decode_1 (b0 : Z) (r : list Z) :
  b0 < 0x80 -> utf8_decode (b0 :: r) = b0 :: utf8_decode r.
Proof. intros H. simpl. by zbool_eval. Qed.

Lemma utf8_decode_2 (b0 b1 : Z) (r : list Z) :
  0xC0 <= b0 < 0xE0 -> 0x80 <= b1 < 0xC0 ->
  utf8_decode (b0 :: b1 :: r) = ((b0 - 0xC0) * 64 + (b1 - 0x80)) :: utf8_decode r.
Proof. intros H0 H1. simpl. unfold utf8_cont. zbool_eval. done. Qed.

Lemma utf8_decode_3 (b0 b1 b2 : Z) (r : list Z) :
  0xE0 <= b0 < 0xF0 -> 0x80 <= b1 < 0xC0 -> 0x80 <= b2 < 0xC0 ->
  utf8_decode (b0 :: b1 :: b2 :: r) =
    ((b0 - 0xE0) * 4096 + (b1 - 0x80) * 64 + (b2 - 0x80)) :: utf8_decode r.
Proof. intros H0 H1 H2. simpl. unfold utf8_cont. zbool_eval. done. Qed.

Lemma utf8_decode_4 (b0 b1 b2 b3 : Z) (r : list Z) :
  0xF0 <= b0 < 0xF8 -> 0x80 <= b1 < 0xC0 -> 0x80 <= b2 < 0xC0 -> 0x80 <= b3 < 0xC0 ->
  utf8_decode (b0 :: b1 :: b2 :: b3 :: r) =
    ((b0 - 0xF0) * 262144 + (b1 - 0x80) * 4096 + (b2 - 0x80) * 64 + (b3 - 0x80))
      :: utf8_decode r.
Proof. intros H0 H1 H2 H3. simpl. unfold utf8_cont. zbool_eval. done. Qed.

Lemma utf8_decode_cp (c : Z) (rest : list Z) :
  0 <= c < 0x110000 ->
  utf8_decode (utf8_encode_cp c ++ rest) = c :: utf8_decode rest.
Proof.
  intros Hc. unfold utf8_encode_cp.
  destruct (Z.ltb_spec c 0x80); [by apply utf8_decode_1|].
  destruct (Z.ltb_spec c 0x800); [|destruct (Z.ltb_spec c 0x10000)]; cbn [app].
  - rewrite utf8_decode_2 by zlia. f_equal. zlia.
  - rewrite utf8_decode_3 by zlia. f_equal. zlia.
  - rewrite utf8_decode_4 by zlia. f_equal. zlia.
Qed.

(** decoding the UTF-8 encoding of a sequence of Unicode scalar
    values gives the sequence back. *)
Theorem utf8_decode_encode (l : list Z) :
  Forall (fun c => 0 <= c < 0x110000) l -> utf8_decode (utf8_encode l) = l.
Proof.
  induction 1 as [|c l Hc _ IH]; [done|].
  change (utf8_encode (c :: l)) with (utf8_encode_cp c ++ utf8_encode l).
  by rewrite utf8_decode_cp, IH.
Qed.

(** ** [trim] is idempotent *)

Lemma drop_ws_suffix (l : list Z) : exists p, l = p ++ drop_ws l.
Proof.
  induction l as [|c l [p Hp]]; simpl; [by exists []|].
  destruct (is_js_ws c); [exists (c :: p); simpl; by f_equal | by exists []].
Qed.

Lemma drop_ws_id (l : list Z) (c : Z) (r : list Z) :
  l = c :: r -> is_js_ws c = false -> drop_ws l = l.
Proof. intros -> Hc. simpl. by rewrite Hc. Qed.

Lemma trim_cps_idem (l : list Z) : trim_cps (trim_cps l) = trim_cps l.
Proof.
  unfold trim_cps.
  remember (drop_ws l) as x eqn:Ex. remember (drop_ws (rev x)) as y eqn:Ey.
  destruct (drop_ws_suffix (rev x)) as [p Hp]. rewrite <- Ey in Hp.
  assert (Hx : x = rev y ++ rev p) by (rewrite <- rev_app_distr, <- Hp; by rewrite rev_involutive).
  assert (Hm : drop_ws (rev y) = rev y).
  { destruct (rev y) as [|c r] eqn:Er; [done|].
    apply (drop_ws_id _ c r eq_refl). apply (drop_ws_head l (r ++ rev p)).
    rewrite <- Ex, Hx. by rewrite ?Er. }
  rewrite Hm, rev_involutive. destruct y as [|c r]; [done|].
  rewrite (drop_ws_id (c :: r) c r eq_refl); [done|].
  by apply (drop_ws_head (rev x) r).
Qed.

Lemma bytes_of_string_of_bytes (l : list Z) :
  Forall (fun b => 0 <= b < 256) l -> bytes_of_string (string_of_bytes l) = l.
Proof.
  intros Hl. unfold bytes_of_string, string_of_bytes.
  rewrite String.list_ascii_of_string_of_list_ascii, map_map.
  induction Hl as [|b l Hb _ IH]; simpl; [done|]. cbv beta in Hb.
  rewrite IH, Ascii.nat_ascii_embedding by lia.
  f_equal. lia.
Qed.

Lemma utf8_encode_cp_bytes (c : Z) :
  0 <= c < 0x110000 -> Forall (fun b => 0 <= b < 256) (utf8_encode_cp c).
Proof.
  intros Hc. unfold utf8_encode_cp.
  destruct (Z.ltb_spec c 0x80); [|destruct (Z.ltb_spec c 0x800); [|destruct (Z.ltb_spec c 0x10000)]];
    repeat constructor; zlia.
Qed.

Lemma utf8_encode_bytes (l : list Z) :
  Forall (fun c => 0 <= c < 0x110000) l -> Forall (fun b => 0 <= b < 256) (utf8_encode l).
Proof.
  induction 1 as [|c l Hc _ IH]; [constructor|].
  change (utf8_encode (c :: l)) with (utf8_encode_cp c ++ utf8_encode l).
  apply Forall_app. split; [by apply utf8_encode_cp_bytes | done].
Qed.

Lemma trim_cps_sublist (l : list Z) (P : Z -> Prop) : Forall P l -> Forall P (trim_cps l).
Proof.
  intros Hl. unfold trim_cps. apply Forall_rev.
  destruct (drop_ws_suffix (rev (drop_ws l))) as [p Hp].
  destruct (drop_ws_suffix l) as [q Hq].
  rewrite Hq, Forall_app in Hl. destruct Hl as [_ Hl].
  apply Forall_rev in Hl. rewrite Hp, Forall_app in Hl. by destruct Hl.
Qed.

(** [String.prototype.trim] is idempotent on the strings of the
    program: trimming a trimmed field changes nothing (the hypothesis
    says the string is well-formed UTF-8 of Unicode scalar values, as
    every JavaScript string without lone surrogates is). *)
Theorem js_trim_idempotent (s : string) :
  Forall (fun c => 0 <= c < 0x110000) (utf8_decode (bytes_of_string s)) ->
  js_trim (js_trim s) = js_trim s.
Proof.
  intros Hs. unfold js_trim.
  pose proof (trim_cps_sublist _ _ Hs) as Ht.
  rewrite bytes_of_string_of_bytes by (by apply utf8_encode_bytes).
  by rewrite utf8_decode_encode, trim_cps_idem.
Qed.

Lemma js_trim_idempotent_witness :
  js_trim (js_trim ("  Toán 10" +:+ String (Ascii.ascii_of_nat 10) "")) =
  js_trim ("  Toán 10" +:+ String (Ascii.ascii_of_nat 10) "").
Proof.
  apply js_trim_idempotent.
  match goal with |- ?P => apply (bool_decide_eq_true_1 P) end. by vm_compute.
Defined.

(** ** The inputs and [handleChange] (lines 23-25, 50-105) *)

(** [e.target.name as keyof UserInfo]: the cast checks nothing at run
    time; a name that is no key of [UserInfo] (types.ts 2-8) is [None]. *)
Definition key_of_name (name : string) : option UserField :=
  if String.eqb name "topic" then Some Ftopic
  else if String.eqb name "subject" then Some Fsubject
  else if String.eqb name "grade" then Some Fgrade
  else if String.eqb name "school" then Some Fschool
  else if String.eqb name "textbook" then Some Ftextbook
  else None.

(** The five inputs: each one's [name] attribute and the field its
    [value] shows. *)
Definition inputs : list (string * UserField) :=
  [("topic", Ftopic); ("subject", Fsubject); ("grade", Fgrade); ("school", Fschool);
   ("textbook", Ftextbook)].

(** [handleChange]: the [onChange(field, value)] call an input's change
    makes. *)
Definition handleChange (name value : string) : option (UserField * string) :=
  option_map (fun f => (f, value)) (key_of_name name).

(** C27: every field of [UserInfo] is shown by exactly one input, and
    typing [v] into it calls [onChange] with that field and [v]. *)
Theorem inputs_update_displayed (f : UserField) (v : string) :
  NoDup (map snd inputs) /\
  exists name, In (name, f) inputs /\ handleChange name v = Some (f, v).
Proof.
  split; [apply (bool_decide_unpack _); by vm_compute|].
  destruct f; eexists; (split; [simpl; tauto | reflexivity]).
Qed.
