(* ===== verification/Sequencer.v ===== *)
(** * Sequencer.v: the step sequencer of [src/App.tsx]

    The world is what the two handlers read and write: the environment's
    [process.env.API_KEY], the service's module-level [chatSession], the
    form values [userInfo] and the React state [state].  Each
    [setState(prev => ...)] of the code is one updater below, a function
    on [GenerationState], named after the line it translates.

    A handler is split at its [await]: [startGeneration] and
    [generateNextSection] are the synchronous prefixes; they return the
    world after the prefix and, when the handler goes on to await
    [sendMessageStream], an [Await] that carries the message and the
    handler's local data (the [generatedText] accumulator of
    [startGeneration], or the [currentAction] of [generateNextSection]).
    [on_chunk] is the [onChunk] callback, [after_stream] the code after
    the [await] and the [catch] block.  [resume] runs the awaited call to
    its end, and [run_start]/[run_next] are a click followed by the whole
    answer with nothing interleaved. *)

From S2P Require Import Prelude Types Service.

(** ** The world *)

Record World := mkWorld {
  env_API_KEY : option string;
  chatSession : option Chat;
  userInfo : UserInfo;
  state : GenerationState
}.

Definition set_state (f : GenerationState -> GenerationState) (w : World) : World :=
  mkWorld (env_API_KEY w) (chatSession w) (userInfo w) (f (state w)).

Definition set_session (cs : option Chat) (w : World) : World :=
  mkWorld (env_API_KEY w) cs (userInfo w) (state w).

(** [useState<UserInfo>] and [useState<GenerationState>] (lines 12-26). *)
Definition initialUserInfo : UserInfo := mkUserInfo "" "" "" "" "".

Definition initialState : GenerationState :=
  mkState INPUT_FORM [] "" false None.

Definition initialWorld (key : option string) : World :=
  mkWorld key None initialUserInfo initialState.

(** [handleUserChange] (lines 28-30): [{ ...prev, [field]: value }]. *)
Definition handleUserChange (f : UserField) (v : string) (w : World) : World :=
  let u := userInfo w in
  let u' := match f with
            | Ftopic => mkUserInfo v (subject u) (grade u) (school u) (textbook u)
            | Fsubject => mkUserInfo (topic u) v (grade u) (school u) (textbook u)
            | Fgrade => mkUserInfo (topic u) (subject u) v (school u) (textbook u)
            | Fschool => mkUserInfo (topic u) (subject u) (grade u) v (textbook u)
            | Ftextbook => mkUserInfo (topic u) (subject u) (grade u) (school u) v
            end in
  mkWorld (env_API_KEY w) (chatSession w) u' (state w).

(** ** The updaters passed to [setState] *)

Definition missing_key_msg : string := "Cấu hình API Key không hợp lệ.".

(** line 34 *)
Definition upd_key_error (prev : GenerationState) : GenerationState :=
  mkState (step prev) (messages prev) (fullDocument prev) (isStreaming prev)
    (Some missing_key_msg).

(** line 39 *)
Definition upd_start (prev : GenerationState) : GenerationState :=
  mkState OUTLINE (messages prev) (fullDocument prev) true None.

(** line 54: [fullDocument: generatedText] *)
Definition upd_start_chunk (generatedText : string) (prev : GenerationState)
    : GenerationState :=
  mkState (step prev) (messages prev) generatedText (isStreaming prev) (error prev).

(** line 56 *)
Definition upd_start_done (prev : GenerationState) : GenerationState :=
  mkState (step prev) (messages prev) (fullDocument prev) false (error prev).

(** lines 58 and 82: [{ ...prev, isStreaming: false, error: error.message }] *)
Definition upd_fail (msg : string) (prev : GenerationState) : GenerationState :=
  mkState (step prev) (messages prev) (fullDocument prev) false (Some msg).

(** The entries of [nextStepMap] (lines 63-70). *)
Record NextAction := mkNextAction { prompt : string; nextStep : GenerationStep }.

(** line 75 *)
Definition upd_next (a : NextAction) (prev : GenerationState) : GenerationState :=
  mkState (nextStep a) (messages prev) (fullDocument prev) true None.

(** line 78: [fullDocument: prev.fullDocument + chunk] *)
Definition upd_next_chunk (chunk : string) (prev : GenerationState) : GenerationState :=
  mkState (step prev) (messages prev) (fullDocument prev +:+ chunk)
    (isStreaming prev) (error prev).

(** line 80: the resting step; [PART_V_VI] is replaced by [COMPLETED]. *)
Definition final_step (a : NextAction) : GenerationStep :=
  if decide (nextStep a = PART_V_VI) then COMPLETED else nextStep a.

Definition upd_next_done (a : NextAction) (prev : GenerationState) : GenerationState :=
  mkState (final_step a) (messages prev) (fullDocument prev) false (error prev).

(** ** [startGeneration] (lines 32-60) *)

Definition initMessage (u : UserInfo) : string :=
  "Chào chuyên gia. Tôi là giáo viên VANHA, cần viết SKKN.
      Thông tin:
      - Đề tài: " +:+ topic u +:+ "
      - Môn học: " +:+ subject u +:+ "
      - Khối: " +:+ grade u +:+ "
      - Trường: " +:+ school u +:+ "
      - Bộ sách: " +:+ textbook u +:+ "
      Hãy bắt đầu Dàn ý chi tiết cho tôi.".

(** The local data of a handler suspended in [await sendMessageStream]. *)
Inductive Pending :=
| PStart (generatedText : string)
| PNext (currentAction : NextAction).

Record Await := mkAwait { aw_message : string; aw_pending : Pending }.

(** [!process.env.API_KEY]: [undefined] and [""] are missing. *)
Definition key_missing (w : World) : bool := negb (js_truthy (env_API_KEY w)).

(** [snapUser] is the [userInfo] of the render the handler was created
    in. *)
Definition startGeneration (snapUser : UserInfo) (w : World) : World * option Await :=
  if key_missing w then (set_state upd_key_error w, None)
  else
    let w1 := set_state upd_start w in
    let w2 := set_session (Some (initializeGeminiChat (env_API_KEY w))) w1 in
    (w2, Some (mkAwait (initMessage snapUser) (PStart ""))).

(** ** [generateNextSection] (lines 62-84) *)

(** [nextStepMap], a [Record<number, ...>] keyed by the step's value. *)
Definition nextStepMap : gmap Z NextAction :=
  list_to_map
    [(step_value OUTLINE, mkNextAction "Viết chi tiết Phần I & II." PART_I_II);
     (step_value PART_I_II, mkNextAction "Viết chi tiết Phần III." PART_III);
     (step_value PART_III, mkNextAction "Viết chi tiết Giải pháp 1." PART_IV_SOL1);
     (step_value PART_IV_SOL1, mkNextAction "Viết các giải pháp còn lại." PART_IV_SOL2);
     (step_value PART_IV_SOL2, mkNextAction "Viết Phần V, VI và Phụ lục." PART_V_VI);
     (step_value PART_V_VI, mkNextAction "" COMPLETED)].

(** [snap] is the [state] of the render the handler was created in. *)
Definition generateNextSection (snap : GenerationState) (w : World)
    : World * option Await :=
  match nextStepMap !! step_value (step snap) with
  | None => (w, None)
  | Some a => (set_state (upd_next a) w, Some (mkAwait (prompt a) (PNext a)))
  end.

(** ** The continuations *)

(** The [onChunk] callbacks of lines 52-55 and 77-79. *)
Definition on_chunk (chunk : string) (ps : Pending * GenerationState)
    : Pending * GenerationState :=
  match ps with
  | (PStart g, st) => let g' := g +:+ chunk in (PStart g', upd_start_chunk g' st)
  | (PNext a, st) => (PNext a, upd_next_chunk chunk st)
  end.

(** The code after the [await] (lines 56, 80) and the [catch] blocks. *)
Definition after_stream (res : option string) (p : Pending) (st : GenerationState)
    : GenerationState :=
  match res with
  | Some msg => upd_fail msg st
  | None =>
      match p with
      | PStart _ => upd_start_done st
      | PNext a => upd_next_done a st
      end
  end.

(** The awaited [sendMessageStream] call run to its end. *)
Definition resume (aw : Await) (resp : Stream) (w : World) : World :=
  match sendMessageStream on_chunk (chatSession w) (aw_message aw) resp
          (aw_pending aw, state w) with
  | (cs, (p, st), res) =>
      mkWorld (env_API_KEY w) cs (userInfo w) (after_stream res p st)
  end.

Definition run_handler (h : World * option Await) (resp : Stream) : World :=
  match h with
  | (w, None) => w
  | (w, Some aw) => resume aw resp w
  end.

(** A click on a freshly rendered page, then the whole answer. *)
Definition run_start (resp : Stream) (w : World) : World :=
  run_handler (startGeneration (userInfo w) w) resp.

Definition run_next (resp : Stream) (w : World) : World :=
  run_handler (generateNextSection (state w) w) resp.

(** ** The accumulators *)

Lemma upd_next_chunk_app (c1 c2 : string) (st : GenerationState) :
  upd_next_chunk c2 (upd_next_chunk c1 st) = upd_next_chunk (c1 +:+ c2) st.
Proof. unfold upd_next_chunk; simpl. by rewrite str_app_assoc. Qed.

Lemma upd_next_chunk_nil (st : GenerationState) : upd_next_chunk "" st = st.
Proof. destruct st; unfold upd_next_chunk; simpl. by rewrite str_app_nil_r. Qed.

Lemma upd_start_chunk_twice (g1 g2 : string) (st : GenerationState) :
  upd_start_chunk g2 (upd_start_chunk g1 st) = upd_start_chunk g2 st.
Proof. done. Qed.

(** [generateNextSection]'s callback appends every text to the buffer
    it finds: the buffer grows by the concatenation, in order. *)
Lemma fold_on_chunk_next (a : NextAction) (ts : list string) (st : GenerationState) :
  fold_left (fun ps t => on_chunk t ps) ts (PNext a, st) =
  (PNext a, upd_next_chunk ⟪ ts ⟫ st).
Proof.
  revert st. induction ts as [|t ts IH]; intros st; simpl.
  - by rewrite upd_next_chunk_nil.
  - by rewrite IH, upd_next_chunk_app.
Qed.

(** [startGeneration]'s callback extends its local [generatedText] and
    copies it into the buffer: after at least one text the buffer is the
    accumulator; with none, the buffer is untouched. *)
Lemma fold_on_chunk_start (g : string) (ts : list string) (st : GenerationState) :
  fold_left (fun ps t => on_chunk t ps) ts (PStart g, st) =
  (PStart (g +:+ ⟪ ts ⟫),
   match ts with [] => st | _ => upd_start_chunk (g +:+ ⟪ ts ⟫) st end).
Proof.
  revert g st. induction ts as [|t ts IH]; intros g st; simpl.
  - by rewrite str_app_nil_r.
  - rewrite IH, str_app_assoc. destruct ts; [|done]. simpl. by rewrite str_app_nil_r.
Qed.

#[export] Hint Rewrite fold_on_chunk_next fold_on_chunk_start : skkn.

(** ** Closed forms of the two handlers *)

(** The buffer [startGeneration] leaves after the texts [ts]. *)
Definition start_buffer (old : string) (ts : list string) : string :=
  match ts with [] => old | _ => ⟪ ts ⟫ end.

Lemma run_start_spec (resp : Stream) (w : World) :
  key_missing w = false ->
  run_start resp w =
  mkWorld (env_API_KEY w)
    (Some (chat_after_send (initializeGeminiChat (env_API_KEY w)) (initMessage (userInfo w))))
    (userInfo w)
    (after_stream (end_result (stream_end resp)) (PStart ⟪ stream_texts (chunks resp) ⟫)
       (mkState OUTLINE (messages (state w))
          (start_buffer (fullDocument (state w)) (stream_texts (chunks resp))) true None)).
Proof.
  intros Hk. unfold run_start, startGeneration. rewrite Hk. simpl.
  unfold resume. rewrite sendMessageStream_spec. simpl. rewrite fold_on_chunk_start.
  by destruct (stream_texts (chunks resp)).
Qed.

Lemma run_next_spec (resp : Stream) (w : World) (a : NextAction) (c : Chat) :
  nextStepMap !! step_value (step (state w)) = Some a ->
  chatSession w = Some c ->
  run_next resp w =
  mkWorld (env_API_KEY w) (Some (chat_after_send c (prompt a))) (userInfo w)
    (after_stream (end_result (stream_end resp)) (PNext a)
       (mkState (nextStep a) (messages (state w))
          (fullDocument (state w) +:+ ⟪ stream_texts (chunks resp) ⟫) true None)).
Proof.
  intros Ha Hc. unfold run_next, generateNextSection. rewrite Ha. simpl.
  unfold resume. simpl. rewrite Hc, sendMessageStream_spec. simpl.
  by rewrite fold_on_chunk_next.
Qed.

(** ** The transition table *)

Lemma nextStepMap_lookup_None (s : GenerationStep) :
  nextStepMap !! step_value s = None <-> s = INPUT_FORM \/ s = APPENDIX \/ s = COMPLETED.
Proof. destruct s; vm_compute; intuition congruence. Qed.

(** C25: every entry of [nextStepMap] moves exactly one step forward with
    a non-empty prompt, except the entry for [PART_V_VI], which the
    specification says does not exist: it sends an empty prompt and
    jumps to [COMPLETED]. *)
Theorem nextStepMap_forward (s : GenerationStep) (a : NextAction) :
  nextStepMap !! step_value s = Some a ->
  (s <> PART_V_VI /\ step_value (nextStep a) = (step_value s + 1)%Z /\ prompt a <> "")
  \/ (s = PART_V_VI /\ a = mkNextAction "" COMPLETED).
Proof. destruct s; vm_compute; intros [= <-]; (left; done) || (right; done). Qed.

Lemma nextStepMap_forward_witness :
  nextStepMap !! step_value PART_III = Some (mkNextAction "Viết chi tiết Giải pháp 1." PART_IV_SOL1) /\
  ((PART_III <> PART_V_VI /\ step_value PART_IV_SOL1 = (step_value PART_III + 1)%Z /\
    "Viết chi tiết Giải pháp 1." <> "")
   \/ (PART_III = PART_V_VI /\
       mkNextAction "Viết chi tiết Giải pháp 1." PART_IV_SOL1 = mkNextAction "" COMPLETED)).
Proof.
  split; [reflexivity|].
  exact (nextStepMap_forward PART_III _ eq_refl).
Defined.

(** The targets of the table: never [INPUT_FORM] or [APPENDIX], always
    after the current step, and so is the resting step. *)
Lemma nextStepMap_target (s : GenerationStep) (a : NextAction) :
  nextStepMap !! step_value s = Some a ->
  nextStep a <> INPUT_FORM /\ nextStep a <> APPENDIX /\
  final_step a <> INPUT_FORM /\ final_step a <> APPENDIX /\
  (step_value s < step_value (nextStep a))%Z /\
  (step_value (nextStep a) <= step_value (final_step a))%Z.
Proof. destruct s; vm_compute; intros [= <-]; repeat split; (done || lia). Qed.

Lemma nextStepMap_lookup_Some (s : GenerationStep) :
  s <> INPUT_FORM -> s <> APPENDIX -> s <> COMPLETED ->
  exists a, nextStepMap !! step_value s = Some a.
Proof. destruct s; try done; intros; eexists; reflexivity. Qed.

(** ** Samples used by the witnesses *)

Definition sample_user : UserInfo := mkUserInfo "X" "Toán" "10" "Y" "Z".

Definition sample_world (s : GenerationStep) (doc : string) : World :=
  mkWorld (Some "key") (Some (initializeGeminiChat (Some "key"))) sample_user
    (mkState s [] doc false None).

Definition sample_stream (e : StreamEnd) : Stream :=
  mkStream [mkChunk (Some "Dàn ý: "); mkChunk None; mkChunk (Some ""); mkChunk (Some "I. Mở đầu")] e.

(** ** [startGeneration] *)

(** C18: with no API key (undefined or empty), [startGeneration] only
    records the configuration error: the step, the buffer, the streaming
    flag and the session are unchanged, whatever the service would say. *)
Theorem run_start_missing_key (resp : Stream) (w : World) :
  key_missing w = true ->
  run_start resp w = set_state upd_key_error w /\
  step (state (run_start resp w)) = step (state w) /\
  error (state (run_start resp w)) = Some missing_key_msg /\
  chatSession (run_start resp w) = chatSession w.
Proof. intros Hk. unfold run_start, startGeneration. by rewrite Hk. Qed.

Lemma run_start_missing_key_witness :
  let w := mkWorld (Some "") None sample_user initialState in
  run_start (sample_stream StreamDone) w = set_state upd_key_error w /\
  step (state (run_start (sample_stream StreamDone) w)) = step (state w) /\
  error (state (run_start (sample_stream StreamDone) w)) = Some missing_key_msg /\
  chatSession (run_start (sample_stream StreamDone) w) = chatSession w.
Proof. apply run_start_missing_key. reflexivity. Defined.

(** with a key, the synchronous part of [startGeneration] (before
    the first fragment can arrive) moves to [OUTLINE], raises the
    streaming flag, clears the error, installs a fresh session and
    awaits the initial prompt, which embeds the five form fields. *)
Theorem startGeneration_prefix (w : World) :
  key_missing w = false ->
  startGeneration (userInfo w) w =
  (mkWorld (env_API_KEY w) (Some (initializeGeminiChat (env_API_KEY w))) (userInfo w)
     (mkState OUTLINE (messages (state w)) (fullDocument (state w)) true None),
   Some (mkAwait (initMessage (userInfo w)) (PStart ""))).
Proof. intros Hk. unfold startGeneration. by rewrite Hk. Qed.

Lemma startGeneration_prefix_witness :
  startGeneration initialUserInfo (initialWorld (Some "key")) =
  (mkWorld (Some "key") (Some (initializeGeminiChat (Some "key"))) initialUserInfo
     (mkState OUTLINE [] "" true None),
   Some (mkAwait (initMessage initialUserInfo) (PStart ""))).
Proof. apply (startGeneration_prefix (initialWorld (Some "key"))). reflexivity. Defined.

(** C6: with a key and a stream that completes, [startGeneration] rests
    on [OUTLINE] with the flag down and no error; the buffer is the
    concatenation of the non-empty fragments in arrival order (it keeps
    its old content only when no fragment carried text); exactly the
    initial prompt was sent on the new session. *)
Theorem run_start_completes (resp : Stream) (w : World) :
  key_missing w = false ->
  stream_end resp = StreamDone ->
  state (run_start resp w) =
    mkState OUTLINE (messages (state w))
      (start_buffer (fullDocument (state w)) (stream_texts (chunks resp))) false None /\
  chatSession (run_start resp w) =
    Some (chat_after_send (initializeGeminiChat (env_API_KEY w)) (initMessage (userInfo w))).
Proof. intros Hk He. rewrite (run_start_spec _ _ Hk), He. done. Qed.

Lemma run_start_completes_witness :
  state (run_start (sample_stream StreamDone) (mkWorld (Some "key") None sample_user initialState)) =
    mkState OUTLINE [] "Dàn ý: I. Mở đầu" false None /\
  chatSession (run_start (sample_stream StreamDone) (mkWorld (Some "key") None sample_user initialState)) =
    Some (chat_after_send (initializeGeminiChat (Some "key")) (initMessage sample_user)).
Proof.
  pose proof (run_start_completes (sample_stream StreamDone)
                (mkWorld (Some "key") None sample_user initialState) eq_refl eq_refl) as H.
  close_with H.
Defined.

(** C28: when the initial stream fails, the flag drops and the error is
    recorded, but the step stays on [OUTLINE] and the fragments that
    arrived before the failure stay in the buffer. *)
Theorem run_start_fails (resp : Stream) (w : World) (m : string) :
  key_missing w = false ->
  stream_end resp = StreamFailed m ->
  state (run_start resp w) =
    mkState OUTLINE (messages (state w))
      (start_buffer (fullDocument (state w)) (stream_texts (chunks resp))) false (Some m).
Proof. intros Hk He. rewrite (run_start_spec _ _ Hk), He. done. Qed.

Lemma run_start_fails_witness :
  state (run_start (sample_stream (StreamFailed "quota")) (mkWorld (Some "key") None sample_user initialState)) =
    mkState OUTLINE [] "Dàn ý: I. Mở đầu" false (Some "quota").
Proof.
  pose proof (run_start_fails (sample_stream (StreamFailed "quota"))
                (mkWorld (Some "key") None sample_user initialState) _ eq_refl eq_refl) as H.
  close_with H.
Defined.

(** ** [generateNextSection] *)

(** C17: on [INPUT_FORM], [APPENDIX] and [COMPLETED] the map has no entry
    and [generateNextSection] returns at once: the world is unchanged and
    nothing is sent. *)
Theorem run_next_noop (resp : Stream) (w : World) :
  step (state w) = INPUT_FORM \/ step (state w) = APPENDIX \/ step (state w) = COMPLETED ->
  run_next resp w = w.
Proof.
  intros Hs. apply nextStepMap_lookup_None in Hs.
  unfold run_next, generateNextSection. by rewrite Hs.
Qed.

Lemma run_next_noop_witness :
  run_next (sample_stream StreamDone) (sample_world COMPLETED "doc") = sample_world COMPLETED "doc".
Proof. apply run_next_noop. simpl. tauto. Defined.

(** C5: when the stream completes, [generateNextSection] appends the
    concatenation of the fragments to the buffer it found (continuing,
    not replacing it), rests on the entry's target (with [PART_V_VI]
    replaced by [COMPLETED]), drops the flag, clears the error, and has
    sent exactly the entry's prompt on the existing session. *)
Theorem run_next_completes (resp : Stream) (w : World) (a : NextAction) (c : Chat) :
  nextStepMap !! step_value (step (state w)) = Some a ->
  chatSession w = Some c ->
  stream_end resp = StreamDone ->
  state (run_next resp w) =
    mkState (final_step a) (messages (state w))
      (fullDocument (state w) +:+ ⟪ stream_texts (chunks resp) ⟫) false None /\
  chatSession (run_next resp w) = Some (chat_after_send c (prompt a)).
Proof. intros Ha Hc He. rewrite (run_next_spec _ _ _ _ Ha Hc), He. done. Qed.

Lemma run_next_completes_witness :
  state (run_next (sample_stream StreamDone) (sample_world PART_I_II "Outline. ")) =
    mkState PART_III [] "Outline. Dàn ý: I. Mở đầu" false None /\
  chatSession (run_next (sample_stream StreamDone) (sample_world PART_I_II "Outline. ")) =
    Some (chat_after_send (initializeGeminiChat (Some "key")) "Viết chi tiết Phần III.").
Proof.
  pose proof (run_next_completes (sample_stream StreamDone) (sample_world PART_I_II "Outline. ")
                _ _ eq_refl eq_refl eq_refl) as H.
  close_with H.
Defined.

(** C16: advancing from [PART_IV_SOL2] with a completed stream ends on
    [COMPLETED], never on [PART_V_VI]. *)
Theorem run_next_sol2_completed (resp : Stream) (w : World) (c : Chat) :
  step (state w) = PART_IV_SOL2 ->
  chatSession w = Some c ->
  stream_end resp = StreamDone ->
  step (state (run_next resp w)) = COMPLETED.
Proof.
  intros Hs Hc He.
  assert (Ha : nextStepMap !! step_value (step (state w)) =
               Some (mkNextAction "Viết Phần V, VI và Phụ lục." PART_V_VI)) by (by rewrite Hs).
  rewrite (run_next_spec _ _ _ _ Ha Hc), He. done.
Qed.

Lemma run_next_sol2_completed_witness :
  step (state (run_next (sample_stream StreamDone) (sample_world PART_IV_SOL2 ""))) = COMPLETED.
Proof. by apply (run_next_sol2_completed _ _ (initializeGeminiChat (Some "key"))). Defined.

(** C8: when the stream fails, the flag drops and the error is recorded,
    but the step is not rolled back: it stays on the entry's nominal
    target (from [PART_IV_SOL2] this is [PART_V_VI], not [COMPLETED]),
    and the fragments received before the failure stay appended. *)
Theorem run_next_fails (resp : Stream) (w : World) (a : NextAction) (c : Chat) (m : string) :
  nextStepMap !! step_value (step (state w)) = Some a ->
  chatSession w = Some c ->
  stream_end resp = StreamFailed m ->
  state (run_next resp w) =
    mkState (nextStep a) (messages (state w))
      (fullDocument (state w) +:+ ⟪ stream_texts (chunks resp) ⟫) false (Some m).
Proof. intros Ha Hc He. rewrite (run_next_spec _ _ _ _ Ha Hc), He. done. Qed.

Lemma run_next_fails_witness :
  state (run_next (sample_stream (StreamFailed "net")) (sample_world PART_IV_SOL2 "")) =
    mkState PART_V_VI [] "Dàn ý: I. Mở đầu" false (Some "net").
Proof.
  pose proof (run_next_fails (sample_stream (StreamFailed "net")) (sample_world PART_IV_SOL2 "")
                _ _ _ eq_refl eq_refl eq_refl) as H.
  close_with H.
Defined.

(** C29: without a session (no [startGeneration] before), the call is
    rejected with "Chat session not initialized": the step has already
    moved to the entry's target and stays there, the flag drops, the
    buffer is unchanged and no session appears. *)
Theorem run_next_no_session (resp : Stream) (w : World) (a : NextAction) :
  nextStepMap !! step_value (step (state w)) = Some a ->
  chatSession w = None ->
  run_next resp w =
    mkWorld (env_API_KEY w) None (userInfo w)
      (mkState (nextStep a) (messages (state w)) (fullDocument (state w)) false
         (Some not_initialized_msg)).
Proof.
  destruct w as [k cs u st]; simpl. intros Ha ->.
  unfold run_next, generateNextSection. simpl. by rewrite Ha.
Qed.

Lemma run_next_no_session_witness :
  run_next (sample_stream StreamDone) (mkWorld None None sample_user (mkState OUTLINE [] "" false None)) =
    mkWorld None None sample_user (mkState PART_I_II [] "" false (Some not_initialized_msg)).
Proof.
  pose proof (run_next_no_session (sample_stream StreamDone)
                (mkWorld None None sample_user (mkState OUTLINE [] "" false None)) _ eq_refl eq_refl) as H.
  close_with H.
Defined.

(** ** A whole session *)

(** The user starts, then advances after each answer; nothing overlaps. *)
Definition run_session (r0 : Stream) (rs : list Stream) (w : World) : World :=
  fold_left (fun w r => run_next r w) rs (run_start r0 w).

Definition stream_text (r : Stream) : string := ⟪ stream_texts (chunks r) ⟫.

Lemma start_buffer_empty (ts : list string) : start_buffer "" ts = ⟪ ts ⟫.
Proof. by destruct ts. Qed.

Lemma run_next_completes_world (resp : Stream) (w : World) (a : NextAction) (c : Chat) :
  nextStepMap !! step_value (step (state w)) = Some a ->
  chatSession w = Some c ->
  stream_end resp = StreamDone ->
  run_next resp w =
  mkWorld (env_API_KEY w) (Some (chat_after_send c (prompt a))) (userInfo w)
    (mkState (final_step a) (messages (state w))
       (fullDocument (state w) +:+ stream_text resp) false None).
Proof. intros Ha Hc He. rewrite (run_next_spec _ _ _ _ Ha Hc), He. done. Qed.

(** One completed advance, rewritten in place. *)
Local Ltac advance r :=
  erewrite (run_next_completes_world r) by (done || reflexivity); simpl.

(** C7: from a fresh page with an API key, a start and five advances
    whose streams all complete end on [COMPLETED] with the flag down and
    no error; the buffer is the concatenation of all six answers in
    order, and the session received exactly the initial prompt and the
    five prompts of the table, in order. *)
Theorem run_session_completes (key : option string) (u : UserInfo)
    (r0 r1 r2 r3 r4 r5 : Stream) :
  js_truthy key = true ->
  Forall (fun r => stream_end r = StreamDone) [r0; r1; r2; r3; r4; r5] ->
  let w := run_session r0 [r1; r2; r3; r4; r5] (mkWorld key None u initialState) in
  step (state w) = COMPLETED /\ isStreaming (state w) = false /\ error (state w) = None /\
  fullDocument (state w) = ⟪ map stream_text [r0; r1; r2; r3; r4; r5] ⟫ /\
  option_map chat_sent (chatSession w) =
    Some [initMessage u; "Viết chi tiết Phần I & II."; "Viết chi tiết Phần III.";
          "Viết chi tiết Giải pháp 1."; "Viết các giải pháp còn lại.";
          "Viết Phần V, VI và Phụ lục."].
Proof.
  intros Hk Hd. rewrite !Forall_cons in Hd.
  destruct Hd as (E0 & E1 & E2 & E3 & E4 & E5 & _).
  unfold run_session; simpl.
  rewrite run_start_spec by (unfold key_missing; simpl; by rewrite Hk).
  rewrite E0. simpl. rewrite start_buffer_empty.
  advance r1. advance r2. advance r3. advance r4. advance r5.
  unfold stream_text. simpl. rewrite !str_app_nil_r, <- !str_app_assoc.
  by repeat split.
Qed.

Lemma run_session_completes_witness :
  let w := run_session (sample_stream StreamDone)
             (replicate 5 (sample_stream StreamDone))
             (mkWorld (Some "key") None sample_user initialState) in
  step (state w) = COMPLETED /\ isStreaming (state w) = false /\ error (state w) = None /\
  fullDocument (state w) = ⟪ map stream_text (replicate 6 (sample_stream StreamDone)) ⟫ /\
  option_map chat_sent (chatSession w) =
    Some [initMessage sample_user; "Viết chi tiết Phần I & II."; "Viết chi tiết Phần III.";
          "Viết chi tiết Giải pháp 1."; "Viết các giải pháp còn lại.";
          "Viết Phần V, VI và Phụ lục."].
Proof.
  apply (run_session_completes (Some "key") sample_user); [reflexivity|].
  repeat constructor.
Defined.

(** ** Termination of the "next section" loop *)

(** The user's clicks on "next section", each followed by its whole
    answer. *)
Definition run_nexts (rs : list Stream) (w : World) : World :=
  fold_left (fun w r => run_next r w) rs w.

(** The variant: how many completed advances remain before [COMPLETED]. *)
Definition steps_left (s : GenerationStep) : nat :=
  match s with
  | OUTLINE => 5 | PART_I_II => 4 | PART_III => 3 | PART_IV_SOL1 => 2
  | PART_IV_SOL2 => 1 | PART_V_VI => 1
  | INPUT_FORM | APPENDIX | COMPLETED => 0
  end.

(** The steps the loop can be on once a session exists. *)
Definition session_step (s : GenerationStep) : Prop := s <> INPUT_FORM /\ s <> APPENDIX.

Lemma steps_left_le (s : GenerationStep) : (steps_left s <= 5)%nat.
Proof. destruct s; simpl; lia. Qed.

(** Each entry's resting step is a session step and lowers the variant. *)
Lemma steps_left_final (s : GenerationStep) (a : NextAction) :
  nextStepMap !! step_value s = Some a ->
  session_step (final_step a) /\ (steps_left (final_step a) < steps_left s)%nat.
Proof. destruct s; vm_compute; intros [= <-]; repeat split; (done || lia). Qed.

Lemma steps_left_zero (s : GenerationStep) :
  session_step s -> steps_left s = 0%nat -> s = COMPLETED.
Proof. destruct s; simpl; intros [? ?]; done. Qed.

Lemma run_nexts_app (rs1 rs2 : list Stream) (w : World) :
  run_nexts (rs1 ++ rs2) w = run_nexts rs2 (run_nexts rs1 w).
Proof. apply fold_left_app. Qed.

(** Once [COMPLETED], further clicks change nothing. *)
Lemma run_nexts_completed (rs : list Stream) (w : World) :
  step (state w) = COMPLETED -> run_nexts rs w = w.
Proof.
  intros Hs. unfold run_nexts. induction rs as [|r rs IH]; [done|]. simpl.
  assert (E : run_next r w = w).
  { unfold run_next, generateNextSection. rewrite Hs. done. }
  by rewrite E.
Qed.

(** The general form: [steps_left] completed answers are enough. *)
Lemma run_nexts_reach (rs : list Stream) (w : World) :
  chatSession w <> None -> session_step (step (state w)) ->
  Forall (fun r => stream_end r = StreamDone) rs -> (steps_left (step (state w)) <= length rs)%nat ->
  step (state (run_nexts rs w)) = COMPLETED.
Proof.
  revert w. induction rs as [|r rs IH]; intros w Hc Hs Hd Hlen.
  - cbn [run_nexts fold_left]. apply steps_left_zero; [done|]. simpl in Hlen. lia.
  - apply Forall_cons in Hd as [Hr Hd].
    destruct (decide (step (state w) = COMPLETED)) as [Hcomp|Hcomp].
    { by rewrite run_nexts_completed. }
    destruct (chatSession w) as [c|] eqn:Ec; [|done].
    destruct (nextStepMap_lookup_Some (step (state w))) as [a Ha]; try apply Hs; [done|].
    destruct (steps_left_final _ _ Ha) as [Hs' Hlt].
    change (run_nexts (r :: rs) w) with (run_nexts rs (run_next r w)).
    rewrite (run_next_completes_world r w a c Ha Ec Hr).
    apply IH; cbn [chatSession state step length]; [done | done | done |].
    simpl in Hlen. lia.
Qed.

(** C9: the "next section" loop terminates: once a session exists and the
    page is on a step of the session, at most five completed answers
    bring it to [COMPLETED], whatever their text, and later clicks are
    no-ops; each completed advance lowers [steps_left]. *)
Theorem run_nexts_terminates (rs : list Stream) (w : World) :
  chatSession w <> None -> step (state w) <> INPUT_FORM -> step (state w) <> APPENDIX ->
  Forall (fun r => stream_end r = StreamDone) rs -> (5 <= length rs)%nat ->
  step (state (run_nexts rs w)) = COMPLETED.
Proof.
  intros Hc Hi Ha Hd Hlen. apply run_nexts_reach; [done | done | done |].
  pose proof (steps_left_le (step (state w))). lia.
Qed.

Lemma run_nexts_terminates_witness :
  step (state (run_nexts (replicate 5 (sample_stream StreamDone)) (sample_world OUTLINE ""))) = COMPLETED.
Proof.
  apply run_nexts_terminates; try discriminate.
  - repeat constructor.
  - simpl. lia.
Defined.
