(* ===== verification/View.v ===== *)
(** * View.v: what the page shows and which controls accept a click

    The render of [App] (src/App.tsx, lines 102-200) decides which
    buttons exist and whether they are enabled; the [Button] component
    (src/components/Button.tsx) disables itself while [isLoading]; the
    preview (src/components/DocumentPreview.tsx) shows a placeholder for
    an empty buffer.  [render] computes these decisions from the form
    values and the rendered [GenerationState]; the interleaving model
    lets the user click exactly the controls [render] enables. *)

From S2P Require Import Prelude Types Form.

(** [disabled={disabled || isLoading}] (Button.tsx line 31); an absent
    prop is [undefined], i.e. [false]. *)
Definition button_disabled (disabled isLoading : bool) : bool := disabled || isLoading.

(** The rest of [Button]'s decisions (lines 10-41): the variant's style
    (default [primary]), the dimmed look, the spinner and the icon. *)
Inductive Variant := Primary | Secondary | Outline | Danger.

Record ButtonView := mkButtonView {
  bv_variant : Variant;
  bv_disabled : bool;
  bv_dimmed : bool;     (** [opacity-50 cursor-not-allowed grayscale] *)
  bv_spinner : bool;    (** [{isLoading && (<svg ...>)}] *)
  bv_icon : bool        (** [{!isLoading && icon && ...}] *)
}.

Definition button_view (variant : option Variant) (disabled isLoading : bool) (icon : bool)
    : ButtonView :=
  mkButtonView (default Primary variant) (button_disabled disabled isLoading)
    (disabled || isLoading) isLoading (negb isLoading && icon).

(** [DocumentPreview]'s body (line 40): the markdown of a truthy
    [content], the placeholder for the empty string. *)
Definition preview (content : string) : option string :=
  if String.eqb content "" then None else Some content.

(** The state of one entry of the sidebar (lines 119-135). *)
Inductive Mark := Completed | Active | Upcoming.

#[export] Instance Mark_eq_dec : EqDecision Mark.
Proof. solve_decision. Defined.

Definition sidebar_entry (st : GenerationState) (e : Z * StepInfo) : option (Z * Mark) :=
  let '(stepNum, _) := e in
  if (7 <? stepNum)%Z then None
  else
    let isActive := (step_value (step st) =? stepNum)%Z in
    let isCompleted := (stepNum <? step_value (step st))%Z in
    Some (stepNum, if isCompleted then Completed else if isActive then Active else Upcoming).

Definition sidebar (st : GenerationState) : list (Z * Mark) :=
  omap (sidebar_entry st) STEPS_INFO.

(** The main panel (lines 181-189): the form while on [INPUT_FORM], the
    preview otherwise; the preview renders the markdown of a non-empty
    buffer and a placeholder for the empty one (DocumentPreview.tsx
    line 40). *)
Inductive Panel :=
| FormPanel (submit_enabled : bool)
| PreviewPanel (content : option string).

Record Controls := mkControls {
  ctl_sidebar : list (Z * Mark);
  ctl_next_desktop : option bool;   (** rendered, and then enabled? *)
  ctl_export : bool;
  ctl_stage : Z;                    (** "Giai đoạn {state.step + 1}" *)
  ctl_error_banner : option string;
  ctl_panel : Panel;
  ctl_next_mobile : option bool
}.

Definition render (u : UserInfo) (st : GenerationState) : Controls :=
  let s := step_value (step st) in
  mkControls
    (sidebar st)
    (if (0 <? s)%Z && (s <? step_value COMPLETED)%Z
     then Some (negb (button_disabled false (isStreaming st))) else None)
    (0 <? s)%Z
    (s + 1)%Z
    (if js_truthy (error st) then error st else None)
    (if decide (step st = INPUT_FORM)
     then FormPanel (negb (button_disabled (submit_disabled u (isStreaming st)) (isStreaming st)))
     else PreviewPanel (preview (fullDocument st)))
    (if negb (isStreaming st) && (0 <? s)%Z && (s <? step_value COMPLETED)%Z
     then Some (negb (button_disabled false false)) else None).

(** The clicks the rendered page accepts. *)
Definition can_start (c : Controls) : bool :=
  match ctl_panel c with FormPanel b => b | PreviewPanel _ => false end.

Definition can_next (c : Controls) : bool :=
  bool_decide (ctl_next_desktop c = Some true) || bool_decide (ctl_next_mobile c = Some true).

(** ** Lemmas *)

(** What an enabled control tells about the rendered state. *)
Lemma can_start_guard (u : UserInfo) (st : GenerationState) :
  can_start (render u st) = true -> step st = INPUT_FORM /\ isStreaming st = false.
Proof.
  unfold can_start, render; simpl. case_decide; [|done].
  unfold button_disabled, submit_disabled. destruct (isStreaming st); simpl; [|done].
  by rewrite orb_true_r.
Qed.

Lemma can_next_guard (u : UserInfo) (st : GenerationState) :
  can_next (render u st) = true ->
  isStreaming st = false /\ step st <> INPUT_FORM /\ step st <> COMPLETED.
Proof. destruct st as [s ? ? [] ?]; destruct s; vm_compute; intuition congruence. Qed.

(** The converse: the controls are enabled in those states. *)
Lemma can_next_enabled (u : UserInfo) (st : GenerationState) :
  isStreaming st = false -> step st <> INPUT_FORM -> step st <> COMPLETED ->
  can_next (render u st) = true.
Proof. destruct st as [s ? ? [] ?]; destruct s; vm_compute; intuition congruence. Qed.

Lemma can_start_enabled (u : UserInfo) (st : GenerationState) :
  step st = INPUT_FORM -> isStreaming st = false -> isFormValid u = true ->
  can_start (render u st) = true.
Proof.
  intros Hs Hi Hv. unfold can_start, render; simpl. rewrite decide_True by done.
  unfold button_disabled, submit_disabled. by rewrite Hi, Hv.
Qed.

(** C19: the page accepts a click on "next section" (the sidebar button
    or the floating one) exactly when no stream is in flight and the
    step is neither [INPUT_FORM] nor [COMPLETED]. *)
Theorem can_next_iff (u : UserInfo) (st : GenerationState) :
  can_next (render u st) = true <->
  isStreaming st = false /\ step st <> INPUT_FORM /\ step st <> COMPLETED.
Proof.
  destruct st as [s ? ? [] ?]; destruct s; vm_compute; intuition congruence.
Qed.

(** C20: the page accepts a click on the form's submit button exactly
    when the step is [INPUT_FORM], no stream is in flight and every field
    is non-blank. *)
Theorem can_start_iff (u : UserInfo) (st : GenerationState) :
  can_start (render u st) = true <->
  step st = INPUT_FORM /\ isStreaming st = false /\ isFormValid u = true.
Proof.
  unfold can_start, render, submit_disabled, button_disabled; simpl.
  destruct st as [s ? ? [] ?], (isFormValid u); destruct s; simpl; intuition congruence.
Qed.

(** C32: the sidebar lists the eight steps [0..7]; one is active unless
    the session is [COMPLETED], when all eight are checked. *)
Theorem sidebar_marks (st : GenerationState) :
  map fst (sidebar st) = [0; 1; 2; 3; 4; 5; 6; 7]%Z /\
  length (filter (fun e => snd e = Active) (sidebar st)) = (if decide (step st = COMPLETED) then 0 else 1) /\
  (step st = COMPLETED -> Forall (fun e => snd e = Completed) (sidebar st)).
Proof. unfold sidebar; destruct st as [[] ? ? ? ?]; vm_compute; repeat split; repeat constructor; done. Qed.
