(* ===== verification/Async.v ===== *)
(** * Async.v: handlers, renders and stream events interleaved

    An [async] handler of [App.tsx] runs its synchronous prefix when the
    user clicks, then waits in [await sendMessageStream(...)]; while it
    waits, the user may type, React may re-render, and chunks of any
    awaited stream may arrive.  [Sys] holds the world, the snapshot of
    the last render (the [userInfo] and [state] a newly created handler
    closure reads), and the pool of waiting handlers.  A [Thread] is one
    waiting handler: its local data ([Pending]) and, when the service
    rejected the call before sending (no session), the rejection still
    to be delivered.

    [tstep] is the labelled transition relation: every event the code
    allows, with no guard on the clicks, since nothing in the handlers
    enforces mutual exclusion.  [ui_step] adds the guards the page
    imposes: a click happens only on a control that the current render
    enables ([View.render]), and React has re-rendered since the last
    change ([fresh]). *)

From S2P Require Import Prelude Types Service Form Sequencer View.

Record Thread := mkThread { th_pending : Pending; th_rejected : option string }.

Record Sys := mkSys {
  world : World;
  view_user : UserInfo;
  view_state : GenerationState;
  threads : list Thread
}.

Definition initSys (key : option string) : Sys :=
  mkSys (initialWorld key) initialUserInfo initialState [].

(** The end of a click's synchronous part: when the handler awaits
    [sendMessageStream], the service's own synchronous part
    ([send_begin]) runs and the handler joins the pool. *)
Definition spawn (h : World * option Await) (ths : list Thread) : World * list Thread :=
  match h with
  | (w, None) => (w, ths)
  | (w, Some aw) =>
      match send_begin (chatSession w) (aw_message aw) with
      | inl cs => (set_session cs w, ths ++ [mkThread (aw_pending aw) None])
      | inr e => (w, ths ++ [mkThread (aw_pending aw) (Some e)])
      end
  end.

Definition with_spawn (s : Sys) (h : World * option Await) : Sys :=
  let '(w, ths) := spawn h (threads s) in mkSys w (view_user s) (view_state s) ths.

Definition click_start (s : Sys) : Sys :=
  with_spawn s (startGeneration (view_user s) (world s)).

Definition click_next (s : Sys) : Sys :=
  with_spawn s (generateNextSection (view_state s) (world s)).

Definition rerender (s : Sys) : Sys :=
  mkSys (world s) (userInfo (world s)) (state (world s)) (threads s).

Definition type_field (f : UserField) (v : string) (s : Sys) : Sys :=
  mkSys (handleUserChange f v (world s)) (view_user s) (view_state s) (threads s).

(** Chunk [c] of the stream awaited by thread [i]. *)
Definition deliver_chunk (i : nat) (th : Thread) (c : Chunk) (s : Sys) : Sys :=
  let '(p, st) := forward_chunk on_chunk (th_pending th, state (world s)) c in
  mkSys (set_state (fun _ => st) (world s)) (view_user s) (view_state s)
    (<[i := mkThread p None]> (threads s)).

(** Thread [i]'s promise settles ([None]: resolved, [Some m]: rejected). *)
Definition settle (i : nat) (res : option string) (th : Thread) (s : Sys) : Sys :=
  mkSys (set_state (after_stream res (th_pending th)) (world s)) (view_user s) (view_state s)
    (delete i (threads s)).

Inductive Event :=
| EvType (f : UserField) (v : string)
| EvRender
| EvClickStart
| EvClickNext
| EvChunk (i : nat) (c : Chunk)
| EvDone (i : nat)
| EvFail (i : nat) (msg : string).

(** The labelled transitions the code allows. *)
Inductive tstep : Sys -> Event -> Sys -> Prop :=
| StepType s f v : tstep s (EvType f v) (type_field f v s)
| StepRender s : tstep s EvRender (rerender s)
| StepClickStart s : tstep s EvClickStart (click_start s)
| StepClickNext s : tstep s EvClickNext (click_next s)
| StepChunk s i th c :
    threads s !! i = Some th -> th_rejected th = None ->
    tstep s (EvChunk i c) (deliver_chunk i th c s)
| StepDone s i th :
    threads s !! i = Some th -> th_rejected th = None ->
    tstep s (EvDone i) (settle i None th s)
| StepFail s i th m :
    threads s !! i = Some th -> (th_rejected th = None \/ th_rejected th = Some m) ->
    tstep s (EvFail i m) (settle i (Some m) th s).

(** React has re-rendered since the last change. *)
Definition fresh (s : Sys) : bool :=
  bool_decide (view_user s = userInfo (world s)) && bool_decide (view_state s = state (world s)).

(** The guards of the controls on the rendered page. *)
Definition view_allows (s : Sys) (e : Event) : bool :=
  match e with
  | EvClickStart => can_start (render (view_user s) (view_state s))
  | EvClickNext => can_next (render (view_user s) (view_state s))
  | _ => true
  end.

(** A click on an enabled control of an up-to-date render. *)
Definition ui_allowed (s : Sys) (e : Event) : bool :=
  match e with
  | EvClickStart | EvClickNext => fresh s && view_allows s e
  | _ => true
  end.

Inductive ui_step (s : Sys) (e : Event) (s' : Sys) : Prop :=
| UiStep : ui_allowed s e = true -> tstep s e s' -> ui_step s e s'.

Definition ui_reachable (key : option string) (s : Sys) : Prop :=
  rtc (fun a b => exists e, ui_step a e b) (initSys key) s.

(** ** An executable version of [step] *)

Definition exec (e : Event) (s : Sys) : option Sys :=
  match e with
  | EvType f v => Some (type_field f v s)
  | EvRender => Some (rerender s)
  | EvClickStart => Some (click_start s)
  | EvClickNext => Some (click_next s)
  | EvChunk i c =>
      th ← threads s !! i;
      match th_rejected th with None => Some (deliver_chunk i th c s) | Some _ => None end
  | EvDone i =>
      th ← threads s !! i;
      match th_rejected th with None => Some (settle i None th s) | Some _ => None end
  | EvFail i m =>
      th ← threads s !! i;
      match th_rejected th with
      | None => Some (settle i (Some m) th s)
      | Some e => if String.eqb e m then Some (settle i (Some m) th s) else None
      end
  end.

Fixpoint exec_all (es : list Event) (s : Sys) : option Sys :=
  match es with
  | [] => Some s
  | e :: es' => exec e s ≫= exec_all es'
  end.

(** ** Lemmas *)

(** The executable semantics [exec] and the transition relation agree
    on every event: concrete traces are checked by computation. *)
Lemma exec_step (s s' : Sys) (e : Event) : exec e s = Some s' <-> tstep s e s'.
Proof.
  split.
  - destruct e; simpl; try (intros [= <-]; constructor).
    all: destruct (threads s !! i) as [th|] eqn:Hi; simpl; [|done].
    all: destruct (th_rejected th) as [r|] eqn:Hr; try done;
      try (intros [= <-]; econstructor; by eauto).
    destruct (String.eqb_spec r msg) as [->|]; [intros [= <-]; econstructor; by eauto|done].
  - intros Hs; destruct Hs as [| | | |s i th c Hi Hr|s i th Hi Hr|s i th m Hi Hr]; simpl; try done.
    all: rewrite Hi; simpl; try by rewrite Hr.
    destruct Hr as [-> | ->]; [done|]. by rewrite String.eqb_refl.
Qed.

Lemma exec_all_rtc (es : list Event) (s s' : Sys) :
  exec_all es s = Some s' -> rtc (fun a b => exists e, tstep a e b) s s'.
Proof.
  revert s. induction es as [|e es IH]; intros s; simpl; [by intros [= <-]|].
  destruct (exec e s) as [s1|] eqn:E; simpl; [|done].
  intros H. apply rtc_l with s1; [exists e; by apply exec_step | by apply IH].
Qed.

(** ** The invariant of the guarded system *)

(** A waiting handler agrees with the state: it was sent (not rejected),
    the start handler's accumulator is the buffer, and a next-section
    handler has already moved the step to its entry's target. *)
Definition thread_ok (st : GenerationState) (th : Thread) : Prop :=
  th_rejected th = None /\
  match th_pending th with
  | PStart g => step st = OUTLINE /\ fullDocument st = g
  | PNext a => step st = nextStep a /\ exists s0, nextStepMap !! step_value s0 = Some a
  end.

Definition inv (s : Sys) : Prop :=
  let st := state (world s) in
  match threads s with
  | [] => isStreaming st = false
  | [th] => isStreaming st = true /\ thread_ok st th
  | _ => False
  end /\
  (step st = INPUT_FORM -> fullDocument st = "" /\ threads s = []) /\
  (step st <> INPUT_FORM -> is_Some (chatSession (world s))) /\
  step st <> APPENDIX.

Lemma fresh_spec (s : Sys) :
  fresh s = true <-> view_user s = userInfo (world s) /\ view_state s = state (world s).
Proof. unfold fresh. by rewrite andb_true_iff, !bool_decide_eq_true. Qed.

Lemma inv_init (key : option string) : inv (initSys key).
Proof. repeat split; done. Qed.

(** Under [inv], no handler waits exactly when the flag is down. *)
Lemma inv_idle (s : Sys) :
  inv s -> isStreaming (state (world s)) = false -> threads s = [].
Proof.
  intros [Hth _] Hs. destruct (threads s) as [|th [|th' r]]; [done| |done].
  destruct Hth as [H _]. congruence.
Qed.

Lemma inv_click_start (s : Sys) :
  inv s -> fresh s = true -> can_start (render (view_user s) (view_state s)) = true ->
  inv (click_start s).
Proof.
  intros Hinv Hf Hc. apply fresh_spec in Hf as [_ Hv]. rewrite Hv in Hc.
  apply can_start_guard in Hc as [Hstep Hidle].
  pose proof (inv_idle s Hinv Hidle) as Hnil.
  destruct Hinv as (_ & Hform & _ & _). destruct (Hform Hstep) as [Hdoc _].
  destruct s as [[k cs u st] vu vs ths]; simpl in *; subst ths.
  unfold click_start, with_spawn, startGeneration; simpl.
  destruct (key_missing _) eqn:Hk; simpl.
  - destruct st; simpl in *; subst. repeat split; done.
  - destruct st; simpl in *; subst. repeat split; done.
Qed.

Lemma inv_click_next (s : Sys) :
  inv s -> fresh s = true -> can_next (render (view_user s) (view_state s)) = true ->
  inv (click_next s).
Proof.
  intros Hinv Hf Hc. apply fresh_spec in Hf as [_ Hv]. rewrite Hv in Hc.
  apply can_next_guard in Hc as (Hidle & Hin & Hcomp).
  pose proof (inv_idle s Hinv Hidle) as Hnil.
  destruct Hinv as (_ & _ & Hsess & Happ). destruct (Hsess Hin) as [c Hcs].
  destruct (nextStepMap_lookup_Some _ Hin Happ Hcomp) as [a Ha].
  pose proof (nextStepMap_target _ _ Ha) as (Ht1 & Ht2 & _).
  destruct s as [[k cs u st] vu vs ths]; simpl in *; subst.
  unfold click_next, with_spawn, generateNextSection; simpl. rewrite Ha; simpl.
  unfold inv, set_session, set_state; simpl.
  repeat split; try done; intros; try contradiction; eauto.
Qed.

Lemma inv_thread (s : Sys) (i : nat) (th : Thread) :
  inv s -> threads s !! i = Some th ->
  threads s = [th] /\ i = 0 /\ isStreaming (state (world s)) = true /\
  thread_ok (state (world s)) th.
Proof.
  intros [Hth _] Hi. destruct (threads s) as [|t0 [|t1 r]]; [done| |done].
  apply list_lookup_singleton_Some in Hi as [-> <-]. by destruct Hth.
Qed.

Lemma inv_chunk (s : Sys) (i : nat) (th : Thread) (c : Chunk) :
  inv s -> threads s !! i = Some th -> inv (deliver_chunk i th c s).
Proof.
  intros Hinv Hi. destruct (inv_thread s i th Hinv Hi) as (Hths & -> & Hstr & Hok).
  destruct Hinv as (_ & Hform & Hsess & Happ).
  destruct s as [[k cs u st] vu vs ths]; simpl in *; subst ths.
  destruct Hok as (Hrej & Hp).
  assert (Hnf : step st <> INPUT_FORM) by (intros E; by destruct (Hform E)).
  unfold deliver_chunk, forward_chunk; simpl.
  destruct (chunk_text c) as [t|]; [destruct (String.eqb t "")|]; simpl.
  all: destruct (th_pending th) as [g|a] eqn:Hpend; unfold inv, thread_ok, set_state; simpl in *;
    destruct_and?; repeat split; try done; intros; try contradiction; eauto.
Qed.

Lemma inv_settle (s : Sys) (i : nat) (th : Thread) (res : option string) :
  inv s -> threads s !! i = Some th -> inv (settle i res th s).
Proof.
  intros Hinv Hi. destruct (inv_thread s i th Hinv Hi) as (Hths & -> & Hstr & Hok).
  destruct Hinv as (_ & Hform & Hsess & Happ).
  destruct s as [[k cs u st] vu vs ths]; simpl in *; subst ths.
  assert (Hnf : step st <> INPUT_FORM) by (intros E; by destruct (Hform E)).
  destruct Hok as (Hrej & Hp).
  unfold settle, after_stream; simpl.
  destruct res as [m|]; [|destruct (th_pending th) as [g|a] eqn:Hpend];
    unfold inv, set_state; simpl in *; destruct_and?; repeat split; try done.
  all: try match goal with H : exists _, _ |- _ => destruct H as [s0 Hs0] end.
  all: try (pose proof (nextStepMap_target _ _ Hs0) as (? & ? & ? & ? & ?)).
  all: intros; try contradiction; eauto.
Qed.

Lemma inv_ui_step (s s' : Sys) (e : Event) : inv s -> ui_step s e s' -> inv s'.
Proof.
  intros Hinv [Hallow Hst]. destruct Hst as [| | | |s i th c Hi _|s i th Hi _|s i th m Hi _];
    simpl in Hallow.
  - by destruct s as [[] ? ? ?].
  - by destruct s as [[] ? ? ?].
  - apply andb_true_iff in Hallow as [Hf Hc]. by apply inv_click_start.
  - apply andb_true_iff in Hallow as [Hf Hc]. by apply inv_click_next.
  - by apply inv_chunk.
  - by apply inv_settle.
  - by apply inv_settle.
Qed.

Lemma ui_reachable_inv (key : option string) (s : Sys) : ui_reachable key s -> inv s.
Proof.
  intros Hr. apply (rtc_ind_r (R := fun a b => exists e, ui_step a e b) inv (initSys key));
    [apply inv_init| |exact Hr].
  intros y z _ [e Hyz] Hy. by eapply inv_ui_step.
Qed.

(** C1: on the page, at most one stream is ever in flight, and the
    streaming flag is up exactly while one is: the buttons' guards give
    the mutual exclusion that the handlers themselves do not enforce. *)
Theorem ui_single_stream (key : option string) (s : Sys) :
  ui_reachable key s ->
  length (threads s) <= 1 /\ (isStreaming (state (world s)) = true <-> threads s <> []).
Proof.
  intros Hr. destruct (ui_reachable_inv key s Hr) as [Hth _].
  destruct (threads s) as [|th [|]]; simpl; [|destruct Hth as [-> _]|done]; split; try lia.
  - rewrite Hth. done.
  - done.
Qed.

Lemma deliver_chunk_step (i : nat) (th : Thread) (c : Chunk) (s : Sys) :
  step (state (world (deliver_chunk i th c s))) = step (state (world s)).
Proof.
  unfold deliver_chunk, forward_chunk.
  destruct (chunk_text c) as [t|]; [destruct (String.eqb t "")|]; try done.
  by destruct (th_pending th).
Qed.

Lemma step_le_INPUT_FORM (s : GenerationStep) : step_le INPUT_FORM s.
Proof. unfold step_le. pose proof (step_value_range s). simpl. lia. Qed.

(** C2: on the page the step never moves backward: every event leaves
    it where it is or moves it forward. *)
Theorem ui_step_monotone (key : option string) (s s' : Sys) (e : Event) :
  ui_reachable key s -> ui_step s e s' ->
  step_le (step (state (world s))) (step (state (world s'))).
Proof.
  intros Hr Hs. pose proof (ui_reachable_inv key s Hr) as Hinv.
  destruct Hs as [Hallow Hst].
  destruct Hst as [| | | |s i th c Hi _|s i th Hi _|s i th m Hi _]; simpl in Hallow.
  - by destruct s as [[] ? ? ?].
  - done.
  - apply andb_true_iff in Hallow as [Hf Hc]. apply fresh_spec in Hf as [_ Hv].
    rewrite Hv in Hc. apply can_start_guard in Hc as [-> _]. apply step_le_INPUT_FORM.
  - apply andb_true_iff in Hallow as [Hf Hc]. apply fresh_spec in Hf as [_ Hv].
    rewrite Hv in Hc. apply can_next_guard in Hc as (_ & Hin & Hcomp).
    destruct Hinv as (_ & _ & _ & Happ).
    destruct (nextStepMap_lookup_Some _ Hin Happ Hcomp) as [a Ha].
    pose proof (nextStepMap_target _ _ Ha) as (_ & _ & _ & _ & Hlt & _).
    unfold click_next, with_spawn, generateNextSection. rewrite Hv, Ha. simpl.
    destruct (send_begin _ _); simpl; unfold step_le; lia.
  - rewrite deliver_chunk_step. done.
  - destruct (inv_thread s i th Hinv Hi) as (_ & _ & _ & _ & Hp).
    unfold settle, after_stream; simpl.
    destruct (th_pending th) as [g|a]; simpl; [done|].
    destruct Hp as [-> [s0 Hs0]].
    pose proof (nextStepMap_target _ _ Hs0) as (_ & _ & _ & _ & _ & Hle). exact Hle.
  - unfold settle, after_stream; simpl. done.
Qed.

(** ** Without a re-render between clicks *)

(** Events where the clicks respect the controls of the last render, but
    React need not have re-rendered since the last change. *)
Fixpoint exec_guarded (es : list Event) (s : Sys) : option Sys :=
  match es with
  | [] => Some s
  | e :: es' => if view_allows s e then exec e s ≫= exec_guarded es' else None
  end.

Lemma exec_guarded_rtc (es : list Event) (s s' : Sys) :
  exec_guarded es s = Some s' ->
  rtc (fun a b => exists e, view_allows a e = true /\ tstep a e b) s s'.
Proof.
  revert s. induction es as [|e es IH]; intros s; simpl; [by intros [= <-]|].
  destruct (view_allows s e) eqn:Hv; [|done].
  destruct (exec e s) as [s1|] eqn:E; simpl; [|done].
  intros H. apply rtc_l with s1; [exists e; split; [done | by apply exec_step] | by apply IH].
Qed.

Definition fill_form : list Event :=
  [EvType Ftopic "X"; EvType Fsubject "Toán"; EvType Fgrade "10"; EvType Fschool "Y";
   EvType Ftextbook "Z"; EvRender].

(** Start, let the outline arrive, then click "next" twice on the same
    render, let the first answer arrive, re-render and click again. *)
Definition double_click_trace : list Event :=
  fill_form ++ [EvClickStart; EvChunk 0 (mkChunk (Some "Outline")); EvDone 0; EvRender;
                EvClickNext; EvClickNext; EvDone 0; EvRender; EvClickNext].

Definition double_click_state : Sys :=
  default (initSys (Some "key")) (exec_guarded double_click_trace (initSys (Some "key"))).

(** C3: a double click before React re-renders is enough to break the
    sequencer, although every click is on an enabled button: the
    section I-II prompt goes out twice, and when the duplicate stream
    ends it moves the step back from [PART_III] to [PART_I_II] and drops
    the streaming flag while the part III stream is still in flight. *)
Theorem double_click_race :
  exists s1 s2,
    rtc (fun a b => exists e, view_allows a e = true /\ tstep a e b) (initSys (Some "key")) s1 /\
    tstep s1 (EvDone 0) s2 /\
    (step_value (step (state (world s2))) < step_value (step (state (world s1))))%Z /\
    isStreaming (state (world s2)) = false /\ threads s2 <> [] /\
    option_map chat_sent (chatSession (world s1)) =
      Some [initMessage (mkUserInfo "X" "Toán" "10" "Y" "Z");
            "Viết chi tiết Phần I & II."; "Viết chi tiết Phần I & II."; "Viết chi tiết Phần III."].
Proof.
  assert (E : exec_guarded double_click_trace (initSys (Some "key")) = Some double_click_state)
    by (vm_compute; reflexivity).
  destruct (exec (EvDone 0) double_click_state) as [s2|] eqn:E2; [|vm_compute in E2; done].
  exists double_click_state, s2. split; [by apply exec_guarded_rtc with double_click_trace|].
  split; [by apply exec_step|].
  vm_compute in E2. injection E2 as <-. vm_compute. repeat split; try done; lia.
Qed.

(** ** The sequential models are schedules of the guarded system *)

Definition ui_steps : relation Sys := rtc (fun a b => exists e, ui_step a e b).

Lemma set_state_const (w : World) : set_state (fun _ => state w) w = w.
Proof. by destruct w. Qed.

Lemma set_state_twice (f g : GenerationState -> GenerationState) (w : World) :
  set_state f (set_state g w) = set_state (fun st => f (g st)) w.
Proof. by destruct w. Qed.


(** The chunks of the only waiting handler, delivered one event each. *)
Lemma chunks_ui_steps (cs : list Chunk) (w : World) (vu : UserInfo) (vs : GenerationState)
    (p : Pending) :
  ui_steps (mkSys w vu vs [mkThread p None])
    (let '(p', st') := forward_chunks on_chunk cs (p, state w) in
     mkSys (set_state (fun _ => st') w) vu vs [mkThread p' None]).
Proof.
  revert w p. induction cs as [|c cs IH]; intros w p; simpl.
  - by rewrite set_state_const.
  - eapply rtc_l.
    + exists (EvChunk 0 c). split; [done|].
      exact (StepChunk (mkSys w vu vs [mkThread p None]) 0 (mkThread p None) c eq_refl eq_refl).
    + unfold deliver_chunk; simpl.
      destruct (forward_chunk _ _ _) as [p1 st1] eqn:E1.
      specialize (IH (set_state (fun _ => st1) w) p1). simpl in IH.
      destruct (forward_chunks on_chunk cs (p1, st1)) as [p' st'].
      by rewrite set_state_twice in IH.
Qed.

Definition settle_event (e : StreamEnd) : Event :=
  match e with StreamDone => EvDone 0 | StreamFailed m => EvFail 0 m end.

Lemma settle_ui_step (s : Sys) (th : Thread) (e : StreamEnd) :
  threads s = [th] -> th_rejected th = None ->
  ui_step s (settle_event e) (settle 0 (end_result e) th s).
Proof.
  intros Hs Hr. split; [by destruct e|].
  destruct e; simpl; econstructor; rewrite ?Hs; eauto.
Qed.

(** The whole answer to the only waiting handler, then its settling. *)
Lemma stream_ui_steps (w : World) (vu : UserInfo) (vs : GenerationState) (p : Pending)
    (resp : Stream) (t : Sys) :
  t = mkSys (mkWorld (env_API_KEY w) (chatSession w) (userInfo w)
              (let '(p', st') := forward_chunks on_chunk (chunks resp) (p, state w) in
               after_stream (end_result (stream_end resp)) p' st'))
         vu vs [] ->
  ui_steps (mkSys w vu vs [mkThread p None]) t.
Proof.
  intros ->. eapply rtc_trans; [apply (chunks_ui_steps (chunks resp))|]. simpl.
  destruct (forward_chunks on_chunk (chunks resp) (p, state w)) as [p' st'].
  apply rtc_once. exists (settle_event (stream_end resp)).
  match goal with |- ui_step ?s0 _ ?t => replace t with
      (settle 0 (end_result (stream_end resp)) (mkThread p' None) s0) end.
  - by apply settle_ui_step.
  - by destruct w.
Qed.

(** The click, the chunks and the end of the stream, as guarded events, run [run_next]. *)
Lemma run_next_schedule (key : option string) (s : Sys) (resp : Stream) :
  ui_reachable key s -> fresh s = true -> can_next (render (view_user s) (view_state s)) = true ->
  ui_steps s (mkSys (run_next resp (world s)) (view_user s) (view_state s) []).
Proof.
  intros Hr Hf Hc. pose proof (ui_reachable_inv key s Hr) as Hinv. pose proof Hc as Hc0.
  pose proof Hf as Hf'. apply fresh_spec in Hf' as [_ Hv]. rewrite Hv in Hc.
  apply can_next_guard in Hc as (Hidle & Hin & Hcomp).
  pose proof (inv_idle s Hinv Hidle) as Hnil.
  destruct Hinv as (_ & _ & Hsess & Happ). destruct (Hsess Hin) as [c Hcs].
  destruct (nextStepMap_lookup_Some _ Hin Happ Hcomp) as [a Ha].
  eapply rtc_l.
  { exists EvClickNext. split; [simpl; by rewrite Hf, Hc0|constructor]. }
  destruct s as [w vu vs ths]; simpl in *; subst.
  unfold click_next, with_spawn, generateNextSection; simpl. rewrite Ha; simpl. rewrite Hcs; simpl.
  unfold run_next, run_handler, generateNextSection. rewrite Ha.
  unfold resume, sendMessageStream, send_begin. simpl. rewrite Hcs.
  apply stream_ui_steps with resp. simpl. by destruct (forward_chunks _ _ _).
Qed.

(** Likewise for [run_start] from an enabled submit button. *)
Lemma run_start_schedule (key : option string) (s : Sys) (resp : Stream) :
  ui_reachable key s -> fresh s = true -> can_start (render (view_user s) (view_state s)) = true ->
  ui_steps s (mkSys (run_start resp (world s)) (view_user s) (view_state s) []).
Proof.
  intros Hr Hf Hc. pose proof (ui_reachable_inv key s Hr) as Hinv. pose proof Hc as Hc0.
  pose proof Hf as Hf'. apply fresh_spec in Hf' as [Hu Hv]. rewrite Hv in Hc.
  apply can_start_guard in Hc as (Hin & Hidle).
  pose proof (inv_idle s Hinv Hidle) as Hnil.
  eapply rtc_l.
  { exists EvClickStart. split; [simpl; by rewrite Hf, Hc0|constructor]. }
  destruct s as [w vu vs ths]; simpl in *; subst.
  unfold click_start, with_spawn, run_start, run_handler, startGeneration; simpl.
  destruct (key_missing w) eqn:Hk; simpl; [done|].
  unfold resume, sendMessageStream, send_begin. simpl.
  apply stream_ui_steps with resp. simpl. by destruct (forward_chunks _ _ _).
Qed.

(** ** Runs of the guarded system, for concrete traces *)

Fixpoint exec_ui (es : list Event) (s : Sys) : option Sys :=
  match es with
  | [] => Some s
  | e :: es' => if ui_allowed s e then exec e s ≫= exec_ui es' else None
  end.

Lemma exec_ui_steps (es : list Event) (s s' : Sys) : exec_ui es s = Some s' -> ui_steps s s'.
Proof.
  revert s. induction es as [|e es IH]; intros s; simpl; [by intros [= <-]|].
  destruct (ui_allowed s e) eqn:Hv; [|done].
  destruct (exec e s) as [s1|] eqn:E; simpl; [|done].
  intros H. apply rtc_l with s1; [exists e; split; [done | by apply exec_step] | by apply IH].
Qed.

(** A page where the outline has arrived and "next section" is enabled. *)
Definition outline_trace : list Event :=
  fill_form ++ [EvClickStart; EvChunk 0 (mkChunk (Some "Outline")); EvDone 0; EvRender].

Definition outline_state : Sys :=
  default (initSys (Some "key")) (exec_ui outline_trace (initSys (Some "key"))).

(** The filled-in form, rendered, before any click. *)
Definition form_state : Sys :=
  default (initSys (Some "key")) (exec_ui fill_form (initSys (Some "key"))).

Lemma ui_single_stream_witness :
  length (threads outline_state) <= 1 /\
  (isStreaming (state (world outline_state)) = true <-> threads outline_state <> []).
Proof.
  apply (ui_single_stream (Some "key")).
  apply exec_ui_steps with outline_trace. by vm_compute.
Defined.

Lemma ui_step_monotone_witness :
  step_le (step (state (world outline_state))) (step (state (world (click_next outline_state)))).
Proof.
  apply (ui_step_monotone (Some "key") outline_state (click_next outline_state) EvClickNext).
  - apply exec_ui_steps with outline_trace. by vm_compute.
  - split; [by vm_compute | constructor].
Defined.
