(* ===== verification/Liveness.v ===== *)
(** * Liveness.v: the page can always finish the document

    A liveness property of the guarded page of [Async.v]: with an API
    key, from every state the page can reach, allowed events lead to
    [COMPLETED].  The schedule is built in three parts: any waiting
    handler is let finish and React re-renders ([ui_drain]); on the form,
    the five fields are filled, the page re-renders and the form is
    submitted ([ui_start_outline]); then "next section" is clicked and
    answered until [COMPLETED], by induction on the variant [steps_left]
    of [Sequencer.v] ([ui_advance]).  Each click's handler and answer is
    the schedule [run_next_schedule] / [run_start_schedule] of
    [Async.v], answered by a stream that completes at once. *)

From S2P Require Import Prelude Types Service Form Sequencer View Async.

(** ** The key of the environment *)

(** The environment's key never changes. *)
Lemma spawn_key (h : World * option Await) (ths : list Thread) :
  env_API_KEY (fst (spawn h ths)) = env_API_KEY (fst h).
Proof. destruct h as [w [aw|]]; simpl; [|done]. by destruct (send_begin _ _). Qed.

Lemma tstep_key (s s' : Sys) (e : Event) :
  tstep s e s' -> env_API_KEY (world s') = env_API_KEY (world s).
Proof.
  destruct 1; try done.
  - unfold click_start, with_spawn. pose proof (spawn_key (startGeneration (view_user s) (world s))
      (threads s)) as H. destruct (spawn _ _) as [w ths]. simpl in *. rewrite H.
    unfold startGeneration. by destruct (key_missing _).
  - unfold click_next, with_spawn. pose proof (spawn_key (generateNextSection (view_state s) (world s))
      (threads s)) as H. destruct (spawn _ _) as [w ths]. simpl in *. rewrite H.
    unfold generateNextSection. by destruct (_ !! _).
  - unfold deliver_chunk. by destruct (forward_chunk _ _ _).
Qed.

Lemma ui_reachable_key (key : option string) (s : Sys) :
  ui_reachable key s -> env_API_KEY (world s) = key.
Proof.
  intros Hr. apply (rtc_ind_r (R := fun a b => exists e, ui_step a e b)
    (fun s => env_API_KEY (world s) = key) (initSys key)); [done| |exact Hr].
  intros y z _ [e [_ Hyz]] Hy. by rewrite (tstep_key _ _ _ Hyz).
Qed.

Lemma ui_reachable_steps (key : option string) (s s' : Sys) :
  ui_reachable key s -> ui_steps s s' -> ui_reachable key s'.
Proof. apply rtc_trans. Qed.

Lemma ui_steps_render (s : Sys) : ui_steps s (rerender s).
Proof. apply rtc_once. exists EvRender. split; [done | constructor]. Qed.

Lemma rerender_fresh (s : Sys) : fresh (rerender s) = true.
Proof. apply fresh_spec. done. Qed.

(** Any waiting handler can be let finish, and React re-render. *)
Lemma ui_drain (key : option string) (s : Sys) :
  ui_reachable key s ->
  exists s', ui_steps s s' /\ threads s' = [] /\ fresh s' = true.
Proof.
  intros Hr. pose proof (ui_reachable_inv key s Hr) as [Hth _].
  destruct (threads s) as [|th [|]] eqn:Ths; [| |done].
  - exists (rerender s). split; [apply ui_steps_render|]. split; [done | apply rerender_fresh].
  - destruct Hth as [_ [Hrej _]].
    exists (rerender (settle 0 None th s)). split; [|split; [simpl; by rewrite Ths | apply rerender_fresh]].
    eapply rtc_l; [|apply ui_steps_render].
    exists (EvDone 0). split; [done|]. constructor; [by rewrite Ths | done].
Qed.

(** Typing a value into each of the five fields. *)
Definition fill_all (v : string) (s : Sys) : Sys :=
  fold_left (fun s f => type_field f v s) [Ftopic; Fsubject; Fgrade; Fschool; Ftextbook] s.

Lemma ui_steps_fill (v : string) (s : Sys) : ui_steps s (fill_all v s).
Proof.
  unfold fill_all. generalize [Ftopic; Fsubject; Fgrade; Fschool; Ftextbook] as fs.
  intros fs. revert s. induction fs as [|f fs IH]; intros s; simpl; [done|].
  eapply rtc_l; [|apply IH]. exists (EvType f v). split; [done | constructor].
Qed.

Lemma fill_all_world (v : string) (s : Sys) :
  world (fill_all v s) =
  mkWorld (env_API_KEY (world s)) (chatSession (world s)) (mkUserInfo v v v v v) (state (world s))
  /\ threads (fill_all v s) = threads s.
Proof. by destruct s as [[] ? ? ?]. Qed.

(** The answer that completes at once, without text. *)
Definition empty_done : Stream := mkStream [] StreamDone.

(** From the form, with a key: fill the form, submit it, and let the
    outline's stream complete. *)
Lemma ui_start_outline (key : option string) (s : Sys) :
  js_truthy key = true -> ui_reachable key s -> threads s = [] ->
  step (state (world s)) = INPUT_FORM ->
  exists s', ui_steps s s' /\ threads s' = [] /\ fresh s' = true /\
    step (state (world s')) = OUTLINE.
Proof.
  intros Hk Hr Hth Hin. pose proof (ui_reachable_inv key s Hr) as Hinv.
  pose proof (ui_reachable_key key s Hr) as Hkey.
  set (s1 := rerender (fill_all "x" s)).
  assert (H1 : ui_steps s s1) by (eapply rtc_trans; [apply ui_steps_fill | apply ui_steps_render]).
  destruct (fill_all_world "x" s) as [Hw Ht].
  assert (Hidle : isStreaming (state (world s)) = false) by (destruct Hinv as [Hi _]; by rewrite Hth in Hi).
  assert (Hc : can_start (render (view_user s1) (view_state s1)) = true).
  { unfold s1, rerender; cbn [view_user view_state]. rewrite Hw; cbn [userInfo state].
    by apply can_start_enabled. }
  pose proof (run_start_schedule key s1 empty_done (ui_reachable_steps key s s1 Hr H1)
    (rerender_fresh _) Hc) as H2.
  eexists. split; [eapply rtc_trans; [exact H1|]; eapply rtc_trans; [exact H2 | apply ui_steps_render]|].
  split; [done|]. split; [apply rerender_fresh|]. cbn [rerender world].
  rewrite run_start_spec; unfold s1, rerender, key_missing; cbn [world]; rewrite Hw;
    [done | cbn [env_API_KEY]; by rewrite Hkey, Hk].
Qed.

(** From a step of the session, with no handler waiting: "next section"
    and its answer, [steps_left] times. *)
Lemma ui_advance (key : option string) (n : nat) (s : Sys) :
  ui_reachable key s -> threads s = [] -> fresh s = true ->
  step (state (world s)) <> INPUT_FORM -> (steps_left (step (state (world s))) <= n)%nat ->
  exists s', ui_steps s s' /\ step (state (world s')) = COMPLETED.
Proof.
  revert s. induction n as [|n IH]; intros s Hr Hth Hf Hin Hn;
    pose proof (ui_reachable_inv key s Hr) as (Hi & _ & Hsess & Happ);
    rewrite Hth in Hi.
  - exists s. split; [done|]. apply steps_left_zero; [done | lia].
  - destruct (decide (step (state (world s)) = COMPLETED)) as [Hc|Hc]; [by exists s|].
    destruct (Hsess Hin) as [c Hcs].
    destruct (nextStepMap_lookup_Some _ Hin Happ Hc) as [a Ha].
    destruct (steps_left_final _ _ Ha) as [[Hin' _] Hlt].
    pose proof Hf as Hf'. apply fresh_spec in Hf' as [_ Hv].
    assert (Hcan : can_next (render (view_user s) (view_state s)) = true)
      by (rewrite Hv; by apply can_next_enabled).
    pose proof (run_next_schedule key s empty_done Hr Hf Hcan) as H1.
    set (s1 := rerender (mkSys (run_next empty_done (world s)) (view_user s) (view_state s) [])).
    assert (H2 : ui_steps s s1) by (eapply rtc_trans; [exact H1 | apply ui_steps_render]).
    assert (Hstep : step (state (world s1)) = final_step a)
      by (unfold s1; simpl; by rewrite (run_next_completes_world _ _ a c Ha Hcs)).
    destruct (IH s1) as (s' & H3 & Hs'); [by eapply ui_reachable_steps | done |
      apply rerender_fresh | by rewrite Hstep | rewrite Hstep; lia |].
    exists s'. split; [by eapply rtc_trans | done].
Qed.

(** C4: the page never gets stuck: with an API key, from every state
    the page can reach, some sequence of allowed events (answers
    arriving, re-renders, typing and clicks on enabled controls) reaches
    [COMPLETED]: at most a drained stream, a filled form and its submit,
    and five "next section" clicks. *)
Theorem ui_can_complete (key : option string) (s : Sys) :
  js_truthy key = true -> ui_reachable key s ->
  exists s', ui_steps s s' /\ step (state (world s')) = COMPLETED.
Proof.
  intros Hk Hr. destruct (ui_drain key s Hr) as (s1 & H1 & Hth1 & Hf1).
  pose proof (ui_reachable_steps key s s1 Hr H1) as Hr1.
  assert (Hfin : forall s2, ui_steps s s2 -> threads s2 = [] -> fresh s2 = true ->
            step (state (world s2)) <> INPUT_FORM ->
            exists s', ui_steps s s' /\ step (state (world s')) = COMPLETED).
  { intros s2 H2 Hth2 Hf2 Hin2.
    destruct (ui_advance key 5 s2) as (s' & H3 & Hs'); try done;
      [exact (ui_reachable_steps key s s2 Hr H2) | apply steps_left_le |].
    exists s'. split; [by eapply rtc_trans | done]. }
  destruct (decide (step (state (world s1)) = INPUT_FORM)) as [Hin|Hin]; [|by apply (Hfin s1)].
  destruct (ui_start_outline key s1 Hk Hr1 Hth1 Hin) as (s2 & H2 & Hth2 & Hf2 & Hs2).
  apply (Hfin s2); [by eapply rtc_trans | done | done | by rewrite Hs2].
Qed.

Lemma ui_can_complete_witness :
  js_truthy (Some "key") = true /\
  exists s', ui_steps (initSys (Some "key")) s' /\ step (state (world s')) = COMPLETED.
Proof.
  split; [reflexivity|]. apply (ui_can_complete (Some "key")); [reflexivity | apply rtc_refl].
Defined.
