(* ===== verification/Export.v ===== *)
(** * Export.v: [exportToWord] (src/App.tsx, lines 86-100)

    The export renders the buffer with [marked.parse] (a library, kept
    abstract as the section variable [marked_parse]), wraps it in a fixed
    HTML envelope, percent-encodes the result with [encodeURIComponent]
    into a [data:] URL, and names the download after the current year.
    [encodeURIComponent] is a JavaScript builtin, modelled from
    ECMAScript: on the UTF-8 bytes of the string, every byte outside the
    unreserved set [A-Z a-z 0-9 - _ . ! ~ * ' ( )] becomes [%XY] with
    upper-case hex digits (a lone surrogate, which makes the builtin
    throw, has no UTF-8 form and cannot occur in the model).  The
    browser's reading of the link ([data_url_read]) is modelled from the
    WHATWG URL and Fetch standards.  The year of the file name is printed
    as [String(year)] prints an integer, a minus sign before a negative
    year. *)

From S2P Require Import Prelude Types Form.

Local Open Scope Z_scope.

(** ** The envelope (lines 89-94) *)

Definition html_prefix : string :=
  "<html xmlns:o='urn:schemas-microsoft-com:office:office' xmlns:w='urn:schemas-microsoft-com:office:word' xmlns='http://www.w3.org/TR/REC-html40'>
    <head><meta charset='utf-8'><style>body { font-family: 'Times New Roman'; padding: 2cm; }</style></head>
    <body>
      <div style=" +:+ dq +:+ "text-align: right; font-style: italic; color: #666;" +:+ dq +:+ ">Người thực hiện: VANHA</div>
      ".

Definition html_suffix : string :=
  "
    </body></html>".

Section Envelope.
(** [marked.parse]. *)
Context (marked_parse : string -> string).

Definition export_html (fullDocument : string) : string :=
  html_prefix +:+ marked_parse fullDocument +:+ html_suffix.
End Envelope.

(** ** [encodeURIComponent] *)

Definition is_unreserved (b : Z) : bool :=
  ((65 <=? b) && (b <=? 90)) || ((97 <=? b) && (b <=? 122)) || ((48 <=? b) && (b <=? 57))
  || bool_decide (b ∈ [45; 95; 46; 33; 126; 42; 39; 40; 41]).

Definition hex_digit (n : Z) : Z := if n <? 10 then 48 + n else 55 + n.

Definition encode_byte (b : Z) : list Z :=
  if is_unreserved b then [b] else [37; hex_digit (b / 16); hex_digit (b mod 16)].

Definition encode_bytes (l : list Z) : list Z := concat (map encode_byte l).

Definition encodeURIComponent (s : string) : string :=
  string_of_bytes (encode_bytes (bytes_of_string s)).

(** ** The link (lines 95-99) *)

Definition data_url_prefix : string := "data:application/vnd.ms-word;charset=utf-8,".

Definition export_url (marked_parse : string -> string) (fullDocument : string) : string :=
  data_url_prefix +:+ encodeURIComponent (export_html marked_parse fullDocument).

(** ** How the browser reads the link

    The link is opened by the browser, not by the repository: the
    reader below follows the URL parser and the data: URL processor of
    the WHATWG URL and Fetch standards, on bytes.  The URL parser ends
    the URL at the first [#] (what follows is the fragment, which the
    data: URL processor excludes); the scheme [data:] is removed; the
    media type runs to the first comma; the body after it is
    percent-decoded, where a [%] not followed by two hex digits stays a
    literal [%].  The body is then read with the media type's charset.
    The [;base64] branch of the processor is not modelled: the media
    type of the link does not end in [;base64]. *)

(** The URL without its fragment. *)
Fixpoint url_strip_fragment (l : list Z) : list Z :=
  match l with
  | [] => []
  | b :: r => if b =? 35 then [] else b :: url_strip_fragment r
  end.

Fixpoint strip_prefix (p l : list Z) : option (list Z) :=
  match p, l with
  | [], _ => Some l
  | x :: p', y :: l' => if x =? y then strip_prefix p' l' else None
  | _ :: _, [] => None
  end.

(** The bytes before the first [c], and the bytes after it. *)
Fixpoint split_first (c : Z) (l : list Z) : option (list Z * list Z) :=
  match l with
  | [] => None
  | b :: r => if b =? c then Some ([], r) else prod_map (cons b) id <$> split_first c r
  end.

Definition hex_value (d : Z) : option Z :=
  if (48 <=? d) && (d <=? 57) then Some (d - 48)
  else if (65 <=? d) && (d <=? 70) then Some (d - 55)
  else if (97 <=? d) && (d <=? 102) then Some (d - 87)
  else None.

(** Percent-decoding of the URL standard. *)
Fixpoint percent_decode (l : list Z) : list Z :=
  match l with
  | [] => []
  | b :: r =>
      if b =? 37 then
        match r with
        | h1 :: h2 :: r' =>
            match hex_value h1, hex_value h2 with
            | Some v1, Some v2 => (16 * v1 + v2) :: percent_decode r'
            | _, _ => b :: percent_decode r
            end
        | _ => b :: percent_decode r
        end
      else b :: percent_decode r
  end.

(** The media type and the body of a data: URL. *)
Definition data_url_read (url : string) : option (string * string) :=
  rest ← strip_prefix (bytes_of_string "data:") (url_strip_fragment (bytes_of_string url));
  '(mime, body) ← split_first 44 rest;
  Some (string_of_bytes mime, string_of_bytes (percent_decode body)).

(** The decimal digits of a non-negative number, as [String(n)] prints
    an integer; [fuel] bounds the number of digits. *)
Fixpoint decimal_digits (fuel : nat) (n : Z) : list Z :=
  match fuel with
  | O => []
  | S f => if n <? 10 then [n] else decimal_digits f (n / 10) ++ [n mod 10]
  end.

(** The digits of a non-negative number, as a string. *)
Definition digits_string (n : Z) : string :=
  string_of_bytes (map (fun d => 48 + d) (decimal_digits 20 n)).

(** [String(n)] for an integer: a minus sign before the digits of a
    negative number ([getFullYear()] is negative before year 0). *)
Definition number_to_string (n : Z) : string :=
  if n <? 0 then "-" +:+ digits_string (- n) else digits_string n.

(** [`SKKN_VANHA_${new Date().getFullYear()}.doc`] *)
Definition download_name (year : Z) : string :=
  "SKKN_VANHA_" +:+ number_to_string year +:+ ".doc".

(** Reading back a decimal number, digit by digit. *)
Definition decimal_value (ds : list Z) : Z := fold_left (fun acc d => 10 * acc + d) ds 0.

Definition is_digit (b : Z) : bool := (48 <=? b) && (b <=? 57).

(** Reading a decimal integer back: an optional minus sign, then at
    least one digit. *)
Definition parse_digits (bs : list Z) : option Z :=
  if forallb is_digit bs && negb (bool_decide (bs = [])) then Some (decimal_value (map (fun b => b - 48) bs))
  else None.

Definition parse_decimal (s : string) : option Z :=
  match bytes_of_string s with
  | b :: bs => if b =? 45 then Z.opp <$> parse_digits bs else parse_digits (b :: bs)
  | [] => parse_digits []
  end.

(** ** Lemmas *)

Lemma hex_value_digit (n : Z) : 0 <= n < 16 -> hex_value (hex_digit n) = Some n.
Proof.
  intros Hn. unfold hex_digit, hex_value.
  destruct (Z.ltb_spec n 10); zbool_eval; simpl; f_equal; lia.
Qed.

(** A byte that [encodeURIComponent] escapes is never left as it is. *)
Lemma is_unreserved_ne (b c : Z) : is_unreserved c = false -> is_unreserved b = true -> b <> c.
Proof. intros Hc Hb ->. by rewrite Hb in Hc. Qed.

Lemma hex_digit_range (n : Z) : 0 <= n < 16 -> 48 <= hex_digit n < 71.
Proof. intros Hn. unfold hex_digit. destruct (Z.ltb_spec n 10); lia. Qed.

Lemma percent_decode_encode_byte (b : Z) (rest : list Z) :
  0 <= b < 256 -> percent_decode (encode_byte b ++ rest) = b :: percent_decode rest.
Proof.
  intros Hb. unfold encode_byte. destruct (is_unreserved b) eqn:Hu; simpl.
  - by rewrite (proj2 (Z.eqb_neq b 37) (is_unreserved_ne b 37 eq_refl Hu)).
  - rewrite !hex_value_digit by zlia. f_equal. zlia.
Qed.

Lemma percent_decode_encode_bytes (l : list Z) :
  Forall (fun b => 0 <= b < 256) l -> percent_decode (encode_bytes l) = l.
Proof.
  induction 1 as [|b l Hb _ IH]; [done|].
  change (encode_bytes (b :: l)) with (encode_byte b ++ encode_bytes l).
  by rewrite percent_decode_encode_byte, IH.
Qed.

Lemma bytes_of_string_range (s : string) : Forall (fun b => 0 <= b < 256) (bytes_of_string s).
Proof.
  unfold bytes_of_string. apply Forall_forall. intros b Hb.
  apply list_elem_of_In, in_map_iff in Hb as (a & <- & _).
  pose proof (Ascii.nat_ascii_bounded a). lia.
Qed.

Lemma string_of_bytes_of_string (s : string) : string_of_bytes (bytes_of_string s) = s.
Proof.
  unfold string_of_bytes, bytes_of_string. rewrite map_map.
  rewrite (map_ext _ id), map_id; [apply String.string_of_list_ascii_of_string|].
  intros a. rewrite Nat2Z.id. apply Ascii.ascii_nat_embedding.
Qed.

Lemma encode_byte_range (b : Z) :
  0 <= b < 256 -> Forall (fun x => 0 <= x < 256) (encode_byte b).
Proof.
  intros Hb. unfold encode_byte. destruct (is_unreserved b); rewrite !Forall_cons; [done|].
  pose proof (hex_digit_range (b / 16)). pose proof (hex_digit_range (b mod 16)).
  repeat constructor; zlia.
Qed.

Lemma encode_bytes_range (l : list Z) :
  Forall (fun b => 0 <= b < 256) l -> Forall (fun b => 0 <= b < 256) (encode_bytes l).
Proof.
  induction 1 as [|b l Hb _ IH]; [constructor|].
  change (encode_bytes (b :: l)) with (encode_byte b ++ encode_bytes l).
  apply Forall_app. split; [by apply encode_byte_range | done].
Qed.

Lemma encodeURIComponent_bytes (s : string) :
  bytes_of_string (encodeURIComponent s) = encode_bytes (bytes_of_string s).
Proof.
  apply bytes_of_string_of_bytes, encode_bytes_range, bytes_of_string_range.
Qed.

(** The percent-encoding holds no [#]: [#] is escaped, and the escapes
    are [%] and hex digits. *)
Lemma encode_bytes_no_hash (l : list Z) :
  Forall (fun b => 0 <= b < 256) l -> Forall (fun x => x <> 35) (encode_bytes l).
Proof.
  induction 1 as [|b l Hb _ IH]; [constructor|].
  change (encode_bytes (b :: l)) with (encode_byte b ++ encode_bytes l).
  apply Forall_app. split; [|done].
  unfold encode_byte. destruct (is_unreserved b) eqn:Hu; rewrite !Forall_cons.
  - split; [exact (is_unreserved_ne b 35 eq_refl Hu) | constructor].
  - pose proof (hex_digit_range (b / 16)). pose proof (hex_digit_range (b mod 16)).
    repeat constructor; zlia.
Qed.

Lemma url_strip_fragment_id (l : list Z) :
  Forall (fun x => x <> 35) l -> url_strip_fragment l = l.
Proof.
  induction 1 as [|b l Hb _ IH]; [done|]. simpl.
  by rewrite (proj2 (Z.eqb_neq b 35) Hb), IH.
Qed.

Lemma strip_prefix_app (p l : list Z) : strip_prefix p (p ++ l) = Some l.
Proof. induction p as [|x p IH]; [done|]. simpl. by rewrite Z.eqb_refl. Qed.

Lemma split_first_app (c : Z) (a l : list Z) :
  c ∉ a -> split_first c (a ++ [c] ++ l) = Some (a, l).
Proof.
  induction a as [|x a IH]; simpl in *; [by rewrite Z.eqb_refl|].
  rewrite not_elem_of_cons. intros [Hx Ha].
  by rewrite (proj2 (Z.eqb_neq x c) (not_eq_sym Hx)), IH.
Qed.

Lemma bytes_of_string_app (a b : string) :
  bytes_of_string (a +:+ b) = bytes_of_string a ++ bytes_of_string b.
Proof.
  unfold bytes_of_string. rewrite <- map_app. f_equal.
  induction a as [|x a IH]; [done|]. rewrite str_app_cons. simpl. by rewrite IH.
Qed.

(** C13: a browser that opens the exported link reads the Word media
    type and, as the body, exactly the HTML envelope around the
    rendering of the buffer, whatever the buffer holds: no [#] of the
    document (the envelope itself has [color: #666]) ends the URL, no
    comma splits it and no byte is altered. *)
Theorem export_url_read (marked_parse : string -> string) (fullDocument : string) :
  data_url_read (export_url marked_parse fullDocument) =
    Some ("application/vnd.ms-word;charset=utf-8",
          html_prefix +:+ marked_parse fullDocument +:+ html_suffix).
Proof.
  pose proof (bytes_of_string_range (export_html marked_parse fullDocument)) as Hr.
  unfold data_url_read, export_url.
  rewrite bytes_of_string_app, encodeURIComponent_bytes.
  change (bytes_of_string data_url_prefix) with
    (bytes_of_string "data:" ++ bytes_of_string "application/vnd.ms-word;charset=utf-8" ++ [44]).
  rewrite url_strip_fragment_id.
  2: { apply Forall_app. split; [by apply (bool_decide_unpack _); vm_compute|].
       by apply encode_bytes_no_hash. }
  rewrite <- !app_assoc, strip_prefix_app. cbn [mbind option_bind].
  rewrite split_first_app by (apply (bool_decide_unpack _); by vm_compute). cbn [mbind option_bind].
  by rewrite percent_decode_encode_bytes, !string_of_bytes_of_string.
Qed.

Lemma decimal_value_snoc (ds : list Z) (d : Z) :
  decimal_value (ds ++ [d]) = 10 * decimal_value ds + d.
Proof. unfold decimal_value. by rewrite fold_left_app. Qed.

Lemma decimal_digits_S (f : nat) (n : Z) :
  decimal_digits (S f) n = if n <? 10 then [n] else decimal_digits f (n / 10) ++ [n mod 10].
Proof. reflexivity. Qed.

Lemma decimal_digits_spec (f : nat) (n : Z) :
  0 <= n < 10 ^ Z.of_nat (S f) ->
  decimal_digits (S f) n <> [] /\ Forall (fun d => 0 <= d < 10) (decimal_digits (S f) n) /\
  decimal_value (decimal_digits (S f) n) = n.
Proof.
  revert n. induction f as [|f IH]; intros n Hn; rewrite decimal_digits_S.
  - simpl in Hn. destruct (Z.ltb_spec n 10); [|lia].
    split; [done|]. split; [apply Forall_singleton; lia | unfold decimal_value; simpl; lia].
  - destruct (Z.ltb_spec n 10) as [Hlt|Hge].
    { split; [done|]. split; [apply Forall_singleton; lia | unfold decimal_value; simpl; lia]. }
    rewrite Nat2Z.inj_succ, Z.pow_succ_r in Hn by lia.
    destruct (IH (n / 10)) as (_ & Hd & Hv).
    { split; [zlia|]. apply Z.div_lt_upper_bound; lia. }
    split; [intros Hnil; by apply app_eq_nil in Hnil as [_ ?]|]. split.
    + apply Forall_app. split; [done|]. apply Forall_singleton. zlia.
    + rewrite decimal_value_snoc, Hv. zlia.
Qed.

Lemma parse_digits_string (y : Z) :
  0 <= y < 10 ^ 20 -> parse_digits (bytes_of_string (digits_string y)) = Some y.
Proof.
  intros Hy. destruct (decimal_digits_spec 19 y Hy) as (Hne & Hd & Hv).
  unfold parse_digits, digits_string.
  rewrite bytes_of_string_of_bytes.
  2: { apply Forall_forall. intros b Hb. apply list_elem_of_In, in_map_iff in Hb as (d & <- & Hd').
       rewrite Forall_forall in Hd. apply list_elem_of_In, Hd in Hd'. lia. }
  assert (Hm : map (fun b => b - 48) (map (fun d => 48 + d) (decimal_digits 20 y)) =
                decimal_digits 20 y).
  { rewrite map_map. erewrite map_ext; [apply map_id|]. intros d. simpl. lia. }
  rewrite Hm, Hv.
  replace (forallb is_digit _) with true.
  - rewrite bool_decide_false; [done|]. by intros ?%map_eq_nil.
  - symmetry. apply forallb_forall. intros b Hb. apply in_map_iff in Hb as (d & <- & Hd').
    rewrite Forall_forall in Hd. apply list_elem_of_In, Hd in Hd'.
    unfold is_digit. zbool_eval. done.
Qed.

(** A successful [parse_digits] reads digits, so not a minus sign. *)
Lemma parse_decimal_digits (s : string) (v : Z) :
  parse_digits (bytes_of_string s) = Some v -> parse_decimal s = Some v.
Proof.
  unfold parse_decimal. intros H. destruct (bytes_of_string s) as [|b bs] eqn:E; [done|].
  destruct (Z.eqb_spec b 45) as [->|Hb]; [|done].
  unfold parse_digits in H. simpl in H. discriminate.
Qed.

(** [String(year)] reads back as the year, for every year of fewer
    than twenty digits. *)
Lemma number_to_string_parse (y : Z) :
  - 10 ^ 20 < y < 10 ^ 20 -> parse_decimal (number_to_string y) = Some y.
Proof.
  intros Hy. unfold number_to_string. destruct (Z.ltb_spec y 0) as [Hneg|Hpos].
  - unfold parse_decimal. rewrite bytes_of_string_app. simpl.
    rewrite parse_digits_string by lia. simpl. f_equal. lia.
  - apply parse_decimal_digits, parse_digits_string. lia.
Qed.

(** C33: the download is named [SKKN_VANHA_], then the year as
    [String(year)] prints it (a minus sign before a year before 0),
    then [.doc]; the part between reads back as the same year, for
    every year of fewer than twenty digits (far beyond the years a
    [Date] holds). *)
Theorem download_name_year (y : Z) :
  - 10 ^ 20 < y < 10 ^ 20 ->
  exists s, download_name y = "SKKN_VANHA_" +:+ s +:+ ".doc" /\ parse_decimal s = Some y.
Proof. intros Hy. exists (number_to_string y). split; [done | by apply number_to_string_parse]. Qed.

Lemma download_name_year_witness :
  (- 10 ^ 20 < -44 < 10 ^ 20)%Z /\
  exists s, download_name (-44) = "SKKN_VANHA_" +:+ s +:+ ".doc" /\ parse_decimal s = Some (-44).
Proof. split; [lia|]. apply download_name_year. lia. Defined.
