(* ===== verification/Listing.v ===== *)
(** * Listing.v: [src/components/InitiativeList.tsx]

    The list filters the initiatives by a search term (matched,
    case-insensitively, in the title or the subject) and by a status
    ([ALL] or one status value), and shows one row per initiative kept,
    or an empty state with a button that clears the filters.  Strings are compared on code
    points (the UTF-8 decoding of [Form.v]).  [toLowerCase] applies
    Unicode's full lower-case mapping, a table of the JavaScript engine:
    it is the section variable [lower], which maps one code point to the
    code points of its lower case, and every theorem holds for any such
    table. *)

From S2P Require Import Prelude Types Form.

Local Open Scope Z_scope.

Section Listing.
Context (lower : Z -> list Z).

(** [s.toLowerCase()], on code points. *)
Definition toLowerCase (s : string) : list Z :=
  concat (map lower (utf8_decode (bytes_of_string s))).

(** [s.includes(t)]: [t] occurs in [s] at some position. *)
Fixpoint is_prefix (t s : list Z) : bool :=
  match t, s with
  | [], _ => true
  | c :: t', d :: s' => (c =? d) && is_prefix t' s'
  | _ :: _, [] => false
  end.

Fixpoint includes (s t : list Z) : bool :=
  is_prefix t s || match s with [] => false | _ :: s' => includes s' t end.

(** The predicate of [initiatives.filter] (lines 16-21). *)
Definition matches (searchTerm filterStatus : string) (i : Initiatives.Initiative) : bool :=
  let matchesSearch :=
    includes (toLowerCase (Initiatives.title i)) (toLowerCase searchTerm)
    || includes (toLowerCase (Initiatives.subject i)) (toLowerCase searchTerm) in
  let matchesStatus :=
    String.eqb filterStatus "ALL" || String.eqb (status_value (Initiatives.status i)) filterStatus in
  matchesSearch && matchesStatus.

Definition filtered (searchTerm filterStatus : string) (initiatives : list Initiatives.Initiative)
    : list Initiatives.Initiative :=
  List.filter (matches searchTerm filterStatus) initiatives.
End Listing.

(** The options of the status [<select>] (lines 45-48). *)
Definition status_options : list string :=
  ["ALL"; status_value APPROVED; status_value PENDING; status_value DRAFT].

(** The label of a status badge (lines 89-93). *)
Definition status_label (s : Status) : string :=
  match s with
  | APPROVED => "Đã duyệt"
  | PENDING => "Đang chờ"
  | DRAFT => "Bản nháp"
  end.

(** The colour of a status badge (lines 89-92; the dashboard's badges,
    Dashboard.tsx 127-130, make the same choice). *)
Inductive BadgeColor := Emerald | Amber | Slate.

Definition badge_color (s : Status) : BadgeColor :=
  match s with APPROVED => Emerald | PENDING => Amber | DRAFT => Slate end.

(** The button that clears the filters (line 131): the search term and
    the status it sets. *)
Definition clearFilters : string * string := ("", "ALL").

(** ** The table (lines 67-139) *)

(** [item.id.slice(0, 8)], on code points (the ids are ASCII). *)
Definition short_id (id : string) : string :=
  string_of_bytes (utf8_encode (take 8 (utf8_decode (bytes_of_string id)))).

(** One row ([<tr key={item.id}>], lines 68-120). *)
Record Row := mkRow {
  row_key : string; row_title : string; row_short_id : string; row_subject : string;
  row_grade : string; row_year : string; row_status : Status; row_label : string
}.

Definition row_of (i : Initiatives.Initiative) : Row :=
  mkRow (Initiatives.id i) (Initiatives.title i) (short_id (Initiatives.id i))
    (Initiatives.subject i) (Initiatives.grade i) (Initiatives.year i)
    (Initiatives.status i) (status_label (Initiatives.status i)).

(** The edit and delete buttons of a row (lines 101-113) call the
    parent's [onEdit(item)] and [onDelete(item.id)]. *)
Inductive RowAction :=
| OnEdit (i : Initiatives.Initiative)
| OnDelete (id : string).

Definition row_actions (i : Initiatives.Initiative) : list RowAction :=
  [OnEdit i; OnDelete (Initiatives.id i)].

Section ListView.
Context (lower : Z -> list Z).

(** The rows shown, and whether the empty state (its message and the
    clear-filters button, lines 122-139) is shown. *)
Definition list_view (searchTerm filterStatus : string) (initiatives : list Initiatives.Initiative)
    : list Row * bool :=
  let f := filtered lower searchTerm filterStatus initiatives in
  (map row_of f, bool_decide (length f = 0%nat)).
End ListView.

(** ** Lemmas on the search *)

Lemma is_prefix_spec (t s : list Z) : is_prefix t s = true <-> exists k, s = t ++ k.
Proof.
  revert s. induction t as [|c t IH]; intros [|d s]; simpl.
  - split; [by exists [] | done].
  - split; [by exists (d :: s) | done].
  - split; [done | by intros [k ?]].
  - rewrite andb_true_iff, Z.eqb_eq, IH. split.
    + intros [-> [k ->]]. by exists k.
    + intros [k Hk]. injection Hk as -> ->. eauto.
Qed.

Lemma includes_spec (s t : list Z) :
  includes s t = true <-> exists k1 k2, s = k1 ++ t ++ k2.
Proof.
  induction s as [|d s IH]; simpl; rewrite orb_true_iff, is_prefix_spec.
  - split; [intros [[k ->]|]; [by exists [], k | done]|].
    intros (k1 & k2 & Hs). symmetry in Hs. apply app_eq_nil in Hs as [-> Hs].
    left. exists k2. done.
  - rewrite IH. split.
    + intros [[k Hk] | (k1 & k2 & ->)]; [by exists [], k | by exists (d :: k1), k2].
    + intros ([|e k1] & k2 & Hs); [left; by exists k2|].
      injection Hs as -> ->. right. eauto.
Qed.

Lemma includes_nil (s : list Z) : includes s [] = true.
Proof. destruct s; reflexivity. Qed.

(** A longer pattern is found only where its prefix is. *)
Lemma includes_app_r (s t u : list Z) : includes s (t ++ u) = true -> includes s t = true.
Proof.
  rewrite !includes_spec. intros (k1 & k2 & ->). exists k1, (u ++ k2).
  by rewrite !app_assoc.
Qed.

Lemma toLowerCase_empty (lower : Z -> list Z) : toLowerCase lower "" = [].
Proof. reflexivity. Qed.

(** [Array.prototype.filter] with a stronger predicate keeps a sublist. *)
Lemma filter_sublist_mono {A} (f g : A -> bool) (l : list A) :
  (forall x, f x = true -> g x = true) -> List.filter f l `sublist_of` List.filter g l.
Proof.
  intros Hfg. induction l as [|x l IH]; simpl; [done|].
  destruct (f x) eqn:Hf; [rewrite (Hfg x Hf); by constructor|].
  destruct (g x); [by constructor | done].
Qed.

Lemma filter_all_true {A} (f : A -> bool) (l : list A) :
  (forall x, f x = true) -> List.filter f l = l.
Proof. intros Hf. induction l as [|x l IH]; simpl; [done|]. by rewrite Hf, IH. Qed.

#[export] Hint Resolve includes_nil includes_app_r : skkn.

Lemma status_value_inj (s t : Status) : status_value s = status_value t -> s = t.
Proof. destruct s, t; done. Qed.

Lemma status_value_not_all (s : Status) : String.eqb (status_value s) "ALL" = false.
Proof. by destruct s. Qed.

Section ListingLemmas.
Context (lower : Z -> list Z).

Lemma filtered_clear_all (l : list Initiatives.Initiative) :
  filtered lower (fst clearFilters) (snd clearFilters) l = l.
Proof.
  apply filter_all_true. intros i. unfold matches. simpl.
  by rewrite toLowerCase_empty, includes_nil.
Qed.

(** C22: with a status selected, every initiative shown has that status. *)
Theorem filtered_status (searchTerm : string) (s : Status) (l : list Initiatives.Initiative)
  (i : Initiatives.Initiative) :
  In i (filtered lower searchTerm (status_value s) l) -> Initiatives.status i = s.
Proof.
  unfold filtered. rewrite filter_In. intros [_ Hm]. unfold matches in Hm.
  rewrite status_value_not_all in Hm. simpl in Hm.
  apply andb_true_iff in Hm as [_ Hs]. apply String.eqb_eq, status_value_inj in Hs. done.
Qed.

(** C31: narrowing the search: when the lower-cased new term extends the
    lower-cased old one (typing more characters), and the status filter
    is [ALL] or unchanged, the new list is a sublist of the old one. *)
Theorem filtered_narrow (q q' : string) (x : list Z) (f : string)
  (l : list Initiatives.Initiative) :
  toLowerCase lower q' = toLowerCase lower q ++ x ->
  filtered lower q' f l `sublist_of` filtered lower q f l.
Proof.
  intros Hq. apply filter_sublist_mono. intros i. unfold matches. rewrite Hq.
  rewrite !andb_true_iff, !orb_true_iff. intros [[H|H] Hs]; eauto with skkn.
Qed.

(** selecting a status only narrows the list shown for [ALL]. *)
Theorem filtered_status_narrow (q : string) (s : Status) (l : list Initiatives.Initiative) :
  filtered lower q (status_value s) l `sublist_of` filtered lower q "ALL" l.
Proof.
  apply filter_sublist_mono. intros i. unfold matches.
  rewrite !andb_true_iff. intros [H _]. by split.
Qed.
(** C23: the empty state, with its clear-filters button, is shown
    exactly when no initiative matches; after the button is clicked the
    table has one row per initiative, in order, and the empty state stays
    only when there are no initiatives at all. *)
Theorem list_view_clear (q f : string) (l : list Initiatives.Initiative) :
  (snd (list_view lower q f l) = true <-> filtered lower q f l = []) /\
  fst (list_view lower (fst clearFilters) (snd clearFilters) l) = map row_of l /\
  (snd (list_view lower (fst clearFilters) (snd clearFilters) l) = true <-> l = []).
Proof.
  unfold list_view. cbn [fst snd]. rewrite !bool_decide_eq_true, !length_zero_iff_nil.
  rewrite filtered_clear_all. done.
Qed.
End ListingLemmas.

(** ** Concrete instances *)

(** The ASCII part of the lower-case table. *)
Definition ascii_lower (c : Z) : list Z :=
  [if (65 <=? c) && (c <=? 90) then c + 32 else c].

Definition sample_initiative (t subj : string) (s : Status) : Initiatives.Initiative :=
  Initiatives.mkInitiative "1" t subj "10" "2025" "" "" "" "" s.

Definition sample_initiatives : list Initiatives.Initiative :=
  [sample_initiative "Day hoc Toan" "Toan" APPROVED;
   sample_initiative "Doc hieu Van" "Ngu van" DRAFT;
   sample_initiative "Thi nghiem Ly" "Vat ly" PENDING].

Lemma filtered_status_witness :
  In (sample_initiative "Day hoc Toan" "Toan" APPROVED)
     (filtered ascii_lower "toan" (status_value APPROVED) sample_initiatives) /\
  Initiatives.status (sample_initiative "Day hoc Toan" "Toan" APPROVED) = APPROVED.
Proof.
  split; [vm_compute; by left|].
  apply (filtered_status ascii_lower "toan" APPROVED sample_initiatives). vm_compute. by left.
Defined.

Lemma filtered_narrow_witness :
  toLowerCase ascii_lower "TOAN" = toLowerCase ascii_lower "To" ++ [97; 110] /\
  filtered ascii_lower "TOAN" "ALL" sample_initiatives `sublist_of`
    filtered ascii_lower "To" "ALL" sample_initiatives.
Proof.
  split; [reflexivity|]. apply (filtered_narrow ascii_lower "To" "TOAN" [97; 110]). reflexivity.
Defined.
