(* ===== verification/Dashboard.v ===== *)
(** * Dashboard.v: [src/components/Dashboard.tsx]

    The dashboard counts the initiatives by status ([stats], lines
    15-20), shows the counts as four cards (lines 41-46) and a pie chart
    with its legend (lines 22-26, 104-107), a fixed bar chart of mock
    monthly data (lines 28-35), and the first three initiatives as recent
    activity (lines 118-135): the first character of the subject, the
    title, the year and subject, and a badge with the raw status.  The
    charts' drawing is the library's; their data is modelled. *)

From S2P Require Import Prelude Types Form Listing.

Local Open Scope Z_scope.


Record Stats := mkStats { total : nat; approved : nat; pending : nat; draft : nat }.

Definition count_status (s : Status) (l : list Initiatives.Initiative) : nat :=
  length (List.filter (fun i => bool_decide (Initiatives.status i = s)) l).

Definition stats (initiatives : list Initiatives.Initiative) : Stats :=
  mkStats (length initiatives) (count_status APPROVED initiatives)
    (count_status PENDING initiatives) (count_status DRAFT initiatives).

(** [pieData]: the three slices, in order. *)
Definition pieData (st : Stats) : list (string * nat) :=
  [("Đã duyệt", approved st); ("Đang chờ", pending st); ("Bản nháp", draft st)].

(** [initiatives.slice(0, 3)]: the recent activity. *)
Definition recent (initiatives : list Initiatives.Initiative) : list Initiatives.Initiative :=
  take 3 initiatives.

(** The four cards (lines 41-46). *)
Definition stat_cards (st : Stats) : list (string * nat) :=
  [("Tổng số SKKN", total st); ("Đã được duyệt", approved st);
   ("Đang chờ xử lý", pending st); ("Số bản nháp", draft st)].

(** The bar chart's data (lines 28-35), a constant of the component. *)
Definition barData : list (string * nat) :=
  [("T1", 2%nat); ("T2", 5%nat); ("T3", 3%nat); ("T4", 8%nat); ("T5", 12%nat); ("T6", 4%nat)].

(** [s.charAt(0)]: the first UTF-16 code unit, as a string of units: a
    code point above U+FFFF gives its high surrogate alone. *)
Definition char_at0 (s : string) : list Z :=
  match utf8_decode (bytes_of_string s) with
  | [] => []
  | c :: _ => [if c <? 0x10000 then c else 0xD800 + (c - 0x10000) / 1024]
  end.

(** One entry of the recent activity (lines 119-132). *)
Record Activity := mkActivity {
  act_key : string; act_initial : list Z; act_title : string; act_caption : string;
  act_badge : string; act_color : BadgeColor
}.

Definition activity_of (i : Initiatives.Initiative) : Activity :=
  mkActivity (Initiatives.id i) (char_at0 (Initiatives.subject i)) (Initiatives.title i)
    ("Năm học: " +:+ Initiatives.year i +:+ " • " +:+ Initiatives.subject i)
    (status_value (Initiatives.status i)) (badge_color (Initiatives.status i)).

Definition recent_activity (initiatives : list Initiatives.Initiative) : list Activity * bool :=
  (map activity_of (recent initiatives), bool_decide (length initiatives = 0%nat)).

(** ** Lemmas *)

(** The three counters partition the total. *)
Lemma stats_partition (l : list Initiatives.Initiative) :
  (approved (stats l) + pending (stats l) + draft (stats l))%nat = total (stats l).
Proof.
  unfold stats, count_status; simpl. induction l as [|i l IH]; simpl; [done|].
  destruct (Initiatives.status i); simpl; rewrite ?bool_decide_true, ?bool_decide_false by done;
    simpl; lia.
Qed.

Lemma status_label_eqb (a b : Status) :
  String.eqb (status_label a) (status_label b) = bool_decide (a = b).
Proof. by destruct a, b. Qed.

(** Counting the list's rows by their badge label counts the statuses. *)
Lemma rows_with_label (s : Status) (l : list Initiatives.Initiative) :
  length (List.filter (fun r => String.eqb (row_label r) (status_label s)) (map row_of l)) =
  count_status s l.
Proof.
  unfold count_status. induction l as [|i l IH]; [done|]. simpl.
  rewrite status_label_eqb. by destruct (bool_decide _); simpl; rewrite IH.
Qed.

(** C24: the dashboard agrees with the list: the first card is the
    number of initiatives and the three others are the pie's slices,
    which add up to it; each slice is named with the list's badge label
    of its status and counts exactly the rows of the unfiltered list
    that carry that label, whatever the case table. *)
Theorem dashboard_counts (lower : Z -> list Z) (l : list Initiatives.Initiative) :
  map snd (stat_cards (stats l)) = length l :: map snd (pieData (stats l)) /\
  fold_right plus 0%nat (map snd (pieData (stats l))) = length l /\
  Forall2 (fun p s => fst p = status_label s /\
             snd p = length (List.filter (fun r => String.eqb (row_label r) (status_label s))
                               (fst (list_view lower (fst clearFilters) (snd clearFilters) l))))
    (pieData (stats l)) [APPROVED; PENDING; DRAFT].
Proof.
  split; [done|]. split.
  - pose proof (stats_partition l) as H. simpl in *. lia.
  - unfold list_view. cbn [fst]. rewrite filtered_clear_all.
    repeat constructor; cbn [snd pieData]; by rewrite rows_with_label.
Qed.

(** The recent activity lists the first three initiatives, in order, and
    its empty message shows exactly when there is none. *)
Lemma recent_activity_spec (l : list Initiatives.Initiative) :
  fst (recent_activity l) = map activity_of (take 3 l) /\
  length (fst (recent_activity l)) = Nat.min 3 (length l) /\
  (snd (recent_activity l) = true <-> l = []).
Proof.
  unfold recent_activity, recent. cbn [fst snd]. rewrite length_map, length_take.
  rewrite bool_decide_eq_true, length_zero_iff_nil. split; [done|]. split; [lia | done].
Qed.

(** The recent activity's badge shows the raw enum value where the list
    shows the Vietnamese label, for every status. *)
Lemma activity_badge_raw (i : Initiatives.Initiative) :
  act_badge (activity_of i) = status_value (Initiatives.status i) /\
  act_badge (activity_of i) <> status_label (Initiatives.status i) /\
  act_color (activity_of i) = badge_color (Initiatives.status i).
Proof. simpl. by destruct (Initiatives.status i). Qed.
