(* ===== verification/Layout.v ===== *)
(** * Layout.v: [src/components/Layout.tsx]

    The shell of the initiative pages: a sidebar of four menu items, each
    a button that sets the parent's [activeTab] to its [id]; the item
    whose [id] equals [activeTab] is highlighted; the header shows the
    label of the item found by [menuItems.find(i => i.id === activeTab)],
    [undefined] (nothing) when no item has that [id]. *)

From S2P Require Import Prelude.

Record MenuItem := mkMenuItem { item_id : string; item_label : string }.

#[export] Instance MenuItem_eq_dec : EqDecision MenuItem.
Proof. solve_decision. Defined.

(** Lines 12-17 (the icons are not modelled). *)
Definition menuItems : list MenuItem :=
  [mkMenuItem "dashboard" "Bảng điều khiển";
   mkMenuItem "list" "Danh sách SKKN";
   mkMenuItem "create" "Viết sáng kiến";
   mkMenuItem "library" "Thư viện mẫu"].

(** [onClick={() => setActiveTab(item.id)}] (line 39): the new tab. *)
Definition nav_click (item : MenuItem) (activeTab : string) : string := item_id item.

(** [activeTab === item.id] (lines 41, 46): the highlighted items. *)
Definition item_active (activeTab : string) (item : MenuItem) : bool :=
  String.eqb activeTab (item_id item).

Definition highlighted (activeTab : string) : list MenuItem :=
  List.filter (item_active activeTab) menuItems.

(** [menuItems.find(i => i.id === activeTab)?.label] (line 69). *)
Definition header_title (activeTab : string) : option string :=
  option_map item_label (List.find (item_active activeTab) menuItems).

(** ** Lemmas *)

Lemma filter_none {A} (f : A -> bool) (l : list A) :
  (forall x, In x l -> f x = false) -> List.filter f l = [].
Proof.
  induction l as [|x l IH]; intros H; simpl; [done|].
  rewrite (H x) by (by left). apply IH. intros y Hy. apply H. by right.
Qed.

(** [find] returns the first highlighted item. *)
Lemma header_title_highlighted (activeTab : string) :
  header_title activeTab = option_map item_label (head (highlighted activeTab)).
Proof.
  unfold header_title, highlighted. generalize menuItems as l.
  induction l as [|i l IH]; simpl; [done|]. by destruct (item_active activeTab i).
Qed.

(** C34: a click on a menu item highlights exactly that item and puts
    its label in the header; a tab that is no item's [id] highlights
    nothing and leaves the header empty. *)
Theorem nav_click_title (item : MenuItem) (activeTab : string) :
  (In item menuItems ->
   highlighted (nav_click item activeTab) = [item] /\
   header_title (nav_click item activeTab) = Some (item_label item)) /\
  (~ In activeTab (map item_id menuItems) ->
   highlighted activeTab = [] /\ header_title activeTab = None).
Proof.
  split.
  - intros Hin. unfold nav_click.
    assert (Hh : highlighted (item_id item) = [item]).
    { unfold highlighted. simpl in Hin.
      destruct Hin as [<-|[<-|[<-|[<-|[]]]]]; vm_compute; reflexivity. }
    split; [done|]. by rewrite header_title_highlighted, Hh.
  - intros Hn. assert (Hh : highlighted activeTab = []).
    { unfold highlighted. apply filter_none. intros i Hi. unfold item_active.
      destruct (String.eqb_spec activeTab (item_id i)) as [->|]; [|done].
      contradict Hn. by apply in_map. }
    split; [done|]. by rewrite header_title_highlighted, Hh.
Qed.

Lemma nav_click_title_witness :
  In (mkMenuItem "list" "Danh sách SKKN") menuItems /\
  header_title (nav_click (mkMenuItem "list" "Danh sách SKKN") "dashboard") = Some "Danh sách SKKN".
Proof.
  assert (Hin : In (mkMenuItem "list" "Danh sách SKKN") menuItems) by (simpl; tauto).
  split; [done|]. apply (proj1 (nav_click_title (mkMenuItem "list" "Danh sách SKKN") "dashboard") Hin).
Defined.
