(* ===== verification/JsValue.v ===== *)
(** * JsValue.v: the JavaScript values the initiative form handles

    [JSON.parse] returns [null], booleans, numbers, strings, arrays and
    objects; a missing property reads as [undefined].  [Val] holds these
    values; [val_to_string] is [String(v)] (arrays through [join(",")],
    objects as ["[object Object]"]); [val_truthy] is JavaScript's
    truthiness; [get] reads a property of a parsed object, the last
    binding of a duplicated key winning as in [JSON.parse].  Numbers are
    rationals ([Q]) and their printing is the engine's.  [Schema] is
    the response schema of [@google/genai] and [conforms] checks a value
    against it.  [JsEngine] is the interface to the JavaScript engine
    (number printing and [JSON.parse]) the form's handlers are written
    against, and [JsEngineLaws] the fact of ECMA-262 their theorems use. *)

From S2P Require Import Prelude.
From Stdlib Require Import QArith.

Local Set Warnings "-register-all".

(** ** JavaScript values *)

Inductive Val :=
| VUndef
| VNull
| VBool (b : bool)
| VNum (q : Q)
| VStr (s : string)
| VArr (l : list Val)
| VObj (props : list (string * Val)).

Definition nl : string := "
".

(** [l.join(sep)] on strings. *)
Fixpoint str_join (sep : string) (l : list string) : string :=
  match l with
  | [] => ""
  | [x] => x
  | x :: l' => x +:+ sep +:+ str_join sep l'
  end.

Section Values.
Context (num_to_string : Q -> string).

(** [String(v)]; an array converts through [join(",")], where [null] and
    [undefined] elements give the empty string. *)
Fixpoint val_to_string (v : Val) : string :=
  match v with
  | VUndef => "undefined"
  | VNull => "null"
  | VBool b => if b then "true" else "false"
  | VNum q => num_to_string q
  | VStr s => s
  | VArr l =>
      str_join ","
        ((fix go (l : list Val) : list string :=
            match l with
            | [] => []
            | x :: l' =>
                match x with VUndef | VNull => "" | _ => val_to_string x end :: go l'
            end) l)
  | VObj _ => "[object Object]"
  end.

(** [Array.prototype.join(sep)]. *)
Definition array_join (sep : string) (l : list Val) : string :=
  str_join sep (map (fun x => match x with VUndef | VNull => "" | _ => val_to_string x end) l).
End Values.

(** Truthiness, as in [if (data)] and [!formData.title]. *)
Definition val_truthy (v : Val) : bool :=
  match v with
  | VUndef | VNull => false
  | VBool b => b
  | VNum q => negb (Qeq_bool q 0)
  | VStr s => negb (String.eqb s "")
  | VArr _ | VObj _ => true
  end.

(** [v || d]. *)
Definition val_or (v d : Val) : Val := if val_truthy v then v else d.

(** An own property of a parsed object; a duplicated key keeps its last
    value, as [JSON.parse] does. *)
Fixpoint obj_get (props : list (string * Val)) (k : string) : option Val :=
  match props with
  | [] => None
  | (k', v) :: props' =>
      match obj_get props' k with
      | Some v' => Some v'
      | None => if String.eqb k k' then Some v else None
      end
  end.

(** [data.k] for the four keys of the outline, which are no property of
    a primitive or an array: only an object can give a value. *)
Definition get (data : Val) (k : string) : Val :=
  match data with
  | VObj props => match obj_get props k with Some v => v | None => VUndef end
  | _ => VUndef
  end.

(** [typeof v === "string"]. *)
Definition is_str (v : Val) : bool := match v with VStr _ => true | _ => false end.

(** ** Lemmas *)

Lemma array_join_strings (n : Q -> string) (sep : string) (l : list string) :
  array_join n sep (map VStr l) = str_join sep l.
Proof. unfold array_join. by rewrite map_map, map_id. Qed.

Lemma val_or_str (s : string) :
  val_or (VStr s) (VStr "") = VStr s.
Proof. unfold val_or. simpl. by destruct (String.eqb_spec s ""); subst. Qed.

#[export] Hint Rewrite array_join_strings val_or_str : skkn.

(** ** Response schemas *)

(** The [responseSchema] of [@google/genai]: an object with typed
    properties and required keys, a string, or an array of items; the
    [description]s are kept as written. *)
Inductive Schema :=
| SObject (props : list (string * Schema)) (required : list string)
| SString (description : option string)
| SArray (items : Schema) (description : option string).

(** Whether a parsed value conforms to a schema: an object has every
    required key, and every property it has conforms to its schema. *)
Fixpoint conforms (sch : Schema) (v : Val) : bool :=
  match sch with
  | SString _ => is_str v
  | SArray items _ => match v with VArr l => forallb (conforms items) l | _ => false end
  | SObject props req =>
      match v with
      | VObj kvs =>
          forallb (fun k => match obj_get kvs k with Some _ => true | None => false end) req &&
          (fix go (ps : list (string * Schema)) : bool :=
             match ps with
             | [] => true
             | (k, s) :: ps' =>
                 match obj_get kvs k with Some x => conforms s x | None => true end && go ps'
             end) props
      | _ => false
      end
  end.

Lemma conforms_string (d : option string) (v : Val) :
  conforms (SString d) v = true -> exists s, v = VStr s.
Proof. destruct v; try discriminate. eauto. Qed.

Lemma conforms_string_array (d d' : option string) (v : Val) :
  conforms (SArray (SString d) d') v = true -> exists l, v = VArr (map VStr l).
Proof.
  destruct v as [| | | | |l|]; try discriminate. simpl.
  induction l as [|x l IH]; intros Hl; [by exists []|].
  apply andb_true_iff in Hl as [Hx Hl]. destruct (IH Hl) as [l' [= ->]].
  destruct x; try discriminate. by exists (s :: l').
Qed.

(** A required property of a conforming object is present and conforms. *)
Lemma conforms_required (props : list (string * Schema)) (req : list string) (kvs : list (string * Val))
    (k : string) (s : Schema) :
  conforms (SObject props req) (VObj kvs) = true -> In (k, s) props -> In k req ->
  exists x, obj_get kvs k = Some x /\ conforms s x = true.
Proof.
  simpl. rewrite andb_true_iff, forallb_forall. intros [Hreq Hps] Hin Hk.
  specialize (Hreq k Hk). destruct (obj_get kvs k) as [x|] eqn:E; [|done].
  exists x. split; [done|]. induction props as [|[k' s'] ps IH]; [done|].
  apply andb_true_iff in Hps as [H1 H2]. destruct Hin as [[= -> ->]|Hin]; [by rewrite E in H1|].
  by apply IH.
Qed.

(** ** The JavaScript engine *)

(** What the form takes from the JavaScript engine: the printing of
    numbers ([Number.prototype.toString]) and [JSON.parse] ([None] when it
    throws a [SyntaxError]). *)
Class JsEngine := {
  num_to_string : Q -> string;
  JSON_parse : string -> option Val
}.

(** What the form relies on from ECMA-262: [JSON.parse("{}")] is an empty
    object. *)
Class JsEngineLaws (E : JsEngine) : Prop := {
  JSON_parse_empty_object : JSON_parse "{}" = Some (VObj [])
}.
