(* ===== verification/InitiativeForm.v ===== *)
(** * InitiativeForm.v: [src/components/InitiativeForm.tsx] and
    [generateSKKNStructure] of [src/services/geminiService.ts]

    The form holds a [Partial<Initiative>] and the name of the request in
    flight ([isGenerating]).  Two handlers call the model: [handleAIHelp]
    appends a suggestion to one field, [handleMagicFill] asks for a JSON
    outline ([generateSKKNStructure]) and copies its fields into the form.
    The fields of the form can hold any JavaScript value once a parsed
    answer has been copied in, so they are values of [Val], the values
    [JSON.parse] produces together with [undefined].  Each handler is split
    at its [await]: the synchronous part ([*_begin]) and the part that runs
    when the request settles ([*_end]).  [JSON.parse] and the formatting of
    numbers ([Number.prototype.toString]) are the JavaScript engine's: they
    are the operations of the class [JsEngine] of [JsValue.v], and what
    the handlers need of [JSON.parse] is its law class [JsEngineLaws].  The
    controls ([controls]) bind each editable property to one input,
    select or textarea; the grade options are computed as the code does,
    with [number_to_string] of [Export.v].  Each of the four AI sections
    is rendered as [section_view] (its button's spinner and [disabled],
    its textarea's value), and its button passes [ai_button_args] to
    [handleAIHelp].  [outline_schema] is the
    response schema the request carries; whether the model honours it is
    the hypothesis of [magicFill_conforming]. *)

From S2P Require Import Prelude Types Service Form Export JsValue.
From Stdlib Require Import QArith.

(** ** The form's state *)

(** [keyof Initiative]. *)
Inductive Key := K_id | K_title | K_subject | K_grade | K_year
| K_abstract | K_situation | K_solutions | K_results | K_status.

#[export] Instance Key_eq_dec : EqDecision Key.
Proof. solve_decision. Defined.

Definition key_name (k : Key) : string :=
  match k with
  | K_id => "id" | K_title => "title" | K_subject => "subject" | K_grade => "grade"
  | K_year => "year" | K_abstract => "abstract" | K_situation => "situation"
  | K_solutions => "solutions" | K_results => "results" | K_status => "status"
  end.

(** [Partial<Initiative>]: a missing property reads as [undefined]. *)
Record FormData := mkFormData {
  fd_id : Val; fd_title : Val; fd_subject : Val; fd_grade : Val; fd_year : Val;
  fd_abstract : Val; fd_situation : Val; fd_solutions : Val; fd_results : Val;
  fd_status : Val
}.

Definition fd_get (fd : FormData) (k : Key) : Val :=
  match k with
  | K_id => fd_id fd | K_title => fd_title fd | K_subject => fd_subject fd
  | K_grade => fd_grade fd | K_year => fd_year fd | K_abstract => fd_abstract fd
  | K_situation => fd_situation fd | K_solutions => fd_solutions fd
  | K_results => fd_results fd | K_status => fd_status fd
  end.

Definition fd_of_fun (f : Key -> Val) : FormData :=
  mkFormData (f K_id) (f K_title) (f K_subject) (f K_grade) (f K_year)
    (f K_abstract) (f K_situation) (f K_solutions) (f K_results) (f K_status).

(** [{ ...fd, [k]: v }]. *)
Definition fd_set (fd : FormData) (k : Key) (v : Val) : FormData :=
  fd_of_fun (fun k' => if decide (k' = k) then v else fd_get fd k').

(** The initial [formData] (lines 14-25): the defaults, then the
    properties of [initialData] ([null] or [undefined] spread nothing). *)
Definition fd_defaults : FormData :=
  mkFormData VUndef (VStr "") (VStr "Toán học") (VStr "Lớp 1") (VStr "2023-2024")
    (VStr "") (VStr "") (VStr "") (VStr "") (VStr (status_value DRAFT)).

Definition initiative_val (i : Initiatives.Initiative) (k : Key) : Val :=
  match k with
  | K_id => VStr (Initiatives.id i) | K_title => VStr (Initiatives.title i)
  | K_subject => VStr (Initiatives.subject i) | K_grade => VStr (Initiatives.grade i)
  | K_year => VStr (Initiatives.year i) | K_abstract => VStr (Initiatives.abstract i)
  | K_situation => VStr (Initiatives.situation i)
  | K_solutions => VStr (Initiatives.solutions i)
  | K_results => VStr (Initiatives.results i)
  | K_status => VStr (status_value (Initiatives.status i))
  end.

Definition fd_init (initialData : option Initiatives.Initiative) : FormData :=
  match initialData with
  | None => fd_defaults
  | Some i => fd_of_fun (initiative_val i)
  end.

Record FormState := mkFormState { formData : FormData; isGenerating : option string }.

Definition initFormState (initialData : option Initiatives.Initiative) : FormState :=
  mkFormState (fd_init initialData) None.

Definition set_formData (fd : FormData) (st : FormState) : FormState :=
  mkFormState fd (isGenerating st).
Definition set_isGenerating (g : option string) (st : FormState) : FormState :=
  mkFormState (formData st) g.

(** An input's [onChange] (lines 98, 107, 125, 132, 176):
    [setFormData({ ...formData, [k]: e.target.value })], where [formData]
    is the value of the render that installed the handler. *)
Definition onChange (snap : FormData) (k : Key) (value : string) (st : FormState) : FormState :=
  set_formData (fd_set snap k (VStr value)) st.

(** ** The controls (lines 93-136, 151-178) *)

(** The options of the three selects: the subjects (lines 108-116), the
    grades [Array.from({length: 12}, (_, i) => `Lớp ${i+1}`)] (line 127)
    and the school years (lines 133-136). *)
Definition subject_options : list string :=
  ["Toán học"; "Ngữ văn"; "Tiếng Anh"; "Khoa học tự nhiên"; "Lịch sử & Địa lý"; "Tin học";
   "Giáo dục thể chất"].

Definition grade_options : list string :=
  map (fun i => "Lớp " +:+ number_to_string (Z.of_nat i + 1)) (seq 0 12).

Definition year_options : list string := ["2023-2024"; "2024-2025"].

(** The four sections with an AI button (lines 152-157). *)
Record AISection := mkAISection { sec_id : Key; sec_label : string; sec_prompt : string }.

Definition sections : list AISection :=
  [mkAISection K_abstract "Tóm tắt sáng kiến" "Hãy viết một đoạn tóm tắt chuyên nghiệp cho sáng kiến này";
   mkAISection K_situation "Thực trạng vấn đề" "Phân tích các khó khăn và thực trạng hiện nay của vấn đề này";
   mkAISection K_solutions "Các biện pháp / Giải pháp" "Gợi ý 3 biện pháp cụ thể, mang tính đột phá và thực tế";
   mkAISection K_results "Kết quả đạt được" "Mô tả các kết quả mong đợi sau khi áp dụng các biện pháp trên"].

(** The arguments a section's AI button passes to [handleAIHelp]
    (line 163). *)
Definition ai_button_args (sec : AISection) : Key * string := (sec_id sec, sec_prompt sec).

(** The editable controls, each bound by [value] and [onChange] to one
    property: the title input, the three selects, the section
    textareas. *)
Inductive Control :=
| CInput (k : Key)
| CSelect (k : Key) (options : list string)
| CTextarea (k : Key).

Definition control_key (c : Control) : Key :=
  match c with CInput k | CSelect k _ | CTextarea k => k end.

Definition controls : list Control :=
  [CInput K_title; CSelect K_subject subject_options; CSelect K_grade grade_options;
   CSelect K_year year_options] ++ map (fun sec => CTextarea (sec_id sec)) sections.

(** What a controlled [<select>] shows: the option equal to its value;
    with no such option the browser shows the first option while the
    state keeps the value. *)
Definition select_shows (options : list string) (v : Val) : option string :=
  match v with
  | VStr s => if decide (s ∈ options) then Some s else head options
  | _ => head options
  end.

(** The two submit buttons (lines 71, 78). *)
Definition submit_payload (fd : FormData) (s : Status) : FormData :=
  fd_set fd K_status (VStr (status_value s)).

(** How a request to the model settles: [response.text], or a rejection. *)
Inductive Response :=
| Resolved (text : option string)
| Rejected (message : string).

(** The [responseSchema] of [generateSKKNStructure]
    (geminiService.ts 66-88). *)
Definition outline_schema : Schema :=
  SObject
    [("abstract", SString (Some "Tóm tắt sáng kiến"));
     ("situation", SString (Some "Thực trạng vấn đề"));
     ("solutions", SArray (SString None) (Some "Danh sách các giải pháp"));
     ("results", SString (Some "Kết quả đạt được"))]
    ["abstract"; "situation"; "solutions"; "results"].

Section Handlers.
Context {E : JsEngine}.

(** ** [handleAIHelp] (lines 29-38) and [getAISuggestions] *)

(** The contents [getAISuggestions] sends (geminiService.ts line 50). *)
Definition suggestion_contents (prompt context : string) : string :=
  "Context: " +:+ context +:+ nl +:+ nl +:+ "Task: " +:+ prompt.

Definition ai_context (fd : FormData) : string :=
  "Môn: " +:+ val_to_string num_to_string (fd_subject fd) +:+ ", Khối: " +:+ val_to_string num_to_string (fd_grade fd)
  +:+ ", Tiêu đề: " +:+ val_to_string num_to_string (fd_title fd).

(** Up to the [await]: the spinner names the field; the request carries
    the context built from the render's [formData]. *)
Definition aiHelp_begin (snap : FormData) (field : Key) (prompt : string) (st : FormState)
    : FormState * string :=
  (set_isGenerating (Some (key_name field)) st,
   suggestion_contents prompt (ai_context snap)).

(** [prev => ({ ...prev, [field]: (prev[field] || '') + '\n\n' + suggestion })]. *)
Definition upd_ai (field : Key) (suggestion : string) (prev : FormData) : FormData :=
  fd_set prev field (VStr (val_to_string num_to_string (val_or (fd_get prev field) (VStr "")) +:+ nl +:+ nl +:+ suggestion)).

(** After the [await]: the suggestion is [response.text || ""]; the
    [finally] clears the spinner; a rejection propagates past it. *)
Definition aiHelp_end (field : Key) (r : Response) (st : FormState) : FormState :=
  match r with
  | Resolved t =>
      set_isGenerating None (set_formData (upd_ai field (getAISuggestions_result t) (formData st)) st)
  | Rejected _ => set_isGenerating None st
  end.
(** A section's AI button (line 163):
    [handleAIHelp(section.id as keyof Initiative, section.prompt)]; the
    click runs the handler up to its [await], and the handler's
    continuation, with the same [field], runs when the request settles. *)
Definition aiHelp_click (snap : FormData) (sec : AISection) (st : FormState) : FormState * string :=
  aiHelp_begin snap (ai_button_args sec).1 (ai_button_args sec).2 st.
Definition aiHelp_click_end (sec : AISection) (r : Response) (st : FormState) : FormState :=
  aiHelp_end (ai_button_args sec).1 r st.

(** ** [handleMagicFill] (lines 40-57) and [generateSKKNStructure] *)

Definition no_title_alert : string := "Vui lòng nhập tiêu đề để AI có cơ sở gợi ý!".

(** The contents [generateSKKNStructure] sends (geminiService.ts 60-63). *)
Definition structure_contents (title subject grade : string) : string :=
  "Hãy tạo sườn nội dung cho sáng kiến kinh nghiệm:
      Tiêu đề: " +:+ title +:+ "
      Môn: " +:+ subject +:+ "
      Khối: " +:+ grade.

Inductive MagicBegin :=
| Alerted (message : string)
| Requested (contents : string).

(** Up to the [await]: without a title the handler alerts and returns;
    otherwise the spinner is ['all'] and the outline is requested. *)
Definition magicFill_begin (snap : FormData) (st : FormState) : FormState * MagicBegin :=
  if negb (val_truthy (fd_title snap)) then (st, Alerted no_title_alert)
  else (set_isGenerating (Some "all") st,
        Requested (structure_contents
          (val_to_string num_to_string (val_or (fd_title snap) (VStr "")))
          (val_to_string num_to_string (val_or (fd_subject snap) (VStr "")))
          (val_to_string num_to_string (val_or (fd_grade snap) (VStr ""))))).

(** [generateSKKNStructure]'s result (geminiService.ts 92-98): the text,
    or ["{}"] when it is empty or missing, parsed; [null] when
    [JSON.parse] throws. *)
Definition structure_result (text : option string) : Val :=
  match JSON_parse (text ||| "{}") with
  | Some v => v
  | None => VNull
  end.

(** The updater of lines 46-52; [None] when [data.solutions.join] is not
    a function and the updater throws a [TypeError]. *)
Definition upd_magic (data : Val) (prev : FormData) : option FormData :=
  match get data "solutions" with
  | VArr l =>
      Some (fd_set (fd_set (fd_set (fd_set prev
        K_abstract (get data "abstract"))
        K_situation (get data "situation"))
        K_solutions (VStr (array_join num_to_string nl l)))
        K_results (get data "results"))
  | _ => None
  end.

(** After the [await].  React runs the updater while it renders: when it
    throws, the render fails and, with no error boundary in the tree, the
    application is unmounted; that outcome is [inr] with the error. *)
Definition magicFill_end (r : Response) (st : FormState) : FormState + string :=
  match r with
  | Resolved t =>
      let data := structure_result t in
      if val_truthy data then
        match upd_magic data (formData st) with
        | Some fd => inl (set_isGenerating None (set_formData fd st))
        | None => inr "TypeError"
        end
      else inl (set_isGenerating None st)
  | Rejected _ => inl (set_isGenerating None st)
  end.

(** ** Enabled controls (lines 143, 164) *)
Definition magic_enabled (st : FormState) : bool :=
  negb (bool_decide (isGenerating st = Some "all")).
Definition aiHelp_enabled (st : FormState) : bool :=
  negb (bool_decide (is_Some (isGenerating st))).

(** ** A section as rendered (lines 158-177) *)

(** Its label, whether its AI button shows the spinner
    ([isGenerating === section.id]) and is enabled, and the value of
    its textarea ([formData[section.id]]). *)
Record SectionView := mkSectionView {
  sv_label : string; sv_spinner : bool; sv_ai_enabled : bool; sv_value : Val }.

Definition section_view (st : FormState) (sec : AISection) : SectionView :=
  mkSectionView (sec_label sec)
    (bool_decide (isGenerating st = Some (key_name (sec_id sec))))
    (aiHelp_enabled st)
    (fd_get (formData st) (sec_id sec)).
End Handlers.

(** ** The type of the form *)

(** [Partial<Initiative>] as TypeScript types it: every property but the
    optional [id] holds a string. *)

Definition typed_keys : list Key :=
  [K_title; K_subject; K_grade; K_year; K_abstract; K_situation; K_solutions; K_results; K_status].

Definition fd_typed (fd : FormData) : bool := forallb (fun k => is_str (fd_get fd k)) typed_keys.

(** ** Lemmas *)

Lemma fd_get_set (fd : FormData) (k k' : Key) (v : Val) :
  fd_get (fd_set fd k v) k' = if decide (k' = k) then v else fd_get fd k'.
Proof. by destruct k'. Qed.

Lemma fd_get_of_fun (f : Key -> Val) (k : Key) : fd_get (fd_of_fun f) k = f k.
Proof. by destruct k. Qed.

#[export] Hint Rewrite fd_get_set fd_get_of_fun : skkn.

Lemma fd_typed_spec (fd : FormData) :
  fd_typed fd = true <-> forall k, k <> K_id -> is_str (fd_get fd k) = true.
Proof.
  unfold fd_typed. rewrite forallb_forall. split.
  - intros H k Hk. apply H. destruct k; simpl; tauto.
  - intros H k Hk. apply H. intros ->. simpl in Hk. intuition discriminate.
Qed.

Lemma fd_typed_set (fd : FormData) (k : Key) (v : Val) :
  fd_typed fd = true -> is_str v = true -> fd_typed (fd_set fd k v) = true.
Proof.
  rewrite !fd_typed_spec. intros Hfd Hv k' Hk'. rewrite fd_get_set. case_decide; auto.
Qed.

Lemma fd_init_typed (d : option Initiatives.Initiative) : fd_typed (fd_init d) = true.
Proof. by destruct d. Qed.

#[export] Hint Resolve fd_typed_set fd_init_typed : skkn.

(** A value that conforms to the outline's schema is an object with
    three strings and an array of strings. *)
Lemma outline_fields (v : Val) :
  conforms outline_schema v = true ->
  val_truthy v = true /\
  exists a sit sols r, get v "abstract" = VStr a /\ get v "situation" = VStr sit /\
    get v "solutions" = VArr (map VStr sols) /\ get v "results" = VStr r.
Proof.
  intros Hc. destruct v as [| | | | | |kvs]; try discriminate. split; [done|].
  unfold get.
  destruct (conforms_required _ _ _ "abstract" _ Hc ltac:(simpl; tauto) ltac:(simpl; tauto))
    as (x1 & -> & (a & ->)%conforms_string).
  destruct (conforms_required _ _ _ "situation" _ Hc ltac:(simpl; tauto) ltac:(simpl; tauto))
    as (x2 & -> & (sit & ->)%conforms_string).
  destruct (conforms_required _ _ _ "solutions" _ Hc ltac:(simpl; tauto) ltac:(simpl; tauto))
    as (x3 & -> & (sols & ->)%conforms_string_array).
  destruct (conforms_required _ _ _ "results" _ Hc ltac:(simpl; tauto) ltac:(simpl; tauto))
    as (x4 & -> & (r & ->)%conforms_string).
  eauto 10.
Qed.

(** The fallback ["{}"] does not conform. *)
Lemma outline_empty_not_conforming : conforms outline_schema (VObj []) = false.
Proof. reflexivity. Qed.

Section HandlerLemmas.
Context {E : JsEngine}.

(** C11: a suggestion is appended to the field it was asked for, after a
    blank line, whatever the form became while the request was in
    flight; every other field is kept and the spinner is cleared. *)
Theorem aiHelp_appends (field : Key) (s : string) (t : option string) (st : FormState) :
  fd_get (formData st) field = VStr s ->
  isGenerating (aiHelp_end field (Resolved t) st) = None /\
  forall k, fd_get (formData (aiHelp_end field (Resolved t) st)) k =
    if decide (k = field) then VStr (s +:+ nl +:+ nl +:+ (t ||| "")) else fd_get (formData st) k.
Proof.
  intros Hs. split; [done|]. intros k. simpl. unfold upd_ai. rewrite Hs.
  autorewrite with skkn. done.
Qed.

(** without a title, Magic Write only alerts: no request is sent
    and the state is unchanged. *)
Theorem magicFill_no_title (snap : FormData) (st : FormState) :
  val_truthy (fd_title snap) = false ->
  magicFill_begin snap st = (st, Alerted no_title_alert).
Proof. intros H. unfold magicFill_begin. by rewrite H. Qed.

(** an answer that parses to the outline requested (three strings
    and an array of strings) fills the four sections, the solutions one
    per line, keeps the header fields and clears the spinner. *)
Theorem magicFill_fills (text a sit r : string) (sols : list string) (st : FormState) :
  text <> "" ->
  JSON_parse text = Some (VObj [("abstract", VStr a); ("situation", VStr sit);
                                ("solutions", VArr (map VStr sols)); ("results", VStr r)]) ->
  exists st', magicFill_end (Resolved (Some text)) st = inl st' /\
    isGenerating st' = None /\
    forall k, fd_get (formData st') k =
      match k with
      | K_abstract => VStr a | K_situation => VStr sit
      | K_solutions => VStr (str_join nl sols) | K_results => VStr r
      | _ => fd_get (formData st) k
      end.
Proof.
  intros Ht Hp. unfold magicFill_end, structure_result. rewrite js_or_nonempty, Hp by done.
  eexists. split; [reflexivity|]. split; [done|].
  intros k. simpl. autorewrite with skkn. by destruct k.
Qed.

(** C10: when the answer has no text, [generateSKKNStructure] parses
    ["{}"], an object without [solutions]; [data] is truthy, and the
    updater's [data.solutions.join] throws while React renders. *)
Theorem magicFill_empty_crash `{!JsEngineLaws E} (t : option string) (st : FormState) :
  js_truthy t = false ->
  magicFill_end (Resolved t) st = inr "TypeError".
Proof.
  intros Ht. unfold magicFill_end, structure_result. by rewrite js_or_falsy, JSON_parse_empty_object.
Qed.

(** C21: the Magic Write button is enabled again while its request is
    still in flight: a suggestion requested before it settles and clears
    [isGenerating], so a second outline can be requested. *)
Theorem magic_reenabled_while_pending (snap : FormData) (field : Key) (prompt : string)
  (t : option string) (st : FormState) :
  aiHelp_enabled st = true -> val_truthy (fd_title snap) = true ->
  let st1 := fst (aiHelp_begin snap field prompt st) in
  magic_enabled st1 = true /\
  let '(st2, m) := magicFill_begin snap st1 in
  (exists c, m = Requested c) /\
  magic_enabled (aiHelp_end field (Resolved t) st2) = true.
Proof.
  intros _ Ht. simpl. unfold magic_enabled. simpl.
  rewrite bool_decide_false by (destruct field; discriminate).
  split; [done|]. unfold magicFill_begin. rewrite Ht. simpl. eauto.
Qed.

(** C14: the form keeps its TypeScript type: the first render's
    [formData] has a string in every property but [id], and an input's
    change, a suggestion (answered or not), a submission and a Magic
    Write whose answer gives strings for the copied properties all keep
    it so. *)
Theorem form_typed_invariant (d : option Initiatives.Initiative) (st : FormState) :
  fd_typed (fd_init d) = true /\
  (fd_typed (formData st) = true ->
   (forall snap k v, fd_typed snap = true -> fd_typed (formData (onChange snap k v st)) = true) /\
   (forall field r, fd_typed (formData (aiHelp_end field r st)) = true) /\
   (forall s, fd_typed (submit_payload (formData st) s) = true) /\
   (forall t st', magicFill_end (Resolved t) st = inl st' ->
      Forall (fun k => is_str (get (structure_result t) k) = true)
        ["abstract"; "situation"; "results"] ->
      fd_typed (formData st') = true)).
Proof.
  split; [apply fd_init_typed|]. intros Hst. split; [|split; [|split]].
  - intros snap k v Hs. simpl. by apply fd_typed_set.
  - intros field [t|m]; simpl; [|done]. unfold upd_ai. by apply fd_typed_set.
  - intros s. by apply fd_typed_set.
  - intros t st' Hm Hk. rewrite !Forall_cons in Hk. destruct Hk as (Ha & Hsit & Hr & _).
    unfold magicFill_end in Hm. destruct (val_truthy _); [|by injection Hm as <-].
    unfold upd_magic in Hm. destruct (get _ "solutions"); try discriminate.
    injection Hm as <-. simpl. repeat apply fd_typed_set; done.
Qed.

(** An answer that leaves out a property of the outline writes
    [undefined] into the form. *)
Lemma magicFill_missing_results (t : string) (st : FormState) (l : list Val) :
  t <> "" ->
  JSON_parse t = Some (VObj [("abstract", VStr ""); ("situation", VStr ""); ("solutions", VArr l)]) ->
  exists st', magicFill_end (Resolved (Some t)) st = inl st' /\
    fd_get (formData st') K_results = VUndef.
Proof.
  intros Ht Hp. unfold magicFill_end, structure_result. rewrite js_or_nonempty, Hp by done.
  eexists. split; [reflexivity|]. simpl. by autorewrite with skkn.
Qed.
(** C12: when the parsed answer conforms to the response schema that
    [generateSKKNStructure] sends, Magic Write always succeeds: the four
    sections get the answer's strings (the solutions one per line), the
    header fields are kept, the spinner is cleared and the form keeps its
    type.  The crash of an empty answer needs a non-conforming value:
    ["{}"] lacks the required keys. *)
Theorem magicFill_conforming (t : option string) (v : Val) (st : FormState) :
  JSON_parse (t ||| "{}") = Some v -> conforms outline_schema v = true ->
  exists a sit sols r st',
    get v "abstract" = VStr a /\ get v "situation" = VStr sit /\
    get v "solutions" = VArr (map VStr sols) /\ get v "results" = VStr r /\
    magicFill_end (Resolved t) st = inl st' /\
    isGenerating st' = None /\
    (forall k, fd_get (formData st') k =
      match k with
      | K_abstract => VStr a | K_situation => VStr sit
      | K_solutions => VStr (str_join nl sols) | K_results => VStr r
      | _ => fd_get (formData st) k
      end) /\
    (fd_typed (formData st) = true -> fd_typed (formData st') = true).
Proof.
  intros Hp Hc. destruct (outline_fields v Hc) as (Ht & a & sit & sols & r & Ha & Hs & Hl & Hr).
  exists a, sit, sols, r. eexists. do 4 (split; [done|]).
  split; [unfold magicFill_end, structure_result; rewrite Hp, Ht; unfold upd_magic; rewrite Hl;
          reflexivity|].
  split; [done|]. split.
  - intros k. simpl. autorewrite with skkn. rewrite Ha, Hs, Hr. by destruct k.
  - intros Hty. simpl. rewrite Ha, Hs, Hr. repeat apply fd_typed_set; done.
Qed.
End HandlerLemmas.

(** ** The sections *)

Lemma sections_cases (sec : AISection) :
  sec ∈ sections -> Exists (fun sec' => sec = sec') sections.
Proof. by rewrite Exists_exists; eauto. Qed.

Ltac section_case H := apply sections_cases in H; unfold sections in H; rewrite !Exists_cons in H;
  destruct H as [->|[->|[->|[->|H%Exists_nil]]]]; [..|done].

Section SectionLemmas.
Context {E : JsEngine}.

(** C15: each section's AI button asks for the field that the section's
    own textarea shows: while the request is in flight the spinner is
    on that section's button and on no other; when it settles, that
    section's textarea shows its text, a blank line and the suggestion,
    every other section's textarea shows what it showed, and every AI
    button is enabled again without a spinner. *)
Theorem section_ai_targets_textarea (snap : FormData) (st : FormState) (sec : AISection)
    (r : option string) :
  sec ∈ sections ->
  let st1 := (aiHelp_click snap sec st).1 in
  let st2 := aiHelp_click_end sec (Resolved r) st1 in
  (forall sec', sec' ∈ sections -> sv_spinner (section_view st1 sec') = true <-> sec' = sec) /\
  sv_value (section_view st2 sec) =
    VStr (val_to_string num_to_string (val_or (sv_value (section_view st sec)) (VStr ""))
          +:+ nl +:+ nl +:+ getAISuggestions_result r) /\
  (forall sec', sec' ∈ sections -> sec' <> sec ->
     sv_value (section_view st2 sec') = sv_value (section_view st sec')) /\
  (forall sec', sv_spinner (section_view st2 sec') = false /\ sv_ai_enabled (section_view st2 sec') = true).
Proof.
  intros Hsec. cbv zeta. split; [|split; [|split]].
  - intros sec' Hsec'. simpl. rewrite bool_decide_eq_true.
    section_case Hsec; section_case Hsec'; simpl; split; congruence.
  - simpl. unfold upd_ai. autorewrite with skkn. by rewrite decide_True.
  - intros sec' Hsec' Hne. simpl. unfold upd_ai. autorewrite with skkn.
    rewrite decide_False; [done|].
    section_case Hsec; section_case Hsec'; simpl; congruence.
  - done.
Qed.
End SectionLemmas.


(** A form opened on an initiative whose grade is no option shows the
    first option while the state keeps the grade. *)
Lemma select_shows_mismatch (i : Initiatives.Initiative) :
  Initiatives.grade i ∉ grade_options ->
  select_shows grade_options (fd_get (fd_init (Some i)) K_grade) = Some "Lớp 1".
Proof. intros Hg. simpl. rewrite decide_False by done. reflexivity. Qed.

(** ** Concrete instances *)

Definition sample_num_to_string (q : Q) : string := if Qeq_bool q 0 then "0" else "1".

Definition sample_answer : string :=
  "{" +:+ dq +:+ "abstract" +:+ dq +:+ ":" +:+ dq +:+ "A" +:+ dq +:+ ","
  +:+ dq +:+ "situation" +:+ dq +:+ ":" +:+ dq +:+ "S" +:+ dq +:+ ","
  +:+ dq +:+ "solutions" +:+ dq +:+ ":[" +:+ dq +:+ "G1" +:+ dq +:+ "," +:+ dq +:+ "G2" +:+ dq +:+ "],"
  +:+ dq +:+ "results" +:+ dq +:+ ":" +:+ dq +:+ "R" +:+ dq +:+ "}".

(** [JSON.parse] on the two texts the instances use. *)
Definition sample_parse (s : string) : option Val :=
  if String.eqb s "{}" then Some (VObj [])
  else if String.eqb s sample_answer then
    Some (VObj [("abstract", VStr "A"); ("situation", VStr "S");
                ("solutions", VArr (map VStr ["G1"; "G2"])); ("results", VStr "R")])
  else None.

#[local] Instance sample_engine : JsEngine :=
  {| num_to_string := sample_num_to_string; JSON_parse := sample_parse |}.

#[local] Instance sample_engine_laws : JsEngineLaws sample_engine.
Proof. constructor. reflexivity. Qed.

Definition sample_form : FormState :=
  mkFormState (fd_set fd_defaults K_title (VStr "Dạy học STEM")) None.

Lemma aiHelp_appends_witness :
  fd_get (formData sample_form) K_abstract = VStr "" /\
  isGenerating (aiHelp_end K_abstract (Resolved (Some "Gợi ý")) sample_form) = None.
Proof.
  split; [reflexivity|].
  apply (aiHelp_appends K_abstract "" (Some "Gợi ý") sample_form).
  reflexivity.
Defined.

Lemma magicFill_no_title_witness :
  val_truthy (fd_title fd_defaults) = false /\
  magicFill_begin fd_defaults sample_form = (sample_form, Alerted no_title_alert).
Proof.
  split; [reflexivity|]. apply magicFill_no_title. reflexivity.
Defined.

Lemma magicFill_fills_witness :
  sample_answer <> "" /\
  exists st', magicFill_end (Resolved (Some sample_answer)) sample_form
    = inl st' /\ isGenerating st' = None /\
    fd_get (formData st') K_solutions = VStr (str_join nl ["G1"; "G2"]).
Proof.
  split; [discriminate|].
  destruct (magicFill_fills sample_answer "A" "S" "R" ["G1"; "G2"]
    sample_form) as (st' & H1 & H2 & H3); [discriminate | reflexivity |].
  exists st'. split; [done|]. split; [done|]. apply (H3 K_solutions).
Defined.

Lemma magicFill_empty_crash_witness :
  sample_parse "{}" = Some (VObj []) /\ js_truthy (Some "") = false /\
  magicFill_end (Resolved (Some "")) sample_form = inr "TypeError".
Proof.
  split; [reflexivity|]. split; [reflexivity|].
  apply magicFill_empty_crash; reflexivity.
Defined.

Lemma magic_reenabled_while_pending_witness :
  aiHelp_enabled sample_form = true /\ val_truthy (fd_title (formData sample_form)) = true /\
  magic_enabled (fst (aiHelp_begin (formData sample_form) K_results "P" sample_form))
    = true.
Proof.
  split; [reflexivity|]. split; [reflexivity|].
  apply (magic_reenabled_while_pending (formData sample_form) K_results "P" None
    sample_form); reflexivity.
Defined.

Lemma form_typed_invariant_witness :
  fd_typed (formData sample_form) = true /\
  fd_typed (formData (aiHelp_end K_solutions (Resolved None) sample_form)) = true.
Proof.
  split; [reflexivity|].
  destruct (form_typed_invariant None sample_form) as [_ H].
  apply H; reflexivity.
Defined.

Definition sample_outline : Val :=
  VObj [("abstract", VStr "A"); ("situation", VStr "S");
        ("solutions", VArr (map VStr ["G1"; "G2"])); ("results", VStr "R")].

Lemma magicFill_conforming_witness :
  sample_parse (Some sample_answer ||| "{}") = Some sample_outline /\
  conforms outline_schema sample_outline = true /\
  exists st', magicFill_end (Resolved (Some sample_answer)) sample_form
    = inl st'.
Proof.
  split; [reflexivity|]. split; [reflexivity|].
  destruct (magicFill_conforming (E:=sample_engine) (Some sample_answer) sample_outline
    sample_form eq_refl eq_refl) as (a & sit & sols & r & st' & _ & _ & _ & _ & H & _).
  by exists st'.
Defined.

Definition sample_section : AISection := nth 2 sections (mkAISection K_id "" "").

Lemma section_ai_targets_textarea_witness :
  sample_section ∈ sections /\
  sv_value (section_view (aiHelp_click_end sample_section (Resolved (Some "G"))
    (aiHelp_click (formData sample_form) sample_section sample_form).1) sample_section) =
  VStr (val_to_string num_to_string (val_or (sv_value (section_view sample_form sample_section)) (VStr ""))
        +:+ nl +:+ nl +:+ getAISuggestions_result (Some "G")).
Proof.
  assert (H : sample_section ∈ sections) by (apply list_elem_of_In; simpl; tauto).
  split; [exact H|].
  apply (section_ai_targets_textarea (E:=sample_engine) (formData sample_form) sample_form
    sample_section (Some "G") H).
Defined.
